(** * head_probe.py: dispatcher of head-probing and full-model-probing runs

    A shallow embedding of [probe_heads] and [probe_model].  The script
    talks to the outside world in four ways: it lists the file system
    ([Path.rglob], [Path.is_dir], [Path.mkdir]), prints, starts
    subprocesses ([subprocess.Popen]) and waits for them
    ([Popen.communicate]).  The file system listing, the exit codes and the
    captured stderr are what the world answers: they are the fields of
    [Env].  What the script does to the world is recorded, in order, in the
    [trace] of a [World]; Python exceptions are the [Raise] results of a
    small state-and-error monad [M].

    The embedding follows the runs in which the operating system lets the
    script do its work: [Path.mkdir], [subprocess.Popen] and [print] do not
    raise in it. *)

From Stdlib Require Import String Ascii List ZArith Arith Lia Bool.
From Stdlib Require Import Decimal DecimalString.
Import ListNotations.
Local Open Scope string_scope.
Local Open Scope list_scope.
Local Open Scope nat_scope.

Infix "+++" := String.append (at level 60, right associativity).

(** ** Python values used by the script *)

Module Py.

(** [str(n)] on a non-negative [int] and on an [int]. *)
Definition str_nat (n : nat) : string := NilZero.string_of_uint (Nat.to_uint n).
Definition str (z : Z) : string := NilZero.string_of_int (Z.to_int z).

(** [str((a, b))] for a pair of ints: the tuple's repr. *)
Definition str_pair (p : nat * nat) : string :=
  "(" +++ str_nat (fst p) +++ ", " +++ str_nat (snd p) +++ ")".

(** [s.lower()] on ASCII text. *)
Definition lower_ascii (c : ascii) : ascii :=
  let n := nat_of_ascii c in
  if (65 <=? n) && (n <=? 90) then ascii_of_nat (n + 32) else c.

Fixpoint lower (s : string) : string :=
  match s with
  | EmptyString => EmptyString
  | String c r => String (lower_ascii c) (lower r)
  end.

Definition nl : string := String (ascii_of_nat 10) EmptyString.
Definition tab : string := String (ascii_of_nat 9) EmptyString.

(** [s.split('\n')]: the text between newlines, the empty string
    included; [cur] is the piece read so far, reversed. *)
Fixpoint split_lines_from (cur : string) (s : string) : list string :=
  match s with
  | EmptyString => [cur]
  | String c r =>
      if Ascii.eqb c (ascii_of_nat 10)
      then cur :: split_lines_from EmptyString r
      else split_lines_from (cur +++ String c EmptyString) r
  end.

Definition split_lines (s : string) : list string :=
  split_lines_from EmptyString s.

(** [' '.join(parts)]. *)
Definition join (sep : string) (parts : list string) : string :=
  String.concat sep parts.

End Py.

Module HeadProbe.

(** ** The enums of [experiments.exp_def] *)

(** Modelled from the spec: the declaration of [LingualSetting] is in
  [experiments/exp_def.py], which is not part of the sources; its members
  are the three settings that the docstring of [probe_heads] and the
  spec's glossary name (cross, multi, base).  [probe_heads] and
  [probe_model] only use a member's [name] and compare it with [BASE]. *)
Inductive LingualSetting : Type := CROSS | MULTI | BASE.

Definition setting_name (s : LingualSetting) : string :=
match s with
| CROSS => "CROSS"
| MULTI => "MULTI"
| BASE => "BASE"
end.

(** [s is not LingualSetting.BASE]. *)
Definition is_not_BASE (s : LingualSetting) : bool :=
match s with
| BASE => false
| _ => true
end.

(** Modelled from the spec: [Experiment] is declared in
  [experiments/exp_def.py] too; the script only reads the [name] of a
  member, so a member is its name. *)
Record Experiment : Type := { name : string }.

(** ** Paths *)

(** A [pathlib.Path] is kept as the text [str(path)] gives.  The segments
  that the script joins are enum names and decimal numbers, so no segment
  is absolute or empty and [joinpath] is concatenation with [/]. *)
Definition Path : Type := string.

Definition joinpath (p : Path) (segments : list string) : Path :=
fold_left (fun acc x => acc +++ "/" +++ x) segments p.

(** ** The world *)

Inductive Exn : Type :=
| ValueError
| IndexError
| ZeroDivisionError
| NameError
| UnicodeDecodeError.

Inductive result (A : Type) : Type :=
| Ok (a : A)
| Raise (e : Exn).
Arguments Ok {A} a.
Arguments Raise {A} e.

(** A [bytes] object read from a pipe.  The script does one thing with
  it, [decode('utf-8')] (line 87): so it is kept as the text that it
  encodes, or as [NotUtf8] when it is not valid UTF-8. *)
Inductive Bytes : Type :=
| Utf8 (text : string)
| NotUtf8.

(** Where a subprocess's stdout or stderr goes. *)
Inductive stream : Type := INHERIT | DEVNULL | PIPE.

Inductive Event : Type :=
| EvPrint (line : string)
| EvMkdir (p : Path)
| EvPopen (pid : nat) (cmd : string) (out err : stream)
| EvWait (pid : nat).

(** A [Popen] object: how its stderr was opened, and its [returncode]
  attribute, which is [None] until the process has been waited for. *)
Record Proc : Type := { proc_stderr : stream; returncode : option Z }.

(** A process handle is the index of its [Popen] object in [procs], that
  is, the number of subprocesses started before it. *)
Record World : Type := { trace : list Event; procs : list Proc }.

Definition empty_world : World := {| trace := []; procs := [] |}.

(** What the world answers.
  - [rglob d pat]: the paths under [d] whose last segment matches [pat],
    in the order the operating system lists them;
  - [is_dir p];
  - [n_class f t]: [TaskDefs(f).get_task_def(t).n_class], from the task
    definition file (read by code outside the sources);
  - [exit_code pid] and [stderr_bytes pid]: the exit status of the
    subprocess [pid] and the bytes that it wrote to its stderr. *)
Record Env : Type := {
rglob : Path -> string -> list Path;
is_dir : Path -> bool;
n_class : Path -> string -> Z;
exit_code : nat -> Z;
stderr_bytes : nat -> Bytes
}.

(** ** The monad of the script: state passing with exceptions *)

Definition M (A : Type) : Type := World -> result A * World.

Definition ret {A} (a : A) : M A := fun w => (Ok a, w).

Definition raise {A} (e : Exn) : M A := fun w => (Raise e, w).

Definition bind {A B} (c : M A) (k : A -> M B) : M B :=
fun w =>
  match c w with
  | (Ok a, w') => k a w'
  | (Raise e, w') => (Raise e, w')
  end.

Notation "x <- c ;; k" := (bind c (fun x => k))
(at level 61, c at next level, right associativity).
Notation "c ;;; k" := (bind c (fun _ => k))
(at level 61, right associativity).

Definition emit (e : Event) : M unit :=
fun w => (Ok tt, {| trace := trace w ++ [e]; procs := procs w |}).

Definition print (line : string) : M unit := emit (EvPrint line).

(** [p.mkdir(parents=True, exist_ok=True)]. *)
Definition mkdir (p : Path) : M unit := emit (EvMkdir p).

(** [subprocess.Popen(cmd, shell=True, stdout=out, stderr=err)]. *)
Definition Popen (cmd : string) (out err : stream) : M nat :=
fun w =>
  let pid := length (procs w) in
  (Ok pid,
   {| trace := trace w ++ [EvPopen pid cmd out err];
      procs := procs w ++ [{| proc_stderr := err; returncode := None |}] |}).

Fixpoint set_returncode (l : list Proc) (pid : nat) (rc : Z) : list Proc :=
match l, pid with
| [], _ => []
| p :: r, O => {| proc_stderr := proc_stderr p; returncode := Some rc |} :: r
| p :: r, S k => p :: set_returncode r k rc
end.

(** [process.communicate()]: waits for the process, sets its [returncode]
  and returns the pair (stdout, stderr); a stream that is not a pipe gives
  [None]. The script never pipes stdout. *)
Definition communicate (env : Env) (pid : nat) : M (option Bytes * option Bytes) :=
fun w =>
  let err :=
    match nth_error (procs w) pid with
    | Some {| proc_stderr := PIPE |} => Some (stderr_bytes env pid)
    | _ => None
    end in
  (Ok (None, err),
   {| trace := trace w ++ [EvWait pid];
      procs := set_returncode (procs w) pid (exit_code env pid) |}).

(** [b.decode('utf-8')]. *)
Definition decode (b : Bytes) : M string :=
match b with
| Utf8 text => ret text
| NotUtf8 => raise UnicodeDecodeError
end.

(** [process.returncode]. *)
Definition get_returncode (pid : nat) : M (option Z) :=
fun w =>
  (Ok match nth_error (procs w) pid with
      | Some p => returncode p
      | None => None
      end, w).

(** [l[i]] for [0 <= i]. *)
Definition py_index {A} (l : list A) (i : nat) : M A :=
match nth_error l i with
| Some x => ret x
| None => raise IndexError
end.

(** [a % b] for non-negative [a] and [b]. *)
Definition py_mod (a b : nat) : M nat :=
match b with
| O => raise ZeroDivisionError
| S _ => ret (a mod b)
end.

(** ** [probe_heads] *)

(** A started job: the tuple [(hl, hi, did, process)]. *)
Definition Job : Type := (nat * nat * Z * nat)%type.

Definition job_head (p : Job) : nat * nat := let '(hl, hi, _, _) := p in (hl, hi).
Definition job_did (p : Job) : Z := let '(_, _, did, _) := p in did.
Definition job_process (p : Job) : nat := let '(_, _, _, process) := p in process.

Section ProbeHeads.

Variable env : Env.
Variable setting : LingualSetting.
Variable finetuned_task : Experiment.
Variable task : Experiment.
Variable models_per_gpu : Z.
Variable devices : list Z.

Definition task_root : Path := "experiments/" +++ name task.
Definition task_def_path : Path := joinpath task_root ["task_def.yaml"].
Definition n_classes : Z := n_class env task_def_path (Py.lower (name task)).

Definition checkpoint_dir : Path :=
joinpath ("checkpoint/head_probing/" +++ name finetuned_task) [name task].

Definition dir_for_head (hl hi : nat) : Path :=
joinpath checkpoint_dir
         [Py.lower (setting_name setting); Py.str_nat hl; Py.str_nat hi].

(** [itertools.product(range(12), repeat=2)]. *)
Definition grid : list (nat * nat) := list_prod (seq 0 12) (seq 0 12).

(** The completion marker test of line 41. *)
Definition unprobed (h : nat * nat) : bool :=
length (rglob env (dir_for_head (fst h) (snd h)) "model_1_*.pt") =? 0.

(** Lines 38-42: the heads without a completion marker, in grid order. *)
Definition heads_to_probe : list (nat * nat) := filter unprobed grid.

(** Lines 48-50. *)
Fixpoint assign_devices (i : nat) (hs : list (nat * nat)) (device_ids : list Z)
: M (list Z) :=
match hs with
| [] => ret device_ids
| _ :: rest =>
    k <- py_mod i (length devices) ;;
    d <- py_index devices k ;;
    assign_devices (S i) rest (device_ids ++ [d])
end.

(** Lines 53-54. *)
Fixpoint print_heads (device_ids : list Z) (i : nat) (hs : list (nat * nat))
: M unit :=
match hs with
| [] => ret tt
| hp :: rest =>
    d <- py_index device_ids i ;;
    print (Py.lower (setting_name setting) +++ " " +++ Py.str_pair hp
           +++ " " +++ "GPU: " +++ Py.str d) ;;;
    print_heads device_ids (S i) rest
end.

Definition finetuned_checkpoint_dir : Path :=
"checkpoint/" +++ name finetuned_task +++ "_" +++ Py.lower (setting_name setting).

(** Lines 64-74: the command line of one head's job. *)
Definition head_template (hl hi : nat) (did : Z) : M string :=
let template := "python train.py --local_rank -1 " in
let template := template +++ "--dataset_name " +++ name task +++ "/cross " in
template <-
  (if is_not_BASE setting
   then
     finetuned_checkpoint <-
       py_index (rglob env finetuned_checkpoint_dir "model_5*.pt") 0 ;;
     ret (template +++ "--resume --model_ckpt " +++ finetuned_checkpoint +++ " ")
   else ret template) ;;
let template :=
  template +++ "--epochs 2 --output_dir " +++ dir_for_head hl hi +++ " " in
let template :=
  template +++ "--init_checkpoint bert-base-multilingual-cased --devices "
           +++ Py.str did +++ " " in
ret (template +++ "--head_probe --head_probe_layer " +++ Py.str_nat hl
              +++ " --head_probe_idx " +++ Py.str_nat hi
              +++ " --head_probe_n_classes " +++ Py.str n_classes).

(** Line 82 and line 97: [[p[-1].communicate() for p in processes]]. *)
Fixpoint communicate_all (processes : list Job)
: M (list (option Bytes * option Bytes)) :=
match processes with
| [] => ret []
| p :: rest =>
    r <- communicate env (job_process p) ;;
    rs <- communicate_all rest ;;
    ret (r :: rs)
end.

(** Lines 89-90. *)
Fixpoint print_errors (errors : list string) : M unit :=
match errors with
| [] => ret tt
| e :: rest => print (Py.tab +++ e) ;;; print_errors rest
end.

Definition prefix_str (p : Job) : string :=
"[" +++ setting_name setting +++ "] [GPU " +++ Py.str (job_did p) +++ "] "
    +++ Py.str_pair (job_head p) +++ ":".

(** Lines 83-93: the loop over [enumerate(results)]. *)
Fixpoint check_results (processes : list Job) (ri : nat)
       (results : list (option Bytes * option Bytes)) : M unit :=
match results with
| [] => ret tt
| r :: rest =>
    p <- py_index processes ri ;;
    rc <- get_returncode (job_process p) ;;
    match snd r, rc with
    | Some err, Some 1%Z =>
        text <- decode err ;;
        let errors := Py.split_lines text in
        print (prefix_str p) ;;;
        print_errors errors ;;;
        raise ValueError
    | _, _ =>
        print (prefix_str p +++ " completed") ;;;
        check_results processes (S ri) rest
    end
end.

(** Lines 59-94: the loop over [enumerate(heads_to_probe)]; [processes]
  is the list of the same name, as it is when job [i] is reached. *)
Fixpoint launch (device_ids : list Z) (i : nat) (hs : list (nat * nat))
       (processes : list Job) : M (list Job) :=
match hs with
| [] => ret processes
| (hl, hi) :: rest =>
    did <- py_index device_ids i ;;
    mkdir (dir_for_head hl hi) ;;;
    template <- head_template hl hi did ;;
    print ("[" +++ setting_name setting +++ "] [GPU " +++ Py.str did +++ "] "
           +++ name finetuned_task +++ "->" +++ name task +++ " "
           +++ Py.str_pair (hl, hi)) ;;;
    process <- Popen template DEVNULL PIPE ;;
    let processes := processes ++ [(hl, hi, did, process)] in
    if (Z.of_nat (length processes) =? Z.of_nat (length devices) * models_per_gpu)%Z
    then
      results <- communicate_all processes ;;
      check_results processes 0 results ;;;
      launch device_ids (S i) rest []
    else
      launch device_ids (S i) rest processes
end.

Definition probe_heads : M unit :=
if length heads_to_probe =? 0 then ret tt
else
  device_ids <- assign_devices 0 heads_to_probe [] ;;
  print "heads to probe:" ;;;
  print_heads device_ids 0 heads_to_probe ;;;
  print Py.nl ;;;
  processes <- launch device_ids 0 heads_to_probe [] ;;
  results <- communicate_all processes ;;
  ret tt.

End ProbeHeads.

(** ** [probe_model] *)

Section ProbeModel.

Variable env : Env.

(** The value of the module-level name [setting], which lines 104 and 134
  read: [probe_model] has no parameter or local of that name. *)
Variable setting : LingualSetting.

Variable finetuned_setting : LingualSetting.
Variable finetuned_task : Experiment.
Variable downstream_setting : LingualSetting.
Variable downstream_task : Experiment.
Variable devices : list Z.

(** Line 104. *)
Definition task_info_str : string :=
name finetuned_task +++ "_" +++ Py.lower (setting_name setting) +++ " -> "
  +++ name downstream_task +++ ", " +++ Py.lower (setting_name downstream_setting).

(** Line 105. *)
Definition devices_str : string := Py.join " " (map Py.str devices).

Definition model_task_root : Path := "experiments/" +++ name downstream_task.
Definition model_task_def_path : Path := joinpath model_task_root ["task_def.yaml"].
Definition model_n_classes : Z :=
n_class env model_task_def_path (Py.lower (name downstream_task)).

(** Lines 115-125. *)
Definition model_checkpoint_dir : Path :=
match finetuned_setting with
| BASE =>
    joinpath "checkpoint/full_model_probe"
             [Py.lower (setting_name downstream_setting) +++ "_head_training";
              "mBERT";
              name downstream_task]
| _ =>
    joinpath "checkpoint/full_model_probe"
             [Py.lower (setting_name downstream_setting) +++ "_head_training";
              name finetuned_task;
              Py.lower (setting_name finetuned_setting);
              name downstream_task]
end.

(** Line 135. *)
Definition model_finetuned_checkpoint_dir : Path :=
"checkpoint/" +++ name finetuned_task +++ "_"
              +++ Py.lower (setting_name finetuned_setting).

(** Lines 131-141: the command line. *)
Definition model_template : M string :=
let template := "python train.py --local_rank -1 " in
let template :=
  template +++ "--dataset_name " +++ name downstream_task +++ "/"
           +++ Py.lower (setting_name downstream_setting) +++ " " in
template <-
  (if is_not_BASE setting
   then
     finetuned_checkpoint <-
       py_index (rglob env model_finetuned_checkpoint_dir "model_5*.pt") 0 ;;
     ret (template +++ "--resume --model_ckpt " +++ finetuned_checkpoint +++ " ")
   else ret template) ;;
let template :=
  template +++ "--epochs 2 --output_dir " +++ model_checkpoint_dir +++ " " in
let template :=
  template +++ "--init_checkpoint bert-base-multilingual-cased --devices "
           +++ devices_str +++ " " in
ret (template +++ "--model_probe --model_probe_n_classes " +++ Py.str model_n_classes).

End ProbeModel.

(** Looking up the module-level name [setting].  The name is bound by the
  loop [for setting in finetuned_settings] of the main block (line 175),
  which runs under the guard of line 147 only: in a call from a module that
  imports this one the name is not bound ([None]) and the lookup raises
  [NameError]. *)
Definition global_setting (setting : option LingualSetting) : M LingualSetting :=
match setting with
| Some s => ret s
| None => raise NameError
end.

(** Lines 104-145.  The first argument is the binding of the module-level
  name [setting] at the call; line 104 looks it up before anything else is
  done, and line 134 finds the same binding. *)
Definition probe_model (env : Env) (setting : option LingualSetting)
         (finetuned_setting : LingualSetting) (finetuned_task : Experiment)
         (downstream_setting : LingualSetting) (downstream_task : Experiment)
         (devices : list Z) : M unit :=
setting <- global_setting setting ;;
let task_info_str :=
  task_info_str setting finetuned_task downstream_setting downstream_task in
let checkpoint_dir :=
  model_checkpoint_dir finetuned_setting finetuned_task downstream_setting
                       downstream_task in
if is_dir env checkpoint_dir
then
  print (checkpoint_dir +++ " exists, skipping " +++ task_info_str)
else
  template <- model_template env setting finetuned_setting finetuned_task
                             downstream_setting downstream_task devices ;;
  print task_info_str ;;;
  process <- Popen template INHERIT INHERIT ;;
  results <- communicate env process ;;
  ret tt.

End HeadProbe.

Import HeadProbe.

(** The pending list filters the 144 heads of the grid: it is never
    unfolded by simplification. *)
Arguments heads_to_probe : simpl never.
Arguments grid : simpl never.

(** * Properties of the dispatcher *)

(** ** How the primitives change the world *)

Definition add_events (w : World) (evs : list Event) : World :=
  {| trace := trace w ++ evs; procs := procs w |}.

Definition all_piped (l : list Proc) : Prop :=
  Forall (fun p => proc_stderr p = PIPE) l.

Lemma add_events_nil w : add_events w [] = w.
Proof. destruct w; unfold add_events; cbn. now rewrite app_nil_r. Qed.

Lemma add_events_app w l1 l2 :
  add_events (add_events w l1) l2 = add_events w (l1 ++ l2).
Proof. unfold add_events; cbn. now rewrite app_assoc. Qed.

Lemma set_returncode_length l pid rc :
  length (set_returncode l pid rc) = length l.
Proof.
  revert pid; induction l as [|p l IH]; intros [|k]; cbn; auto.
Qed.

Lemma set_returncode_piped l pid rc :
  all_piped l -> all_piped (set_returncode l pid rc).
Proof.
  unfold all_piped. intros H; revert pid.
  induction H as [|p l Hp Hl IH]; intros [|k]; cbn; constructor; auto.
Qed.

Lemma nth_error_set_returncode_same l pid rc p :
  nth_error l pid = Some p ->
  nth_error (set_returncode l pid rc) pid
  = Some {| proc_stderr := proc_stderr p; returncode := Some rc |}.
Proof.
  revert pid; induction l as [|x l IH]; intros [|k]; cbn; try discriminate.
  - now intros [= ->].
  - apply IH.
Qed.

Lemma nth_error_set_returncode_other l pid rc q :
  q <> pid -> nth_error (set_returncode l pid rc) q = nth_error l q.
Proof.
  revert pid q; induction l as [|x l IH]; intros [|k] [|q] Hq; cbn;
    try reflexivity; try congruence.
  apply IH. congruence.
Qed.

(** Waiting for the processes [pids], one after the other. *)
Definition wait_all (env : Env) (l : list Proc) (pids : list nat) : list Proc :=
  fold_left (fun l pid => set_returncode l pid (exit_code env pid)) pids l.

Lemma wait_all_cons env l q pids :
  wait_all env l (q :: pids)
  = wait_all env (set_returncode l q (exit_code env q)) pids.
Proof. reflexivity. Qed.

Lemma wait_all_length env pids : forall l, length (wait_all env l pids) = length l.
Proof.
  induction pids as [|p pids IH]; intro l; [reflexivity|].
  rewrite wait_all_cons, IH. apply set_returncode_length.
Qed.

Lemma wait_all_piped env pids :
  forall l, all_piped l -> all_piped (wait_all env l pids).
Proof.
  induction pids as [|p pids IH]; intros l H; [exact H|].
  rewrite wait_all_cons. apply IH, set_returncode_piped, H.
Qed.

Lemma wait_all_other env pids pid :
  ~ In pid pids ->
  forall l, nth_error (wait_all env l pids) pid = nth_error l pid.
Proof.
  induction pids as [|r pids IH]; intros Hnot l; [reflexivity|].
  rewrite wait_all_cons, IH by (intro; apply Hnot; now right).
  apply nth_error_set_returncode_other. intros ->. apply Hnot. now left.
Qed.

(** After the wait every process waited for carries its exit code. *)
Lemma wait_all_returncode env pids :
  forall l pid,
    In pid pids -> pid < length l ->
    exists p, nth_error (wait_all env l pids) pid = Some p
              /\ returncode p = Some (exit_code env pid).
Proof.
  induction pids as [|q pids IH]; intros l pid Hin Hlt; [contradiction|].
  rewrite wait_all_cons. destruct (in_dec Nat.eq_dec pid pids) as [Hin'|Hnot].
  - apply IH; auto. now rewrite set_returncode_length.
  - destruct Hin as [->|Hin]; [|contradiction].
    destruct (nth_error l pid) as [p|] eqn:Hp.
    2:{ apply nth_error_None in Hp. lia. }
    exists {| proc_stderr := proc_stderr p; returncode := Some (exit_code env pid) |}.
    split; auto.
    rewrite wait_all_other by assumption.
    now apply nth_error_set_returncode_same.
Qed.

(** ** Reading a trace *)

(** The subprocesses that are running after the events of a trace: started
    and not yet waited for. *)
Definition live_step (l : list nat) (e : Event) : list nat :=
  match e with
  | EvPopen pid _ _ _ => l ++ [pid]
  | EvWait pid => filter (fun q => negb (q =? pid)) l
  | _ => l
  end.

Definition live_from (l : list nat) (t : list Event) : list nat :=
  fold_left live_step t l.

Definition live (t : list Event) : list nat := live_from [] t.

(** The batch joins of a trace: a join begins at a wait that follows a
    start, and lasts up to the next start.  The state is the number of
    joins so far and whether a subprocess was started since the last wait. *)
Definition joins_step (s : nat * bool) (e : Event) : nat * bool :=
  match e with
  | EvPopen _ _ _ _ => (fst s, true)
  | EvWait _ => if snd s then (S (fst s), false) else s
  | _ => s
  end.

Definition joins_from (s : nat * bool) (t : list Event) : nat * bool :=
  fold_left joins_step t s.

Definition batch_joins (t : list Event) : nat := fst (joins_from (0, false) t).

Definition is_popen (e : Event) : bool :=
  match e with
  | EvPopen _ _ _ _ => true
  | _ => false
  end.

Definition is_wait (e : Event) : bool :=
  match e with
  | EvWait _ => true
  | _ => false
  end.

(** The number of subprocesses that the events of a trace start. *)
Definition popens (t : list Event) : nat := length (filter is_popen t).

(** The lines that a trace prints, the subprocesses that it starts, and
    their command lines. *)
Definition printed (t : list Event) : list string :=
  flat_map (fun e => match e with EvPrint line => [line] | _ => [] end) t.

Definition launched (t : list Event) : list nat :=
  flat_map (fun e => match e with EvPopen pid _ _ _ => [pid] | _ => [] end) t.

Definition commands (t : list Event) : list string :=
  flat_map (fun e => match e with EvPopen _ cmd _ _ => [cmd] | _ => [] end) t.

(** [ceil(n / b)]. *)
Definition ceil_div (n b : nat) : nat := (n + b - 1) / b.

Lemma live_app t1 t2 : live (t1 ++ t2) = live_from (live t1) t2.
Proof. unfold live, live_from. apply fold_left_app. Qed.

Lemma live_from_app l t1 t2 :
  live_from l (t1 ++ t2) = live_from (live_from l t1) t2.
Proof. unfold live_from. apply fold_left_app. Qed.

Lemma joins_from_app s t1 t2 :
  joins_from s (t1 ++ t2) = joins_from (joins_from s t1) t2.
Proof. unfold joins_from. apply fold_left_app. Qed.

Lemma popens_app t1 t2 : popens (t1 ++ t2) = popens t1 + popens t2.
Proof. unfold popens. now rewrite filter_app, length_app. Qed.

Lemma live_step_length l e :
  length (live_step l e) <= length l + popens [e].
Proof.
  destruct e; cbn; try lia.
  - rewrite length_app. cbn. lia.
  - pose proof (filter_length_le (fun q => negb (q =? pid)) l). lia.
Qed.

Lemma live_from_length t :
  forall l, length (live_from l t) <= length l + popens t.
Proof.
  induction t as [|e t IH]; intro l; [cbn; lia|].
  change (live_from l (e :: t)) with (live_from (live_step l e) t).
  specialize (IH (live_step l e)).
  pose proof (live_step_length l e) as Hs.
  change (e :: t) with ([e] ++ t). rewrite popens_app. lia.
Qed.

Lemma live_from_quiet t :
  forallb (fun e => negb (is_popen e) && negb (is_wait e)) t = true ->
  forall l, live_from l t = l.
Proof.
  induction t as [|e t IH]; intros H l; [reflexivity|].
  cbn in H. apply andb_true_iff in H as [He Ht].
  cbn. fold (live_from (live_step l e) t). rewrite IH by assumption.
  destruct e; cbn in *; auto; discriminate.
Qed.

Lemma joins_from_quiet t :
  forallb (fun e => negb (is_popen e) && negb (is_wait e)) t = true ->
  forall s, joins_from s t = s.
Proof.
  induction t as [|e t IH]; intros H s; [reflexivity|].
  cbn in H. apply andb_true_iff in H as [He Ht].
  cbn. fold (joins_from (joins_step s e) t). rewrite IH by assumption.
  destruct e; cbn in *; auto; discriminate.
Qed.

Section HeadsFacts.

Variable env : Env.
Variable setting : LingualSetting.
Variable finetuned_task : Experiment.
Variable task : Experiment.
Variable models_per_gpu : Z.
Variable devices : list Z.

Abbreviation communicate_all := (communicate_all env).
Abbreviation check_results := (check_results setting).
Abbreviation prefix_str := (prefix_str setting).
Abbreviation launch := (launch env setting finetuned_task task models_per_gpu devices).
Abbreviation head_template := (head_template env setting finetuned_task task).
Abbreviation dir_for_head := (dir_for_head setting finetuned_task task).

Definition wait_events (ps : list Job) : list Event :=
  map (fun p => EvWait (job_process p)) ps.

Definition captured (ps : list Job) : list (option Bytes * option Bytes) :=
  map (fun p => (@None Bytes, Some (stderr_bytes env (job_process p)))) ps.

(** Lines 82 and 97 on processes started with [stderr=PIPE]. *)
Lemma communicate_all_spec ps :
  forall w,
    all_piped (procs w) ->
    Forall (fun p => job_process p < length (procs w)) ps ->
    communicate_all ps w
    = (Ok (captured ps),
       {| trace := trace w ++ wait_events ps;
          procs := wait_all env (procs w) (map job_process ps) |}).
Proof.
  induction ps as [|p ps IH]; intros w Hpipe Hlt.
  - cbn. unfold ret. destruct w; cbn. now rewrite app_nil_r.
  - inversion Hlt as [|? ? Hp Hps]; subst.
    cbn [HeadProbe.communicate_all]. unfold bind at 1. unfold communicate at 1.
    destruct (nth_error (procs w) (job_process p)) as [pr|] eqn:Hpr.
    2:{ apply nth_error_None in Hpr. lia. }
    assert (Hs : proc_stderr pr = PIPE).
    { unfold all_piped in Hpipe. rewrite Forall_forall in Hpipe.
      apply Hpipe. eapply nth_error_In; eauto. }
    destruct pr as [s rc]; cbn in Hs; subst s.
    unfold bind at 1. rewrite IH; cbn [procs trace].
    + unfold ret. cbn. now rewrite <- app_assoc.
    + now apply set_returncode_piped.
    + rewrite set_returncode_length. exact Hps.
Qed.

(** What lines 87-91 print for the job [p] that left [b] on its stderr,
    and the exception that they raise. *)
Definition report (p : Job) (b : Bytes) : list Event :=
  match b with
  | Utf8 text =>
      EvPrint (prefix_str p)
        :: map (fun e => EvPrint (Py.tab +++ e)) (Py.split_lines text)
  | NotUtf8 => []
  end.

Definition failure (b : Bytes) : Exn :=
  match b with
  | Utf8 _ => ValueError
  | NotUtf8 => UnicodeDecodeError
  end.

(** What the loop of lines 83-93 prints for the batch [ps], and whether it
    gets to the end of the batch ([true]) or raises ([false]). *)
Fixpoint check_trace (ps : list Job) : list Event * bool :=
  match ps with
  | [] => ([], true)
  | p :: rest =>
      if (exit_code env (job_process p) =? 1)%Z
      then (report p (stderr_bytes env (job_process p)), false)
      else (EvPrint (prefix_str p +++ " completed") :: fst (check_trace rest),
            snd (check_trace rest))
  end.

(** The exception of a batch that raises. *)
Fixpoint check_exn (ps : list Job) : Exn :=
  match ps with
  | [] => ValueError
  | p :: rest =>
      if (exit_code env (job_process p) =? 1)%Z
      then failure (stderr_bytes env (job_process p))
      else check_exn rest
  end.

Lemma print_errors_spec errors :
  forall w,
    print_errors errors w
    = (Ok tt, add_events w (map (fun e => EvPrint (Py.tab +++ e)) errors)).
Proof.
  induction errors as [|e errors IH]; intro w; cbn.
  - unfold ret. now rewrite add_events_nil.
  - unfold bind, print, emit. rewrite IH. unfold add_events; cbn.
    now rewrite <- app_assoc.
Qed.

Definition has_exit_code (w : World) (p : Job) : Prop :=
  exists pr, nth_error (procs w) (job_process p) = Some pr
             /\ returncode pr = Some (exit_code env (job_process p)).

Lemma check_results_spec suf :
  forall pre w,
    Forall (has_exit_code w) suf ->
    check_results (pre ++ suf) (length pre) (captured suf) w
    = (if snd (check_trace suf) then Ok tt else Raise (check_exn suf),
       add_events w (fst (check_trace suf))).
Proof.
  induction suf as [|p suf IH]; intros pre w Hrc.
  - cbn. unfold ret. now rewrite add_events_nil.
  - inversion Hrc as [|? ? [pr [Hpr Hcode]] Hrest]; subst.
    cbn [captured map HeadProbe.check_results].
    unfold bind at 1, py_index.
    rewrite nth_error_app2, Nat.sub_diag by lia. cbn [nth_error ret].
    unfold bind at 1, get_returncode. rewrite Hpr, Hcode.
    cbn [snd check_trace check_exn].
    destruct (Z.eqb_spec (exit_code env (job_process p)) 1) as [E|E].
    + rewrite E. cbn [snd fst].
      destruct (stderr_bytes env (job_process p)) as [text|];
        cbn [decode report failure].
      * unfold bind, print, emit, raise, ret. rewrite print_errors_spec.
        unfold add_events; cbn. now rewrite <- app_assoc.
      * unfold bind, raise. now rewrite add_events_nil.
    + assert (Hgo :
        forall (A : Type) (a b : A),
          match exit_code env (job_process p) with
          | 1%Z => a
          | _ => b
          end = b).
      { intros A a b. destruct (exit_code env (job_process p)) as [|q|q]; auto.
        destruct q; auto. congruence. }
      rewrite Hgo. unfold bind at 1, print, emit.
      replace (pre ++ p :: suf) with ((pre ++ [p]) ++ suf)
        by now rewrite <- app_assoc.
      replace (S (length pre)) with (length (pre ++ [p]))
        by (rewrite length_app; cbn; lia).
      fold (captured suf). rewrite IH.
      * cbn [fst snd]. unfold add_events; cbn. now rewrite <- app_assoc.
      * rewrite Forall_forall in *. intros x Hx. apply Hrest, Hx.
Qed.

(** The whole of lines 82-93 for one full batch. *)
Definition join_and_check (ps : list Job) : M unit :=
  results <- communicate_all ps ;; check_results ps 0 results.

Lemma join_and_check_spec ps w :
  all_piped (procs w) ->
  Forall (fun p => job_process p < length (procs w)) ps ->
  join_and_check ps w
  = (if snd (check_trace ps) then Ok tt else Raise (check_exn ps),
     {| trace := trace w ++ wait_events ps ++ fst (check_trace ps);
        procs := wait_all env (procs w) (map job_process ps) |}).
Proof.
  intros Hpipe Hlt. unfold join_and_check, bind.
  rewrite communicate_all_spec by assumption.
  rewrite (check_results_spec ps []).
  - unfold add_events; cbn. now rewrite <- app_assoc.
  - rewrite Forall_forall in *. intros p Hp. unfold has_exit_code. cbn [procs].
    apply wait_all_returncode.
    + now apply in_map.
    + now apply Hlt.
Qed.

(** The command line of a job, or the exception that building it raises. *)
Definition head_command (hl hi : nat) (did : Z) : result string :=
  fst (head_template hl hi did empty_world).

Lemma head_template_pure hl hi did w :
  head_template hl hi did w = (head_command hl hi did, w).
Proof.
  unfold head_command, HeadProbe.head_template, bind, py_index, ret, raise.
  destruct (is_not_BASE setting); [|reflexivity].
  destruct (rglob env _ _); reflexivity.
Qed.

Lemma head_command_raise hl hi did e :
  head_command hl hi did = Raise e ->
  e = IndexError /\ is_not_BASE setting = true
  /\ rglob env (finetuned_checkpoint_dir setting finetuned_task) "model_5*.pt" = [].
Proof.
  unfold head_command, HeadProbe.head_template, bind, py_index, ret, raise.
  destruct (is_not_BASE setting); [|discriminate].
  destruct (rglob env _ _); cbn; [|discriminate].
  intros [= <-]. auto.
Qed.

Definition batch_size : Z := (Z.of_nat (length devices) * models_per_gpu)%Z.

Definition start_line (hl hi : nat) (did : Z) : string :=
  "[" +++ setting_name setting +++ "] [GPU " +++ Py.str did +++ "] "
      +++ name finetuned_task +++ "->" +++ name task +++ " "
      +++ Py.str_pair (hl, hi).

(** The world after lines 61-78 for one job. *)
Definition started (w : World) (hl hi : nat) (did : Z) (cmd : string) : World :=
  {| trace := trace w ++ [EvMkdir (dir_for_head hl hi);
                          EvPrint (start_line hl hi did);
                          EvPopen (length (procs w)) cmd DEVNULL PIPE];
     procs := procs w ++ [{| proc_stderr := PIPE; returncode := None |}] |}.

(** One turn of the loop of line 59. *)
Lemma launch_cons ids i hl hi rest ps w :
  launch ids i ((hl, hi) :: rest) ps w
  = match nth_error ids i with
    | None => (Raise IndexError, w)
    | Some did =>
        match head_command hl hi did with
        | Raise e => (Raise e, add_events w [EvMkdir (dir_for_head hl hi)])
        | Ok cmd =>
            let w1 := started w hl hi did cmd in
            let ps' := ps ++ [(hl, hi, did, length (procs w))] in
            if (Z.of_nat (length ps') =? batch_size)%Z
            then
              match join_and_check ps' w1 with
              | (Ok _, w2) => launch ids (S i) rest [] w2
              | (Raise e, w2) => (Raise e, w2)
              end
            else launch ids (S i) rest ps' w1
        end
    end.
Proof.
  cbn [HeadProbe.launch]. unfold bind at 1, py_index.
  destruct (nth_error ids i) as [did|]; [|reflexivity].
  cbn [ret]. unfold bind at 1, mkdir, emit. unfold bind at 1.
  rewrite head_template_pure.
  destruct (head_command hl hi did) as [cmd|e]; [|reflexivity].
  unfold bind at 1, print, emit. unfold bind at 1, Popen.
  cbn [trace procs]. unfold started, batch_size.
  rewrite <- !app_assoc. cbn [app].
  destruct (Z.of_nat _ =? _)%Z; [|reflexivity].
  unfold join_and_check, bind.
  destruct (communicate_all _ _) as [[results|e] w2]; [|reflexivity].
  destruct (check_results _ _ _ _) as [[u|e] w3]; reflexivity.
Qed.

(** ** Batches *)

(** The batch size as a number of processes. *)
Definition width : nat := Z.to_nat batch_size.

(** At every point of the trace at most [width] subprocesses are running. *)
Definition bounded (t : list Event) : Prop :=
  forall t1 t2, t = t1 ++ t2 -> length (live t1) <= width.

(** When a subprocess is started, every process of an earlier batch has
    been waited for. *)
Definition separated (t : list Event) : Prop :=
  forall t1 pid cmd o e t2,
    t = t1 ++ EvPopen pid cmd o e :: t2 ->
    forall q, q < width * (pid / width) -> In (EvWait q) t1.

Lemma bounded_app t evs :
  bounded t -> length (live t) + popens evs <= width -> bounded (t ++ evs).
Proof.
  intros Ht Hev t1 t2 E.
  apply app_eq_app in E as [l [[E1 E2]|[E1 E2]]].
  - eapply Ht; eauto.
  - subst t1. rewrite live_app.
    pose proof (live_from_length l (live t)) as Hl.
    assert (popens l <= popens evs) by (subst evs; rewrite popens_app; lia).
    lia.
Qed.

Lemma popens_zero_no_popen evs pre pid cmd o e suf :
  popens evs = 0 -> evs <> pre ++ EvPopen pid cmd o e :: suf.
Proof.
  intros H ->. rewrite popens_app in H. unfold popens in H. cbn in H. lia.
Qed.

Lemma separated_app t evs :
  separated t ->
  (forall pre pid cmd o e suf,
      evs = pre ++ EvPopen pid cmd o e :: suf ->
      forall q, q < width * (pid / width) -> In (EvWait q) (t ++ pre)) ->
  separated (t ++ evs).
Proof.
  intros Ht Hev t1 pid cmd o e t2 E q Hq.
  apply app_eq_app in E as [l [[E1 E2]|[E1 E2]]].
  - destruct l as [|x l].
    + cbn in E2. rewrite app_nil_r in E1. subst t1.
      specialize (Hev [] pid cmd o e t2 (eq_sym E2) q Hq).
      now rewrite app_nil_r in Hev.
    + cbn in E2. injection E2 as <- E2. eapply Ht; eauto.
  - subst t1. eapply Hev; eauto.
Qed.

Lemma separated_quiet t evs :
  separated t -> popens evs = 0 -> separated (t ++ evs).
Proof.
  intros Ht H0. apply separated_app; auto.
  intros pre pid cmd o e suf E. exfalso.
  eapply popens_zero_no_popen; eauto.
Qed.

Lemma filter_other l pid :
  ~ In pid l -> filter (fun q => negb (q =? pid)) l = l.
Proof.
  induction l as [|x l IH]; intro H; [reflexivity|]. cbn.
  destruct (Nat.eqb_spec x pid) as [->|Hx]; cbn.
  - exfalso. apply H. now left.
  - rewrite IH; auto. intro. apply H. now right.
Qed.

Lemma live_from_waits ps :
  NoDup (map job_process ps) ->
  live_from (map job_process ps) (wait_events ps) = [].
Proof.
  induction ps as [|p ps IH]; intro Hnd; [reflexivity|].
  inversion Hnd as [|? ? Hnot Hnd']; subst.
  cbn. rewrite Nat.eqb_refl. cbn. rewrite filter_other by assumption.
  apply IH, Hnd'.
Qed.

Lemma joins_from_waits_closed c ps :
  joins_from (c, false) (wait_events ps) = (c, false).
Proof. induction ps as [|p ps IH]; [reflexivity|]. cbn. apply IH. Qed.

Lemma joins_from_waits_open c ps :
  ps <> [] -> joins_from (c, true) (wait_events ps) = (S c, false).
Proof.
  destruct ps as [|p ps]; [congruence|]. intros _. cbn.
  apply joins_from_waits_closed.
Qed.

Lemma popens_wait_events ps : popens (wait_events ps) = 0.
Proof. induction ps as [|p ps IH]; [reflexivity|]. exact IH. Qed.

Lemma check_trace_quiet ps :
  forallb (fun e => negb (is_popen e) && negb (is_wait e)) (fst (check_trace ps))
  = true.
Proof.
  induction ps as [|p ps IH]; [reflexivity|]. cbn [check_trace].
  destruct (exit_code env (job_process p) =? 1)%Z; cbn [fst forallb].
  - destruct (stderr_bytes env (job_process p)) as [text|]; [|reflexivity].
    cbn. induction (Py.split_lines _) as [|x l IHl]; [reflexivity|]. exact IHl.
  - exact IH.
Qed.

Lemma quiet_popens t :
  forallb (fun e => negb (is_popen e) && negb (is_wait e)) t = true ->
  popens t = 0.
Proof.
  induction t as [|e t IH]; [reflexivity|]. cbn [forallb].
  intro H. apply andb_true_iff in H as [He Ht].
  change (e :: t) with ([e] ++ t). rewrite popens_app, IH by assumption.
  destruct e; cbn in *; auto; discriminate.
Qed.

(** A batch that raises holds a process that exited with code 1. *)
Lemma check_trace_raises ps :
  snd (check_trace ps) = false ->
  exists p, In p ps /\ exit_code env (job_process p) = 1%Z.
Proof.
  induction ps as [|p ps IH]; [discriminate|]. cbn [check_trace].
  destruct (Z.eqb_spec (exit_code env (job_process p)) 1) as [E|E]; cbn [snd].
  - intros _. exists p. split; [now left|exact E].
  - intro H. destruct (IH H) as [x [Hx Ex]]. exists x. split; [now right|exact Ex].
Qed.

Lemma check_exn_cases ps :
  check_exn ps = ValueError \/ check_exn ps = UnicodeDecodeError.
Proof.
  induction ps as [|p ps IH]; [now left|]. cbn [check_exn].
  destruct (exit_code env (job_process p) =? 1)%Z; [|exact IH].
  destruct (stderr_bytes env (job_process p)); cbn; auto.
Qed.

Section Batches.

Hypothesis Hbatch : (1 <= batch_size)%Z.

Lemma width_pos : 1 <= width.
Proof. unfold width. lia. Qed.

Lemma full_iff n : (Z.of_nat n =? batch_size)%Z = true <-> n = width.
Proof. unfold width. rewrite Z.eqb_eq. lia. Qed.

Lemma succ_full i :
  i mod width + 1 = width ->
  S i mod width = 0 /\ S i / width = S (i / width).
Proof.
  intro H. pose proof width_pos as Hw.
  pose proof (Nat.div_mod_eq i width) as E.
  assert (E' : S i = width * S (i / width) + 0) by lia.
  split; symmetry.
  - eapply Nat.mod_unique; [|exact E']. lia.
  - eapply Nat.div_unique; [|exact E']. lia.
Qed.

Lemma succ_part i :
  i mod width + 1 <> width ->
  S i mod width = S (i mod width) /\ S i / width = i / width.
Proof.
  intro H. pose proof width_pos as Hw.
  pose proof (Nat.div_mod_eq i width) as E.
  pose proof (Nat.mod_upper_bound i width ltac:(lia)) as Hu.
  assert (E' : S i = width * (i / width) + S (i mod width)) by lia.
  split; symmetry.
  - eapply Nat.mod_unique; [|exact E']. lia.
  - eapply Nat.div_unique; [|exact E']. lia.
Qed.

Lemma batch_start i : i - i mod width = width * (i / width).
Proof. pose proof (Nat.div_mod_eq i width). lia. Qed.

Lemma batch_start_mono i j :
  i <= j -> width * (i / width) <= width * (j / width).
Proof.
  intro H. apply Nat.mul_le_mono_l. apply Nat.Div0.div_le_mono. exact H.
Qed.

(** The state of the loop of line 59 when job [i] is reached, [ps] being
    the list [processes]. *)
Record Inv (i : nat) (ps : list Job) (w : World) : Prop := {
  inv_procs : length (procs w) = i;
  inv_piped : all_piped (procs w);
  inv_pids : map job_process ps = seq (i - length ps) (length ps);
  inv_len : length ps = i mod width;
  inv_live : live (trace w) = map job_process ps;
  inv_waited : forall q, q < i - length ps -> In (EvWait q) (trace w);
  inv_joins :
    joins_from (0, false) (trace w) = (i / width, negb (length ps =? 0));
  inv_bounded : bounded (trace w);
  inv_separated : separated (trace w)
}.

(** Why a run of the loop over the jobs [lo .. hi - 1] can stop. *)
Definition abort_reason (ids : list Z) (lo hi : nat) (e : Exn) : Prop :=
  match e with
  | ZeroDivisionError => False
  | IndexError =>
      (exists j, lo <= j < hi /\ nth_error ids j = None)
      \/ (is_not_BASE setting = true
          /\ rglob env (finetuned_checkpoint_dir setting finetuned_task)
                   "model_5*.pt" = [])
  | ValueError | UnicodeDecodeError =>
      exists pid, pid < width * (hi / width) /\ exit_code env pid = 1%Z
  | NameError => False
  end.

Definition safe (t : list Event) : Prop := bounded t /\ separated t.

Lemma abort_reason_weaken ids lo lo' hi e :
  lo' <= lo -> abort_reason ids lo hi e -> abort_reason ids lo' hi e.
Proof.
  intros Hlo. destruct e; cbn; auto.
  intros [[j [Hj Hn]]|H]; [left; exists j; split; [lia|auto]|now right].
Qed.

Lemma in_wait_events ps q :
  In q (map job_process ps) -> In (EvWait q) (wait_events ps).
Proof.
  intro H. apply in_map_iff in H as [p [<- Hp]].
  unfold wait_events. apply in_map_iff. now exists p.
Qed.

(** The state after job [i] has been started (line 78). *)
Lemma started_facts i ps w hl hi did cmd :
  Inv i ps w ->
  let w1 := started w hl hi did cmd in
  let ps' := ps ++ [(hl, hi, did, length (procs w))] in
  length (procs w1) = S i
  /\ all_piped (procs w1)
  /\ map job_process ps' = seq (i - length ps) (S (length ps))
  /\ live (trace w1) = map job_process ps'
  /\ (forall q, q < i - length ps -> In (EvWait q) (trace w1))
  /\ joins_from (0, false) (trace w1) = (i / width, true)
  /\ bounded (trace w1)
  /\ separated (trace w1).
Proof.
  intros [Hprocs Hpiped Hpids Hlen Hlive Hwaited Hjoins Hb Hs].
  pose proof width_pos as Hw.
  pose proof (Nat.mod_upper_bound i width ltac:(lia)) as Hu.
  pose proof (Nat.Div0.mod_le i width) as Hle.
  cbv zeta. unfold started. cbn [trace procs].
  repeat split.
  - rewrite length_app. cbn. lia.
  - unfold all_piped in *. apply Forall_app. split; auto.
  - rewrite map_app, Hpids, seq_S. cbn. do 3 f_equal. lia.
  - rewrite live_app, Hlive, map_app. reflexivity.
  - intros q Hq. apply in_or_app. left. now apply Hwaited.
  - rewrite joins_from_app, Hjoins. reflexivity.
  - apply bounded_app; auto. rewrite Hlive, length_map. cbn. lia.
  - apply separated_app; auto.
    intros pre pid c o e suf E q Hq.
    apply in_or_app. left. apply Hwaited.
    assert (pid = i).
    { destruct pre as [|a [|a' [|a'' pre]]]; cbn in E; try discriminate.
      - inversion E. assumption.
      - inversion E as [[Ea Ea' Ea'' Epre]]. destruct pre; discriminate. }
    subst pid. rewrite <- batch_start in Hq. lia.
Qed.

Lemma launch_inv hs :
  forall ids i ps w,
    Inv i ps w ->
    match launch ids i hs ps w with
    | (Ok ps', w') => Inv (i + length hs) ps' w'
    | (Raise e, w') =>
        safe (trace w') /\ abort_reason ids i (i + length hs) e
    end.
Proof.
  induction hs as [|[hl hi] rest IH]; intros ids i ps w HI.
  - cbn. now rewrite Nat.add_0_r.
  - rewrite launch_cons. cbn [length].
    assert (Hnext : forall ps0 w0,
               Inv (S i) ps0 w0 ->
               match launch ids (S i) rest ps0 w0 with
               | (Ok ps', w') => Inv (i + S (length rest)) ps' w'
               | (Raise e, w') =>
                   safe (trace w') /\ abort_reason ids i (i + S (length rest)) e
               end).
    { intros ps0 w0 H0. specialize (IH ids (S i) ps0 w0 H0).
      replace (i + S (length rest)) with (S i + length rest) by lia.
      destruct (launch ids (S i) rest ps0 w0) as [[ps'|e] w']; [exact IH|].
      split; [apply IH|]. eapply abort_reason_weaken; [|apply IH]. lia. }
    clear IH.
    destruct (nth_error ids i) as [did|] eqn:Hid.
    2:{ split; [split; apply HI|]. left. exists i. split; [lia|exact Hid]. }
    destruct (head_command hl hi did) as [cmd|e] eqn:Hcmd.
    2:{ apply head_command_raise in Hcmd as [-> Hmiss]. cbn [trace add_events].
        split; [|now right].
        split.
        - apply bounded_app; [apply HI|]. cbn.
          pose proof (inv_bounded _ _ _ HI (trace w) [] ltac:(now rewrite app_nil_r)).
          lia.
        - apply separated_quiet; [apply HI|reflexivity]. }
    pose proof (started_facts i ps w hl hi did cmd HI) as HS.
    cbv zeta in HS |- *.
    set (w1 := started w hl hi did cmd) in *.
    set (ps' := ps ++ [(hl, hi, did, length (procs w))]) in *.
    destruct HS as (Hprocs & Hpiped & Hpids & Hlive & Hwaited & Hjoins & Hb & Hs).
    pose proof width_pos as Hw.
    assert (Hlen' : length ps' = S (length ps)).
    { unfold ps'. rewrite length_app. cbn. lia. }
    pose proof (inv_len _ _ _ HI) as Hlen.
    pose proof (Nat.Div0.mod_le i width) as Hle.
    destruct (Z.of_nat (length ps') =? batch_size)%Z eqn:Efull.
    + apply full_iff in Efull.
      destruct (succ_full i ltac:(lia)) as [Hmod Hdiv].
      rewrite join_and_check_spec; auto.
      2:{ rewrite Forall_forall. intros p Hp.
          assert (Hin : In (job_process p) (map job_process ps')) by now apply in_map.
          rewrite Hpids in Hin. apply in_seq in Hin. lia. }
      set (w2 := {| trace := _; procs := _ |}).
      assert (Hquiet : forallb (fun e => negb (is_popen e) && negb (is_wait e))
                               (fst (check_trace ps')) = true)
        by apply check_trace_quiet.
      assert (Hb2 : bounded (trace w2)).
      { unfold w2; cbn [trace]. apply bounded_app; auto.
        rewrite popens_app, popens_wait_events, quiet_popens by assumption.
        rewrite Hlive, length_map. lia. }
      assert (Hs2 : separated (trace w2)).
      { unfold w2; cbn [trace]. apply separated_quiet; auto.
        rewrite popens_app, popens_wait_events, quiet_popens by assumption.
        reflexivity. }
      destruct (snd (check_trace ps')) eqn:Eok; cbv beta iota.
      * apply Hnext. unfold w2. constructor; cbn [trace procs length].
        -- now rewrite wait_all_length.
        -- now apply wait_all_piped.
        -- reflexivity.
        -- now rewrite Hmod.
        -- rewrite live_app, Hlive, live_from_app, live_from_waits.
           ++ apply live_from_quiet, Hquiet.
           ++ rewrite Hpids. apply seq_NoDup.
        -- intros q Hq. rewrite Nat.sub_0_r in Hq.
           destruct (Nat.lt_ge_cases q (i - length ps)) as [Hlow|Hhigh].
           ++ apply in_or_app. left. now apply Hwaited.
           ++ apply in_or_app. right. apply in_or_app. left.
              apply in_wait_events. rewrite Hpids. apply in_seq. lia.
        -- rewrite joins_from_app, Hjoins, joins_from_app.
           rewrite joins_from_waits_open.
           ++ rewrite joins_from_quiet by assumption. now rewrite Hdiv.
           ++ intro E. rewrite E in Hlen'. discriminate.
        -- exact Hb2.
        -- exact Hs2.
      * split; [split; assumption|].
        apply check_trace_raises in Eok as [p [Hp Ep]].
        assert (Hab : exists pid,
                   pid < width * ((i + S (length rest)) / width)
                   /\ exit_code env pid = 1%Z);
          [|destruct (check_exn_cases ps') as [-> | ->]; exact Hab].
        exists (job_process p). split; [|exact Ep].
        assert (Hin : In (job_process p) (map job_process ps')) by now apply in_map.
        rewrite Hpids in Hin. apply in_seq in Hin.
        assert (S i = width * (S i / width)).
        { pose proof (Nat.div_mod_eq (S i) width). lia. }
        pose proof (batch_start_mono (S i) (i + S (length rest)) ltac:(lia)).
        lia.
    + assert (Hnot : length ps' <> width).
      { intro E. apply full_iff in E. congruence. }
      destruct (succ_part i ltac:(lia)) as [Hmod Hdiv].
      apply Hnext. constructor; auto.
      * rewrite Hpids, Hlen'. f_equal; lia.
      * lia.
      * intros q Hq. apply Hwaited. lia.
      * rewrite Hjoins, Hdiv, Hlen'. reflexivity.
Qed.

(** *** The lines before the loop *)

Abbreviation heads := (heads_to_probe env setting finetuned_task task).

(** The list [device_ids] of lines 48-50, for the jobs [i ..]. *)
Definition assigned (i : nat) (hs : list (nat * nat)) : list Z :=
  map (fun k => nth (k mod length devices) devices 0%Z) (seq i (length hs)).

Lemma assigned_length i hs : length (assigned i hs) = length hs.
Proof. unfold assigned. now rewrite length_map, length_seq. Qed.

Lemma assign_devices_spec hs :
  devices <> [] ->
  forall i acc w,
    assign_devices devices i hs acc w = (Ok (acc ++ assigned i hs), w).
Proof.
  intro Hd. induction hs as [|h rest IH]; intros i acc w.
  - cbn. unfold ret. now rewrite app_nil_r.
  - cbn [assign_devices]. unfold bind at 1, py_mod.
    destruct (length devices) as [|m] eqn:Hm.
    { destruct devices; [congruence|discriminate]. }
    cbn [ret]. unfold bind at 1, py_index.
    assert (Hk : i mod S m < length devices).
    { rewrite Hm. apply Nat.mod_upper_bound. lia. }
    destruct (nth_error devices (i mod S m)) as [d|] eqn:Hn.
    2:{ apply nth_error_None in Hn. lia. }
    cbn [ret]. rewrite IH. unfold assigned. cbn [length seq map].
    rewrite <- app_assoc. cbn [app]. rewrite Hm.
    now rewrite (nth_error_nth _ _ _ Hn).
Qed.

Definition head_line (ids : list Z) (k : nat) (hp : nat * nat) : Event :=
  EvPrint (Py.lower (setting_name setting) +++ " " +++ Py.str_pair hp
           +++ " " +++ "GPU: " +++ Py.str (nth k ids 0%Z)).

(** What lines 53-54 print. *)
Fixpoint head_lines (ids : list Z) (i : nat) (hs : list (nat * nat))
  : list Event :=
  match hs with
  | [] => []
  | hp :: rest => head_line ids i hp :: head_lines ids (S i) rest
  end.

Lemma print_heads_spec ids hs :
  forall i w,
    i + length hs <= length ids ->
    print_heads setting ids i hs w = (Ok tt, add_events w (head_lines ids i hs)).
Proof.
  induction hs as [|hp rest IH]; intros i w Hlen.
  - cbn. unfold ret. now rewrite add_events_nil.
  - cbn [print_heads length] in *. unfold bind at 1, py_index.
    destruct (nth_error ids i) as [d|] eqn:Hn.
    2:{ apply nth_error_None in Hn. lia. }
    cbn [ret]. unfold bind at 1, print, emit. rewrite IH by lia.
    unfold add_events. cbn [trace procs head_lines]. rewrite <- app_assoc.
    unfold head_line. now rewrite (nth_error_nth _ _ _ Hn).
Qed.

Lemma head_lines_quiet ids hs :
  forall i,
    forallb (fun e => negb (is_popen e) && negb (is_wait e)) (head_lines ids i hs)
    = true.
Proof. induction hs as [|hp rest IH]; intro i; [reflexivity|]. cbn. apply IH. Qed.

(** Everything printed before the first job is started. *)
Definition prelude : list Event :=
  EvPrint "heads to probe:"
    :: head_lines (assigned 0 heads) 0 heads ++ [EvPrint Py.nl].

Lemma prelude_quiet :
  forallb (fun e => negb (is_popen e) && negb (is_wait e)) prelude = true.
Proof.
  unfold prelude. cbn [forallb is_popen is_wait negb andb].
  rewrite forallb_app, head_lines_quiet. reflexivity.
Qed.

(** Waiting changes the trace in the same way whatever the processes are. *)
Lemma communicate_all_trace ps :
  forall w, exists rs,
    communicate_all ps w
    = (Ok rs,
       {| trace := trace w ++ wait_events ps;
          procs := wait_all env (procs w) (map job_process ps) |}).
Proof.
  induction ps as [|p ps IH]; intro w.
  - exists []. cbn. unfold ret. destruct w; cbn. now rewrite app_nil_r.
  - cbn [HeadProbe.communicate_all]. unfold bind at 1, communicate at 1.
    set (w1 := {| trace := trace w ++ [EvWait (job_process p)]; procs := _ |}).
    destruct (IH w1) as [rs Hrs].
    eexists. unfold bind. rewrite Hrs. unfold ret. cbn.
    now rewrite <- app_assoc.
Qed.

(** [probe_heads] with pending heads and devices: the lines before the
    loop, the loop, and the last wait of line 97. *)
Lemma probe_heads_unfold w :
  heads <> [] -> devices <> [] ->
  probe_heads env setting finetuned_task task models_per_gpu devices w
  = match launch (assigned 0 heads) 0 heads [] (add_events w prelude) with
    | (Ok ps, w') =>
        (Ok tt,
         {| trace := trace w' ++ wait_events ps;
            procs := wait_all env (procs w') (map job_process ps) |})
    | (Raise e, w') => (Raise e, w')
    end.
Proof.
  intros Hh Hd. unfold probe_heads.
  destruct (length heads =? 0) eqn:E.
  { apply Nat.eqb_eq in E. destruct heads; [congruence|discriminate]. }
  unfold bind at 1. rewrite assign_devices_spec by assumption. cbn [app].
  unfold bind at 1, print at 1, emit.
  unfold bind at 1.
  rewrite (print_heads_spec (assigned 0 heads) heads 0)
    by (pose proof (assigned_length 0 heads); lia).
  unfold bind at 1, print, emit.
  unfold add_events. cbn [trace procs].
  unfold bind at 1.
  replace ((((trace w ++ [EvPrint "heads to probe:"])
               ++ head_lines (assigned 0 heads) 0 heads) ++ [EvPrint Py.nl]))
    with (trace w ++ prelude)
    by (unfold prelude; rewrite <- !app_assoc; reflexivity).
  destruct (launch _ _ _ _ _) as [[ps|e] w']; [|reflexivity].
  unfold bind. destruct (communicate_all_trace ps w') as [rs ->]. reflexivity.
Qed.

Lemma probe_heads_nothing w :
  heads = [] ->
  probe_heads env setting finetuned_task task models_per_gpu devices w = (Ok tt, w).
Proof. intro H. unfold probe_heads. now rewrite H. Qed.

Lemma probe_heads_no_devices w :
  heads <> [] -> devices = [] ->
  probe_heads env setting finetuned_task task models_per_gpu devices w
  = (Raise ZeroDivisionError, w).
Proof.
  intros Hh Hd. unfold probe_heads.
  destruct heads as [|h rest] eqn:E; [congruence|].
  cbn [length Nat.eqb assign_devices]. rewrite Hd. reflexivity.
Qed.

Lemma devices_nonempty : devices <> [].
Proof.
  intro H. unfold batch_size in Hbatch. rewrite H in Hbatch. cbn in Hbatch. lia.
Qed.

Lemma inv_prelude : Inv 0 [] (add_events empty_world prelude).
Proof.
  pose proof prelude_quiet as Hq.
  constructor; cbn [add_events empty_world trace procs length app].
  - reflexivity.
  - constructor.
  - reflexivity.
  - now rewrite Nat.Div0.mod_0_l.
  - unfold live. now rewrite live_from_quiet.
  - intros q Hq'. lia.
  - rewrite joins_from_quiet by assumption. now rewrite Nat.Div0.div_0_l.
  - intros t1 t2 E.
    assert (E' : [] ++ prelude = t1 ++ t2) by exact E.
    apply app_eq_app in E' as [l [[E1 E2]|[E1 E2]]].
    + symmetry in E1. apply app_eq_nil in E1 as [-> _]. cbn. lia.
    + cbn in E1. subst t1. unfold live.
      pose proof (live_from_length l []) as Hl.
      assert (popens l <= popens prelude)
        by (rewrite E2, popens_app; lia).
      rewrite (quiet_popens prelude Hq) in *. cbn in Hl. lia.
  - intros t1 pid cmd o e t2 E. exfalso.
    eapply popens_zero_no_popen; [|exact E]. now apply quiet_popens.
Qed.

Lemma ceil_div_spec n :
  ceil_div n width = n / width + (if n mod width =? 0 then 0 else 1).
Proof.
  pose proof width_pos as Hw.
  pose proof (Nat.div_mod_eq n width) as E.
  pose proof (Nat.mod_upper_bound n width ltac:(lia)) as Hu.
  unfold ceil_div. symmetry.
  destruct (Nat.eqb_spec (n mod width) 0) as [E0|E0].
  - apply Nat.div_unique with (r := width - 1); lia.
  - apply Nat.div_unique with (r := n mod width - 1); lia.
Qed.

(** *** A whole run *)

Definition last_batch (n : nat) : list nat :=
  seq (width * (n / width)) (n mod width).

Lemma probe_heads_run :
  heads <> [] ->
  match probe_heads env setting finetuned_task task models_per_gpu devices
                    empty_world with
  | (Ok _, w') =>
      safe (trace w')
      /\ batch_joins (trace w') = ceil_div (length heads) width
      /\ exists t, trace w' = t ++ map EvWait (last_batch (length heads))
  | (Raise e, w') =>
      safe (trace w')
      /\ abort_reason (assigned 0 heads) 0 (length heads) e
  end.
Proof.
  intro Hh. pose proof width_pos as Hw.
  rewrite probe_heads_unfold by (auto using devices_nonempty).
  pose proof (launch_inv heads (assigned 0 heads) 0 [] _ inv_prelude) as HL.
  destruct (launch _ _ _ _ _) as [[ps|e] w']; [|exact HL].
  cbn [Nat.add] in HL. cbn [trace].
  destruct HL as [Hprocs Hpiped Hpids Hlen Hlive Hwaited Hjoins Hb Hs].
  pose proof (Nat.mod_upper_bound (length heads) width ltac:(lia)) as Hu.
  repeat split.
  - apply bounded_app; auto.
    rewrite popens_wait_events, Hlive, length_map. lia.
  - apply separated_quiet; auto. apply popens_wait_events.
  - unfold batch_joins. rewrite joins_from_app, Hjoins, ceil_div_spec, <- Hlen.
    destruct ps as [|p ps]; cbn [length Nat.eqb negb].
    + cbn. lia.
    + rewrite joins_from_waits_open by discriminate. cbn. lia.
  - exists (trace w'). f_equal. unfold wait_events, last_batch.
    rewrite <- batch_start, <- Hlen, <- Hpids. now rewrite map_map.
Qed.

(** A run that finds its checkpoint and no exit code 1 in a full batch
    returns. *)
Lemma probe_heads_returns :
  (is_not_BASE setting = true ->
   rglob env (finetuned_checkpoint_dir setting finetuned_task) "model_5*.pt" <> []) ->
  (forall pid, pid < width * (length heads / width) -> exit_code env pid <> 1%Z) ->
  fst (probe_heads env setting finetuned_task task models_per_gpu devices
                   empty_world) = Ok tt.
Proof.
  intros Hckpt Hcodes.
  destruct (Nat.eq_dec (length heads) 0) as [E0|Hne].
  { apply length_zero_iff_nil in E0. now rewrite probe_heads_nothing. }
  assert (Hh : heads <> []) by (intro E; rewrite E in Hne; now apply Hne).
  pose proof (probe_heads_run Hh) as HR.
  destruct (probe_heads _ _ _ _ _ _ _) as [[[]|e] w']; [reflexivity|].
  exfalso. destruct HR as [_ HA]. destruct e; unfold abort_reason in HA.
  - destruct HA as [pid [Hp E]]. now apply (Hcodes pid).
  - destruct HA as [[j [Hj Hn]]|[Hs Hm]].
    + apply nth_error_None in Hn. rewrite assigned_length in Hn. lia.
    + now apply Hckpt.
  - exact HA.
  - exact HA.
  - destruct HA as [pid [Hp E]]. now apply (Hcodes pid).
Qed.

End Batches.

End HeadsFacts.

(** ** What a run reads of the exit codes and of the captured stderr *)

(** The same world with other outcomes of the subprocesses. *)
Definition with_outcomes (env : Env) (codes : nat -> Z) (errs : nat -> Bytes)
  : Env :=
  {| rglob := rglob env;
     is_dir := is_dir env;
     n_class := n_class env;
     exit_code := codes;
     stderr_bytes := errs |}.

Section Agreement.

Variable env : Env.
Variable codes : nat -> Z.
Variable errs : nat -> Bytes.
Variable setting : LingualSetting.
Variable finetuned_task : Experiment.
Variable task : Experiment.
Variable models_per_gpu : Z.
Variable devices : list Z.

Abbreviation env2 := (with_outcomes env codes errs).
Abbreviation launch1 :=
  (launch env setting finetuned_task task models_per_gpu devices).
Abbreviation launch2 :=
  (launch env2 setting finetuned_task task models_per_gpu devices).
Abbreviation width' := (width models_per_gpu devices).

(** Two worlds that show the same trace and hold as many processes. *)
Definition alike (w1 w2 : World) : Prop :=
  trace w1 = trace w2
  /\ length (procs w1) = length (procs w2)
  /\ all_piped (procs w2).

Lemma launch_split e ids i h rest ps w :
  launch e setting finetuned_task task models_per_gpu devices ids i (h :: rest) ps w
  = match launch e setting finetuned_task task models_per_gpu devices
                 ids i [h] ps w with
    | (Ok ps', w') =>
        launch e setting finetuned_task task models_per_gpu devices
               ids (S i) rest ps' w'
    | (Raise x, w') => (Raise x, w')
    end.
Proof.
  destruct h as [hl hi]. rewrite !launch_cons.
  destruct (nth_error ids i) as [did|]; [|reflexivity].
  destruct (head_command _ _ _ _ _ _ _) as [cmd|x]; [|reflexivity].
  cbv zeta. destruct (Z.eqb _ _); [|reflexivity].
  destruct (join_and_check _ _ _ _) as [[u|x] w2]; reflexivity.
Qed.


Section Inspected.

Hypothesis Hbatch : (1 <= batch_size models_per_gpu devices)%Z.

(** The processes [0 .. K-1] are the ones on whose outcome the two
    worlds agree: an exit code is 1 in both or in neither, and a process
    that exits with 1 leaves the same stderr. *)
Variable K : nat.
Hypothesis Hagree :
  forall pid, pid < K ->
    (exit_code env pid = 1%Z <-> codes pid = 1%Z)
    /\ (exit_code env pid = 1%Z -> errs pid = stderr_bytes env pid).

Lemma check_trace_agree ps :
  Forall (fun p => job_process p < K) ps ->
  check_trace env2 setting ps = check_trace env setting ps
  /\ check_exn env2 ps = check_exn env ps.
Proof.
  induction 1 as [|p ps Hp Hps [IH IH']]; [split; reflexivity|].
  cbn [check_trace check_exn exit_code stderr_bytes with_outcomes].
  destruct (Hagree _ Hp) as [Hc He].
  destruct (Z.eqb_spec (codes (job_process p)) 1) as [E2|E2];
    destruct (Z.eqb_spec (exit_code env (job_process p)) 1) as [E1|E1].
  - now rewrite (He E1).
  - exfalso. tauto.
  - exfalso. tauto.
  - now rewrite IH, IH'.
Qed.

Lemma launch_step_agree ids i h ps w1 w2 :
  Inv models_per_gpu devices i ps w1 -> alike w1 w2 ->
  (S i mod width' = 0 -> S i <= K) ->
  fst (launch1 ids i [h] ps w1) = fst (launch2 ids i [h] ps w2)
  /\ alike (snd (launch1 ids i [h] ps w1)) (snd (launch2 ids i [h] ps w2)).
Proof.
  intros HI HA HK. pose proof HA as (Ht & Hl & Hp2).
  destruct h as [hl hi]. rewrite !launch_cons.
  destruct (nth_error ids i) as [did|]; [|cbn [fst snd]; auto].
  change (head_command env2 setting finetuned_task task hl hi did)
    with (head_command env setting finetuned_task task hl hi did).
  destruct (head_command _ _ _ _ _ _ _) as [cmd|x].
  2:{ unfold alike, add_events. cbn [fst snd trace procs].
      rewrite Ht. auto. }
  pose proof (started_facts setting finetuned_task task models_per_gpu devices
                            Hbatch i ps w1 hl hi did cmd HI) as HS.
  cbv zeta in HS |- *. rewrite <- Hl.
  set (ps' := ps ++ [(hl, hi, did, length (procs w1))]) in *.
  destruct HS as (Hprocs & Hpiped & Hpids & _).
  assert (Halike : alike (started setting finetuned_task task w1 hl hi did cmd)
                         (started setting finetuned_task task w2 hl hi did cmd)).
  { unfold alike, started. cbn [trace procs]. rewrite !length_app, Ht, Hl.
    split; [reflexivity|]. split; [reflexivity|].
    unfold all_piped in *. apply Forall_app. split; [exact Hp2|].
    repeat constructor. }
  assert (Hrange : Forall (fun p => job_process p <= i) ps').
  { rewrite Forall_forall. intros p Hp.
    assert (Hin : In (job_process p) (map job_process ps')) by now apply in_map.
    rewrite Hpids in Hin. apply in_seq in Hin.
    pose proof (inv_len _ _ _ _ _ HI).
    pose proof (Nat.Div0.mod_le i width'). lia. }
  destruct (Z.eqb _ _) eqn:Efull.
  - apply (full_iff _ _ Hbatch) in Efull.
    assert (Hlen' : length ps' = S (length ps))
      by (unfold ps'; rewrite length_app; cbn; lia).
    pose proof (inv_len _ _ _ _ _ HI) as Hlen.
    destruct (succ_full _ _ Hbatch i ltac:(lia)) as [Hmod _].
    destruct Halike as (Ht' & Hl' & Hp').
    rewrite !join_and_check_spec; auto.
    + destruct (check_trace_agree ps') as [-> ->].
      { eapply Forall_impl; [|exact Hrange]. cbn. intros p Hp.
        specialize (HK Hmod). lia. }
      destruct (snd (check_trace env setting ps')); cbn [fst snd launch ret].
      * unfold alike. cbn [trace procs]. rewrite Ht', !wait_all_length.
        repeat split; auto. now apply wait_all_piped.
      * unfold alike. cbn [trace procs]. rewrite Ht', !wait_all_length.
        repeat split; auto. now apply wait_all_piped.
    + rewrite <- Hl', Hprocs. eapply Forall_impl; [|exact Hrange]. cbn. lia.
    + rewrite Hprocs. eapply Forall_impl; [|exact Hrange]. cbn. lia.
  - cbn [launch ret fst snd]. split; [reflexivity|exact Halike].
Qed.

Lemma launch_agree ids hs :
  forall i ps w1 w2,
    Inv models_per_gpu devices i ps w1 -> alike w1 w2 ->
    width' * ((i + length hs) / width') <= K ->
    fst (launch1 ids i hs ps w1) = fst (launch2 ids i hs ps w2)
    /\ alike (snd (launch1 ids i hs ps w1)) (snd (launch2 ids i hs ps w2)).
Proof.
  induction hs as [|h rest IH]; intros i ps w1 w2 HI HA HK.
  - cbn. auto.
  - rewrite (launch_split env ids i h rest), (launch_split env2 ids i h rest).
    assert (HK1 : S i mod width' = 0 -> S i <= K).
    { intro Hm. pose proof (Nat.div_mod_eq (S i) width') as E.
      pose proof (batch_start_mono models_per_gpu devices (S i)
                    (i + length (h :: rest)) ltac:(cbn; lia)).
      lia. }
    pose proof (launch_step_agree ids i h ps w1 w2 HI HA HK1) as [Hf Hal].
    pose proof (launch_inv env setting finetuned_task task models_per_gpu devices
                           Hbatch [h] ids i ps w1 HI) as HI1.
    destruct (launch1 ids i [h] ps w1) as [[ps1|x1] w1'];
      destruct (launch2 ids i [h] ps w2) as [[ps2|x2] w2'];
      cbn [fst snd] in *; try discriminate.
    + injection Hf as <-. apply IH; auto.
      * replace (S i) with (i + length [h]) by (cbn; lia). exact HI1.
      * cbn [length] in HK. now replace (S i + length rest)
          with (i + S (length rest)) by lia.
    + split; auto.
Qed.

End Inspected.

End Agreement.

Lemma heads_to_probe_outcomes env codes errs setting finetuned_task task :
  heads_to_probe (with_outcomes env codes errs) setting finetuned_task task
  = heads_to_probe env setting finetuned_task task.
Proof. unfold heads_to_probe. apply filter_ext. now intros [hl hi]. Qed.

Lemma prelude_outcomes env codes errs setting finetuned_task task devices :
  prelude (with_outcomes env codes errs) setting finetuned_task task devices
  = prelude env setting finetuned_task task devices.
Proof. unfold prelude. now rewrite heads_to_probe_outcomes. Qed.

Lemma alike_refl w : all_piped (procs w) -> alike w w.
Proof. unfold alike. auto. Qed.

(** Two worlds that agree on the processes of the full batches give the
    same run: the same result and the same trace. *)
Lemma probe_heads_agree env codes errs setting finetuned_task task
      models_per_gpu devices K :
  (1 <= batch_size models_per_gpu devices)%Z ->
  (forall pid, pid < K ->
     (exit_code env pid = 1%Z <-> codes pid = 1%Z)
     /\ (exit_code env pid = 1%Z -> errs pid = stderr_bytes env pid)) ->
  width models_per_gpu devices
  * (length (heads_to_probe env setting finetuned_task task)
     / width models_per_gpu devices) <= K ->
  let r1 := probe_heads env setting finetuned_task task models_per_gpu devices
                        empty_world in
  let r2 := probe_heads (with_outcomes env codes errs) setting finetuned_task task
                        models_per_gpu devices empty_world in
  fst r1 = fst r2 /\ trace (snd r1) = trace (snd r2).
Proof.
  intros Hbatch Hagree HK. cbv zeta.
  destruct (Nat.eq_dec (length (heads_to_probe env setting finetuned_task task)) 0)
    as [E0|Hne].
  - apply length_zero_iff_nil in E0.
    rewrite !probe_heads_nothing;
      auto; try (rewrite heads_to_probe_outcomes; assumption).
  - assert (Hh : heads_to_probe env setting finetuned_task task <> [])
      by (intro E; rewrite E in Hne; now apply Hne).
    pose proof (devices_nonempty _ _ Hbatch) as Hd.
    rewrite !probe_heads_unfold;
      auto; try (rewrite heads_to_probe_outcomes; assumption).
    rewrite heads_to_probe_outcomes, prelude_outcomes.
    pose proof (launch_agree env codes errs setting finetuned_task task
                  models_per_gpu devices Hbatch K Hagree
                  (assigned devices 0 (heads_to_probe env setting finetuned_task task))
                  (heads_to_probe env setting finetuned_task task) 0 []
                  _ _ (inv_prelude env setting finetuned_task task
                                   models_per_gpu devices)
                  (alike_refl
                     (add_events empty_world
                        (prelude env setting finetuned_task task devices))
                     (Forall_nil _)) HK) as [Hf (Ht & _)].
    destruct (launch env _ _ _ _ _ _ _ _ _ _) as [[ps1|x1] w1];
      destruct (launch (with_outcomes _ _ _) _ _ _ _ _ _ _ _ _ _) as [[ps2|x2] w2];
      cbn [fst snd trace] in *; try discriminate.
    + injection Hf as <-. now rewrite Ht.
    + injection Hf as <-. split; [reflexivity|exact Ht].
Qed.


(** ** The subprocesses that a run starts *)

Definition quiet (e : Event) : bool := negb (is_popen e) && negb (is_wait e).

(** The loop of lines 83-93 only prints. *)
Lemma check_results_quiet setting ps results :
  forall ri w, exists res evs,
    check_results setting ps ri results w = (res, add_events w evs)
    /\ forallb quiet evs = true.
Proof.
  induction results as [|r rest IH]; intros ri w.
  - exists (Ok tt), []. cbn. unfold ret. now rewrite add_events_nil.
  - cbn [check_results]. unfold bind at 1, py_index.
    destruct (nth_error ps ri) as [p|].
    2:{ exists (Raise IndexError), []. unfold raise. now rewrite add_events_nil. }
    cbn [ret]. unfold bind at 1, get_returncode.
    set (rc := match nth_error (procs w) (job_process p) with
               | Some pr => returncode pr
               | None => None
               end).
    assert (Hgo : exists res evs,
               (print (prefix_str setting p +++ " completed") ;;;
                check_results setting ps (S ri) rest) w = (res, add_events w evs)
               /\ forallb quiet evs = true).
    { unfold bind, print, emit.
      destruct (IH (S ri) {| trace := trace w ++ [EvPrint (prefix_str setting p
                                                             +++ " completed")];
                             procs := procs w |}) as [res [evs [E Q]]].
      rewrite E. exists res, (EvPrint (prefix_str setting p +++ " completed") :: evs).
      split; [|exact Q]. unfold add_events. cbn [trace procs].
      now rewrite <- app_assoc. }
    assert (Hstop : forall err, exists res evs,
               (text <- decode err ;;
                print (prefix_str setting p) ;;;
                print_errors (Py.split_lines text) ;;;
                raise ValueError) w = ((res : result unit), add_events w evs)
               /\ forallb quiet evs = true).
    { intros [text|].
      - unfold bind, decode, ret, print, emit, raise. rewrite print_errors_spec.
        exists (Raise ValueError),
               (EvPrint (prefix_str setting p)
                  :: map (fun e => EvPrint (Py.tab +++ e)) (Py.split_lines text)).
        split.
        + unfold add_events. cbn [trace procs]. now rewrite <- app_assoc.
        + cbn [forallb quiet is_popen is_wait negb andb].
          induction (Py.split_lines text) as [|x l IHl]; [reflexivity|exact IHl].
      - exists (Raise UnicodeDecodeError), [].
        unfold bind, decode, raise. now rewrite add_events_nil. }
    destruct (snd r) as [err|]; destruct rc as [[|[q|q|]|q]|];
      try exact Hgo; exact (Hstop err).
Qed.

Lemma quiet_launched evs : forallb quiet evs = true -> launched evs = [].
Proof.
  induction evs as [|e evs IH]; [reflexivity|]. cbn [forallb].
  intro H. apply andb_true_iff in H as [He Ht]. unfold launched in *. cbn [flat_map].
  rewrite IH by assumption. destruct e; cbn in *; auto; discriminate.
Qed.

Lemma quiet_commands evs : forallb quiet evs = true -> commands evs = [].
Proof.
  induction evs as [|e evs IH]; [reflexivity|]. cbn [forallb].
  intro H. apply andb_true_iff in H as [He Ht]. unfold commands in *. cbn [flat_map].
  rewrite IH by assumption. destruct e; cbn in *; auto; discriminate.
Qed.

Lemma launched_app t1 t2 : launched (t1 ++ t2) = launched t1 ++ launched t2.
Proof. unfold launched. apply flat_map_app. Qed.

Lemma commands_app t1 t2 : commands (t1 ++ t2) = commands t1 ++ commands t2.
Proof. unfold commands. apply flat_map_app. Qed.

Lemma launched_wait_events ps : launched (wait_events ps) = [].
Proof. induction ps as [|p ps IH]; [reflexivity|exact IH]. Qed.

Lemma commands_wait_events ps : commands (wait_events ps) = [].
Proof. induction ps as [|p ps IH]; [reflexivity|exact IH]. Qed.

(** A full batch is joined and checked without a new subprocess. *)
Lemma join_and_check_starts_nothing env setting ps w :
  exists res w',
    join_and_check env setting ps w = (res, w')
    /\ length (procs w') = length (procs w)
    /\ launched (trace w') = launched (trace w)
    /\ commands (trace w') = commands (trace w).
Proof.
  unfold join_and_check, bind.
  destruct (communicate_all_trace env ps w) as [rs ->].
  destruct (check_results_quiet setting ps rs 0
              {| trace := trace w ++ wait_events ps;
                 procs := wait_all env (procs w) (map job_process ps) |})
    as [res [evs [-> Q]]].
  eexists. eexists. split; [reflexivity|].
  unfold add_events. cbn [trace procs].
  rewrite wait_all_length, !launched_app, !commands_app.
  rewrite launched_wait_events, commands_wait_events.
  rewrite (quiet_launched _ Q), (quiet_commands _ Q), !app_nil_r. auto.
Qed.

Section Starts.

Variable env : Env.
Variable setting : LingualSetting.
Variable finetuned_task : Experiment.
Variable task : Experiment.
Variable models_per_gpu : Z.
Variable devices : list Z.

(** The command line of the job with index [j], for the head [h] and the
    device that [ids] holds at [j]. *)
Definition job_command (ids : list Z) (jh : nat * (nat * nat)) : result string :=
  head_command env setting finetuned_task task
               (fst (snd jh)) (snd (snd jh)) (nth (fst jh) ids 0%Z).

(** The jobs [i .. i + k - 1]: the first [k] heads of [hs] with their
    indices. *)
Definition numbered (i k : nat) (hs : list (nat * nat)) : list (nat * (nat * nat)) :=
  combine (seq i k) (firstn k hs).

Lemma numbered_cons i k h hs :
  numbered i (S k) (h :: hs) = (i, h) :: numbered (S i) k hs.
Proof. reflexivity. Qed.

(** The loop of line 59 starts one subprocess for each head of a prefix of
    its list, in order, and for the whole list when it returns. *)
Lemma launch_starts hs :
  forall ids i ps w,
    let r := launch env setting finetuned_task task models_per_gpu devices
                    ids i hs ps w in
    exists k cmds,
      k <= length hs
      /\ length (procs (snd r)) = length (procs w) + k
      /\ launched (trace (snd r)) = launched (trace w) ++ seq (length (procs w)) k
      /\ commands (trace (snd r)) = commands (trace w) ++ cmds
      /\ map Ok cmds = map (job_command ids) (numbered i k hs)
      /\ (forall ps', fst r = Ok ps' -> k = length hs).
Proof.
  induction hs as [|[hl hi] rest IH]; intros ids i ps w; cbv zeta.
  - exists 0, []. cbn. rewrite !app_nil_r. repeat split; auto.
  - rewrite launch_cons.
    destruct (nth_error ids i) as [did|] eqn:Hid.
    2:{ exists 0, []. cbn [fst snd seq map numbered combine firstn length].
        rewrite !app_nil_r, Nat.add_0_r. repeat split; auto; try lia. discriminate. }
    destruct (head_command env setting finetuned_task task hl hi did) as [cmd|e] eqn:Hcmd.
    2:{ exists 0, []. unfold add_events.
        cbn [fst snd seq map numbered combine firstn length trace procs].
        rewrite launched_app, commands_app, !app_nil_r, Nat.add_0_r.
        repeat split; auto; try lia. discriminate. }
    cbv zeta.
    set (w1 := started setting finetuned_task task w hl hi did cmd).
    assert (H1 : length (procs w1) = S (length (procs w))
                 /\ launched (trace w1) = launched (trace w) ++ [length (procs w)]
                 /\ commands (trace w1) = commands (trace w) ++ [cmd]).
    { unfold w1, started. cbn [trace procs].
      rewrite length_app, launched_app, commands_app. cbn. repeat split; lia. }
    destruct H1 as (Hp1 & Hl1 & Hc1).
    assert (Hnext : forall ps0 w2,
               length (procs w2) = S (length (procs w)) ->
               launched (trace w2) = launched (trace w) ++ [length (procs w)] ->
               commands (trace w2) = commands (trace w) ++ [cmd] ->
               let r := launch env setting finetuned_task task models_per_gpu devices
                               ids (S i) rest ps0 w2 in
               exists k cmds,
                 k <= length ((hl, hi) :: rest)
                 /\ length (procs (snd r)) = length (procs w) + k
                 /\ launched (trace (snd r))
                    = launched (trace w) ++ seq (length (procs w)) k
                 /\ commands (trace (snd r)) = commands (trace w) ++ cmds
                 /\ map Ok cmds = map (job_command ids) (numbered i k ((hl, hi) :: rest))
                 /\ (forall ps', fst r = Ok ps' -> k = length ((hl, hi) :: rest))).
    { intros ps0 w2 Hp2 Hl2 Hc2. cbv zeta.
      destruct (IH ids (S i) ps0 w2) as (k & cmds & Hk & Hp & Hl & Hc & Hm & Hall).
      exists (S k), (cmd :: cmds). cbn [length].
      split; [lia|]. split; [lia|].
      split.
      { rewrite Hl, Hl2, Hp2, <- app_assoc. reflexivity. }
      split.
      { rewrite Hc, Hc2, <- app_assoc. reflexivity. }
      split.
      { rewrite numbered_cons. cbn [map]. rewrite Hm. f_equal.
        unfold job_command. cbn [fst snd].
        now rewrite (nth_error_nth _ _ _ Hid), Hcmd. }
      intros ps' Hok. now rewrite (Hall ps' Hok). }
    destruct (Z.eqb _ _).
    + destruct (join_and_check_starts_nothing
                  env setting (ps ++ [(hl, hi, did, length (procs w))]) w1)
        as (res & w2 & -> & Hp2 & Hl2 & Hc2).
      destruct res as [u|e].
      * apply Hnext; congruence.
      * exists 1, [cmd]. cbn [fst snd length seq].
        split; [lia|]. split; [lia|].
        split; [congruence|]. split; [congruence|].
        split.
        { unfold numbered. cbn [seq firstn combine map]. unfold job_command.
          cbn [fst snd]. now rewrite (nth_error_nth _ _ _ Hid), Hcmd. }
        discriminate.
    + apply Hnext; assumption.
Qed.

End Starts.

Lemma nth_assigned devices i hs j :
  j < length hs ->
  nth j (assigned devices i hs) 0%Z = nth ((i + j) mod length devices) devices 0%Z.
Proof.
  intro Hj. unfold assigned.
  rewrite (nth_indep _ 0%Z (nth (0 mod length devices) devices 0%Z))
    by (rewrite length_map, length_seq; exact Hj).
  change (nth (0 mod length devices) devices 0%Z)
    with ((fun k => nth (k mod length devices) devices 0%Z) 0).
  rewrite map_nth, seq_nth by exact Hj. reflexivity.
Qed.

Lemma printed_app t1 t2 : printed (t1 ++ t2) = printed t1 ++ printed t2.
Proof. unfold printed. apply flat_map_app. Qed.

Lemma printed_prints {A : Type} (lines : list A) (f : A -> string) :
  printed (map (fun e => EvPrint (f e)) lines) = map f lines.
Proof.
  induction lines as [|x l IH]; [reflexivity|].
  unfold printed in *. cbn. now rewrite IH.
Qed.


(** From any world, the run starts its subprocesses for a prefix of the
    pending list, in order, and for the whole list when it returns. *)
Lemma probe_heads_starts env setting finetuned_task task models_per_gpu devices w :
  let r := probe_heads env setting finetuned_task task models_per_gpu devices w in
  let hs := heads_to_probe env setting finetuned_task task in
  exists k cmds,
    k <= length hs
    /\ launched (trace (snd r)) = launched (trace w) ++ seq (length (procs w)) k
    /\ commands (trace (snd r)) = commands (trace w) ++ cmds
    /\ map Ok cmds
       = map (fun jh : nat * (nat * nat) =>
                head_command env setting finetuned_task task
                             (fst (snd jh)) (snd (snd jh))
                             (nth (fst jh mod length devices) devices 0%Z))
             (combine (seq 0 k) (firstn k hs))
    /\ (fst r = Ok tt -> k = length hs).
Proof.
  cbv zeta.
  destruct (Nat.eq_dec (length (heads_to_probe env setting finetuned_task task)) 0)
    as [E0|Hne].
  { exists 0, []. rewrite E0. apply length_zero_iff_nil in E0.
    rewrite probe_heads_nothing by assumption. cbn [fst snd seq firstn combine map].
    rewrite !app_nil_r. repeat split; auto. }
  assert (Hh : heads_to_probe env setting finetuned_task task <> [])
    by (intro E; rewrite E in Hne; now apply Hne).
  destruct devices as [|d ds] eqn:Ed.
  { exists 0, []. rewrite probe_heads_no_devices by auto.
    cbn [fst snd seq firstn combine map]. rewrite !app_nil_r.
    repeat split; auto; try lia. discriminate. }
  rewrite <- Ed in *.
  assert (Hd : devices <> []) by (rewrite Ed; discriminate).
  rewrite probe_heads_unfold by assumption.
  destruct (launch_starts env setting finetuned_task task models_per_gpu devices
              (heads_to_probe env setting finetuned_task task)
              (assigned devices 0 (heads_to_probe env setting finetuned_task task))
              0 []
              (add_events w (prelude env setting finetuned_task task devices)))
    as (k & cmds & Hk & Hp & Hl & Hc & Hm & Hall).
  pose proof (prelude_quiet env setting finetuned_task task devices) as Hq.
  unfold add_events in Hl, Hc, Hp. cbn [trace procs] in Hl, Hc, Hp.
  rewrite launched_app, (quiet_launched _ Hq), app_nil_r in Hl.
  rewrite commands_app, (quiet_commands _ Hq), app_nil_r in Hc.
  exists k, cmds.
  assert (Hm' : map Ok cmds
                = map (fun jh : nat * (nat * nat) =>
                         head_command env setting finetuned_task task
                                      (fst (snd jh)) (snd (snd jh))
                                      (nth (fst jh mod length devices) devices 0%Z))
                      (combine (seq 0 k)
                               (firstn k (heads_to_probe env setting finetuned_task task)))).
  { rewrite Hm. unfold numbered. apply map_ext_in. intros [j h] Hin.
    unfold job_command. cbn [fst snd]. f_equal.
    apply in_combine_l in Hin. apply in_seq in Hin.
    rewrite nth_assigned by lia. reflexivity. }
  destruct (launch env _ _ _ _ _ _ _ _ _ _) as [[ps|e] w']; cbn [fst snd trace] in *.
  - rewrite launched_app, commands_app, launched_wait_events, commands_wait_events,
      !app_nil_r.
    repeat split; auto. intros _. now apply (Hall ps).
  - repeat split; auto. discriminate.
Qed.

(** ** The listing of the pending heads *)

(** A full batch is joined and checked: the trace only grows. *)
Lemma join_and_check_extends env setting ps w :
  exists evs, trace (snd (join_and_check env setting ps w)) = trace w ++ evs.
Proof.
  unfold join_and_check, bind.
  destruct (communicate_all_trace env ps w) as [rs ->].
  destruct (check_results_quiet setting ps rs 0
              {| trace := trace w ++ wait_events ps;
                 procs := wait_all env (procs w) (map job_process ps) |})
    as [res [evs [-> _]]].
  exists (wait_events ps ++ evs). unfold add_events. cbn [snd trace].
  now rewrite app_assoc.
Qed.

Lemma launch_extends env setting finetuned_task task models_per_gpu devices hs :
  forall ids i ps w,
    exists evs,
      trace (snd (launch env setting finetuned_task task models_per_gpu devices
                         ids i hs ps w)) = trace w ++ evs.
Proof.
  induction hs as [|[hl hi] rest IH]; intros ids i ps w.
  - exists []. cbn. now rewrite app_nil_r.
  - rewrite launch_cons.
    destruct (nth_error ids i) as [did|]; [|exists []; cbn; now rewrite app_nil_r].
    destruct (head_command env setting finetuned_task task hl hi did) as [cmd|e].
    2:{ eexists. reflexivity. }
    cbv zeta.
    set (w1 := started setting finetuned_task task w hl hi did cmd).
    assert (H1 : exists evs, trace w1 = trace w ++ evs) by (eexists; reflexivity).
    destruct H1 as [evs1 H1].
    destruct (Z.eqb _ _).
    + destruct (join_and_check_extends
                  env setting (ps ++ [(hl, hi, did, length (procs w))]) w1)
        as [evs2 H2].
      destruct (join_and_check _ _ _ _) as [[u|e] w2]; cbn [snd] in H2.
      * destruct (IH ids (S i) [] w2) as [evs3 H3].
        exists (evs1 ++ evs2 ++ evs3). rewrite H3, H2, H1. now rewrite <- !app_assoc.
      * exists (evs1 ++ evs2). cbn [snd]. rewrite H2, H1. now rewrite <- app_assoc.
    + destruct (IH ids (S i) (ps ++ [(hl, hi, did, length (procs w))]) w1)
        as [evs3 H3].
      exists (evs1 ++ evs3). rewrite H3, H1. now rewrite <- app_assoc.
Qed.

(** The line of the listing for the job with index [j], the head [h]. *)
Definition listing_line (setting : LingualSetting) (devices : list Z)
           (jh : nat * (nat * nat)) : string :=
  Py.lower (setting_name setting) +++ " " +++ Py.str_pair (snd jh)
    +++ " " +++ "GPU: " +++ Py.str (nth (fst jh mod length devices) devices 0%Z).

Lemma printed_head_lines setting ids hs :
  forall i,
    printed (head_lines setting ids i hs)
    = map (fun jh : nat * (nat * nat) =>
             Py.lower (setting_name setting) +++ " " +++ Py.str_pair (snd jh)
               +++ " " +++ "GPU: " +++ Py.str (nth (fst jh) ids 0%Z))
          (combine (seq i (length hs)) hs).
Proof.
  induction hs as [|hp rest IH]; intro i; [reflexivity|].
  cbn [head_lines length seq combine map]. unfold printed in *. cbn [flat_map].
  rewrite IH. reflexivity.
Qed.

Lemma printed_prelude env setting finetuned_task task devices :
  printed (prelude env setting finetuned_task task devices)
  = "heads to probe:"
      :: map (listing_line setting devices)
             (combine (seq 0 (length (heads_to_probe env setting finetuned_task task)))
                      (heads_to_probe env setting finetuned_task task))
      ++ [Py.nl].
Proof.
  unfold prelude. change (EvPrint "heads to probe:" :: ?l)
    with ([EvPrint "heads to probe:"] ++ l).
  rewrite !printed_app, printed_head_lines. cbn [printed flat_map List.app].
  f_equal. f_equal. apply map_ext_in. intros [j h] Hin.
  unfold listing_line. cbn [fst snd].
  apply in_combine_l in Hin. apply in_seq in Hin.
  rewrite nth_assigned by lia. reflexivity.
Qed.

(** With pending heads and devices, the run first prints the listing. *)
Lemma probe_heads_listing env setting finetuned_task task models_per_gpu devices w :
  heads_to_probe env setting finetuned_task task <> [] ->
  devices <> [] ->
  exists evs,
    trace (snd (probe_heads env setting finetuned_task task models_per_gpu devices w))
    = trace w ++ prelude env setting finetuned_task task devices ++ evs.
Proof.
  intros Hh Hd. rewrite probe_heads_unfold by assumption.
  destruct (launch_extends env setting finetuned_task task models_per_gpu devices
              (heads_to_probe env setting finetuned_task task)
              (assigned devices 0 (heads_to_probe env setting finetuned_task task))
              0 [] (add_events w (prelude env setting finetuned_task task devices)))
    as [evs Hevs].
  destruct (launch env _ _ _ _ _ _ _ _ _ _) as [[ps|e] w']; cbn [snd trace] in *.
  - exists (evs ++ wait_events ps). rewrite Hevs. unfold add_events. cbn [trace].
    now rewrite <- !app_assoc.
  - exists evs. rewrite Hevs. unfold add_events. cbn [trace].
    now rewrite <- !app_assoc.
Qed.

(** ** The jobs of a run, one by one *)

Lemma skipn_cons_nth {A : Type} (l : list A) :
  forall i h rest,
    skipn i l = h :: rest -> nth_error l i = Some h /\ skipn (S i) l = rest.
Proof.
  induction l as [|x l IH]; intros [|i] h rest H; cbn in H; try discriminate.
  - injection H as -> ->. auto.
  - cbn [nth_error]. change (skipn (S (S i)) (x :: l)) with (skipn (S i) l).
    now apply IH.
Qed.

Lemma head_command_found env setting finetuned_task task :
  (is_not_BASE setting = true ->
   rglob env (finetuned_checkpoint_dir setting finetuned_task) "model_5*.pt" <> []) ->
  forall hl hi did,
    exists cmd, head_command env setting finetuned_task task hl hi did = Ok cmd.
Proof.
  intros Hckpt hl hi did.
  destruct (head_command env setting finetuned_task task hl hi did) as [cmd|e] eqn:E;
    [eauto|].
  apply head_command_raise in E as (_ & Hs & Hnone). now destruct (Hckpt Hs).
Qed.

Lemma in_printed line t : In (EvPrint line) t -> In line (printed t).
Proof.
  intro H. unfold printed. apply in_flat_map. exists (EvPrint line).
  split; [exact H|now left].
Qed.

Section Jobs.

Variable env : Env.
Variable setting : LingualSetting.
Variable finetuned_task : Experiment.
Variable task : Experiment.
Variable models_per_gpu : Z.
Variable devices : list Z.

Hypothesis Hbatch : (1 <= batch_size models_per_gpu devices)%Z.
Hypothesis Hckpt :
  is_not_BASE setting = true ->
  rglob env (finetuned_checkpoint_dir setting finetuned_task) "model_5*.pt" <> [].

(** The whole pending list and the list [device_ids]. *)
Variable hs0 : list (nat * nat).
Variable ids : list Z.

Abbreviation wd := (width models_per_gpu devices).
Abbreviation launch' := (launch env setting finetuned_task task models_per_gpu devices).

(** The tuple that line 78 appends for the job with index [j]. *)
Definition job_at (j : nat) : Job :=
  (fst (nth j hs0 (0, 0)), snd (nth j hs0 (0, 0)), nth j ids 0%Z, j).

Definition completed (j : nat) : Event :=
  EvPrint (prefix_str setting (job_at j) +++ " completed").

(** The check of a batch of consecutive jobs: it passes, or it stops at the
    first job of the batch that exited with code 1. *)
Lemma check_trace_jobs n :
  forall a,
    ((forall q, a <= q < a + n -> exit_code env q <> 1%Z)
     /\ check_trace env setting (map job_at (seq a n)) = (map completed (seq a n), true))
    \/ (exists f,
           a <= f < a + n
           /\ exit_code env f = 1%Z
           /\ (forall q, a <= q < f -> exit_code env q <> 1%Z)
           /\ check_trace env setting (map job_at (seq a n))
              = (map completed (seq a (f - a))
                   ++ report setting (job_at f) (stderr_bytes env f), false)
           /\ check_exn env (map job_at (seq a n)) = failure (stderr_bytes env f)).
Proof.
  induction n as [|n IH]; intro a.
  - left. split; [intros; lia|reflexivity].
  - cbn [seq map check_trace check_exn].
    change (job_process (job_at a)) with a.
    destruct (Z.eqb_spec (exit_code env a) 1) as [E|E].
    + right. exists a. rewrite Nat.sub_diag. cbn [seq map List.app].
      repeat split; auto; lia.
    + destruct (IH (S a)) as [[Hall Hc]|(f & Hf & Hf1 & Hbefore & Hc & Hx)].
      * left. split.
        { intros q Hq. destruct (Nat.eq_dec q a) as [->|Hne]; [exact E|].
          apply Hall. lia. }
        rewrite Hc. reflexivity.
      * right. exists f. split; [lia|]. split; [exact Hf1|]. split.
        { intros q Hq. destruct (Nat.eq_dec q a) as [->|Hne]; [exact E|].
          apply Hbefore. lia. }
        rewrite Hc. cbn [fst snd]. split; [|exact Hx].
        replace (f - a) with (S (f - S a)) by lia. reflexivity.
Qed.

(** What is known of the jobs when job [i] is reached: [processes] holds
    the tuples of the jobs of the current batch, the jobs [0 .. i - 1] have
    been started, and every job of an earlier batch has passed the check and
    has its line "... completed". *)
Definition Jobs (i : nat) (ps : list Job) (w : World) : Prop :=
  ps = map job_at (seq (i - length ps) (length ps))
  /\ launched (trace w) = seq 0 i
  /\ forall q, q < i - length ps ->
       exit_code env q <> 1%Z /\ In (completed q) (trace w).

(** How a run ends that the check of a full batch stops: at the first job
    [f] that exited with code 1. *)
Definition aborted (bound : nat) (e : Exn) (w' : World) : Prop :=
  exists f,
    f < bound
    /\ exit_code env f = 1%Z
    /\ (forall q, q < f -> exit_code env q <> 1%Z /\ In (completed q) (trace w'))
    /\ e = failure (stderr_bytes env f)
    /\ launched (trace w') = seq 0 (wd * S (f / wd))
    /\ live (trace w') = []
    /\ exists t, trace w' = t ++ report setting (job_at f) (stderr_bytes env f).

Lemma launch_step_jobs h i ps w :
  Inv models_per_gpu devices i ps w ->
  Jobs i ps w ->
  nth_error hs0 i = Some h ->
  i < length ids ->
  match launch' ids i [h] ps w with
  | (Ok ps1, w1) => Inv models_per_gpu devices (S i) ps1 w1 /\ Jobs (S i) ps1 w1
  | (Raise e, w1) => S i mod wd = 0 /\ aborted (S i) e w1
  end.
Proof.
  intros HI (Hps & Hl & Hdone) Hh Hi.
  pose proof (launch_inv env setting finetuned_task task models_per_gpu devices Hbatch
                         [h] ids i ps w HI) as HI1.
  replace (i + length [h]) with (S i) in HI1 by (cbn; lia).
  destruct h as [hl hi]. rewrite launch_cons in *.
  destruct (nth_error ids i) as [did|] eqn:Hid.
  2:{ apply nth_error_None in Hid. lia. }
  destruct (head_command_found env setting finetuned_task task Hckpt hl hi did)
    as [cmd Hcmd].
  rewrite Hcmd in *.
  pose proof (started_facts setting finetuned_task task models_per_gpu devices Hbatch
                            i ps w hl hi did cmd HI) as HS.
  cbv zeta in HS, HI1 |- *.
  pose proof (width_pos _ _ Hbatch) as Hw.
  pose proof (inv_len _ _ _ _ _ HI) as Hlen.
  pose proof (inv_procs _ _ _ _ _ HI) as Hpw.
  pose proof (Nat.Div0.mod_le i wd) as Hle.
  assert (Hjob : (hl, hi, did, length (procs w)) = job_at i).
  { unfold job_at. rewrite Hpw, (nth_error_nth _ _ _ Hh), (nth_error_nth _ _ _ Hid).
    reflexivity. }
  rewrite Hjob in *.
  set (w1 := started setting finetuned_task task w hl hi did cmd) in *.
  set (a := i - length ps) in *.
  assert (Htr1 : forall e, In e (trace w) -> In e (trace w1)).
  { intros e He. unfold w1, started. cbn [trace]. apply in_or_app. now left. }
  assert (Hl1 : launched (trace w1) = seq 0 (S i)).
  { unfold w1, started. cbn [trace]. rewrite launched_app, Hl, Hpw, seq_S. reflexivity. }
  match goal with
  | |- context [Z.of_nat (length ?l)] => set (ps' := l) in *
  end.
  assert (Hps' : ps' = map job_at (seq a (S (length ps)))).
  { unfold ps'. rewrite seq_S, map_app. cbn [map]. rewrite <- Hps.
    replace (a + length ps) with i by (unfold a; lia). reflexivity. }
  destruct HS as (Hprocs & Hpiped & Hpids & Hlive & _).
  assert (Hlen' : length ps' = S (length ps))
    by (unfold ps'; rewrite length_app; cbn; lia).
  clearbody w1 ps'.
  destruct (Z.eqb _ _) eqn:Efull.
  - apply (full_iff _ _ Hbatch) in Efull.
    destruct (succ_full _ _ Hbatch i ltac:(lia)) as [Hmod Hdiv].
    rewrite join_and_check_spec in *; auto.
    2,3: rewrite Forall_forall; intros p Hp;
      assert (Hin : In (job_process p) (map job_process ps')) by (now apply in_map);
      rewrite Hpids in Hin; apply in_seq in Hin; lia.
    pose proof (check_trace_quiet env setting ps') as Hquiet.
    assert (Hl2 : launched (trace w1 ++ wait_events ps' ++ fst (check_trace env setting ps'))
                  = seq 0 (S i)).
    { rewrite !launched_app, launched_wait_events, Hl1.
      rewrite (quiet_launched (fst (check_trace env setting ps'))) by exact Hquiet.
      now rewrite !app_nil_r. }
    destruct (check_trace_jobs (S (length ps)) a)
      as [[Hall Hc]|(f & Hf & Hf1 & Hbefore & Hc & Hx)];
      rewrite <- Hps' in Hc.
    + rewrite Hc in *. cbn [fst snd launch ret] in *.
      split; [exact HI1|]. split; [reflexivity|]. split; [exact Hl2|].
      intros q Hq. cbn [length] in Hq. rewrite Nat.sub_0_r in Hq. cbn [trace].
      destruct (Nat.lt_ge_cases q a) as [Hlow|Hhigh].
      * destruct (Hdone q Hlow) as [Hq1 Hin]. split; [exact Hq1|].
        apply in_or_app. left. now apply Htr1.
      * split; [apply Hall; lia|].
        apply in_or_app. right. apply in_or_app. right.
        apply in_map. apply in_seq. lia.
    + rewrite <- Hps' in Hx. rewrite Hc, Hx in *. cbn [fst snd] in *.
      split; [exact Hmod|]. exists f. cbn [trace].
      split; [lia|]. split; [exact Hf1|].
      split.
      { intros q Hq. destruct (Nat.lt_ge_cases q a) as [Hlow|Hhigh].
        - destruct (Hdone q Hlow) as [Hq1 Hin]. split; [exact Hq1|].
          apply in_or_app. left. now apply Htr1.
        - split; [apply Hbefore; lia|].
          apply in_or_app. right. apply in_or_app. right.
          apply in_or_app. left. apply in_map. apply in_seq. lia. }
      split; [reflexivity|].
      split.
      { rewrite Hl2. f_equal.
        pose proof (batch_start models_per_gpu devices i) as Hbs.
        assert (Hdiv' : f / wd = i / wd).
        { symmetry. apply Nat.div_unique with (r := f - a); lia. }
        rewrite Hdiv'. lia. }
      split.
      { rewrite live_app, Hlive, live_from_app, live_from_waits.
        - apply live_from_quiet, Hquiet.
        - rewrite Hpids. apply seq_NoDup. }
      eexists. rewrite !app_assoc. reflexivity.
  - cbn [launch ret] in *. split; [exact HI1|].
    split; [|split; [exact Hl1|]].
    + rewrite Hlen', Hps'. reflexivity.
    + intros q Hq. rewrite Hlen' in Hq.
      destruct (Hdone q ltac:(lia)) as [Hq1 Hin]. split; [exact Hq1|now apply Htr1].
Qed.

Lemma launch_jobs hs :
  forall i ps w,
    Inv models_per_gpu devices i ps w ->
    Jobs i ps w ->
    skipn i hs0 = hs ->
    i + length hs <= length ids ->
    match launch' ids i hs ps w with
    | (Ok ps', w') =>
        Inv models_per_gpu devices (i + length hs) ps' w'
        /\ Jobs (i + length hs) ps' w'
    | (Raise e, w') => aborted (wd * ((i + length hs) / wd)) e w'
    end.
Proof.
  induction hs as [|h rest IH]; intros i ps w HI HJ Hskip Hids.
  - cbn [launch ret length]. rewrite Nat.add_0_r. auto.
  - rewrite (launch_split setting finetuned_task task models_per_gpu devices env
                          ids i h rest).
    destruct (skipn_cons_nth _ _ _ _ Hskip) as [Hh Hrest].
    cbn [length] in Hids.
    pose proof (launch_step_jobs h i ps w HI HJ Hh ltac:(lia)) as Hstep.
    destruct (launch' ids i [h] ps w) as [[ps1|e] w1].
    + destruct Hstep as [HI1 HJ1].
      specialize (IH (S i) ps1 w1 HI1 HJ1 Hrest ltac:(lia)).
      cbn [length].
      now replace (i + S (length rest)) with (S i + length rest) by lia.
    + destruct Hstep as [Hmod (f & Hf & Hrest')].
      exists f. split; [|exact Hrest'].
      pose proof (Nat.div_mod_eq (S i) wd) as E.
      pose proof (batch_start_mono models_per_gpu devices (S i)
                    (i + length (h :: rest)) ltac:(cbn; lia)).
      lia.
Qed.

End Jobs.

(** The job with index [j] of a run: the [j]-th pending head, on the device
    [devices[j % len(devices)]], as the process [j]. *)
Definition job_of (env : Env) (setting : LingualSetting)
           (finetuned_task task : Experiment) (devices : list Z) (j : nat) : Job :=
  let h := nth j (heads_to_probe env setting finetuned_task task) (0, 0) in
  (fst h, snd h, nth (j mod length devices) devices 0%Z, j).

Lemma job_at_assigned env setting finetuned_task task devices j :
  j < length (heads_to_probe env setting finetuned_task task) ->
  job_at (heads_to_probe env setting finetuned_task task)
         (assigned devices 0 (heads_to_probe env setting finetuned_task task)) j
  = job_of env setting finetuned_task task devices j.
Proof.
  intro Hj. unfold job_at, job_of. cbv zeta.
  rewrite nth_assigned by exact Hj. reflexivity.
Qed.

(** A whole run with a batch size of at least 1 and the checkpoint in
    place: every job of a full batch has passed the check and has its line
    "... completed", or the run stopped at the first job that exited with
    code 1, which is a job of a full batch. *)
Lemma probe_heads_jobs env setting finetuned_task task models_per_gpu devices :
  (1 <= batch_size models_per_gpu devices)%Z ->
  (is_not_BASE setting = true ->
   rglob env (finetuned_checkpoint_dir setting finetuned_task) "model_5*.pt" <> []) ->
  let hs := heads_to_probe env setting finetuned_task task in
  let K := width models_per_gpu devices * (length hs / width models_per_gpu devices) in
  match probe_heads env setting finetuned_task task models_per_gpu devices
                    empty_world with
  | (Ok _, w') =>
      forall q, q < K ->
        exit_code env q <> 1%Z
        /\ In (EvPrint (prefix_str setting (job_of env setting finetuned_task task
                                                   devices q) +++ " completed"))
              (trace w')
  | (Raise e, w') =>
      exists f,
        f < K
        /\ exit_code env f = 1%Z
        /\ (forall q, q < f ->
              exit_code env q <> 1%Z
              /\ In (EvPrint (prefix_str setting (job_of env setting finetuned_task task
                                                         devices q) +++ " completed"))
                    (trace w'))
        /\ e = failure (stderr_bytes env f)
        /\ launched (trace w')
           = seq 0 (width models_per_gpu devices
                    * S (f / width models_per_gpu devices))
        /\ live (trace w') = []
        /\ exists t,
            trace w'
            = t ++ report setting (job_of env setting finetuned_task task devices f)
                          (stderr_bytes env f)
  end.
Proof.
  intros Hbatch Hckpt. cbv zeta.
  set (hs := heads_to_probe env setting finetuned_task task).
  destruct (Nat.eq_dec (length hs) 0) as [E0|Hne].
  { rewrite E0. apply length_zero_iff_nil in E0.
    rewrite probe_heads_nothing by assumption.
    rewrite Nat.Div0.div_0_l, Nat.mul_0_r. intros q Hq. lia. }
  assert (Hh : hs <> []) by (intro E; rewrite E in Hne; now apply Hne).
  pose proof (devices_nonempty _ _ Hbatch) as Hd.
  pose proof (width_pos _ _ Hbatch) as Hw.
  pose proof (Nat.Div0.mul_div_le (length hs) (width models_per_gpu devices)) as HK.
  rewrite probe_heads_unfold by assumption. fold hs.
  pose proof (launch_jobs env setting finetuned_task task models_per_gpu devices
                Hbatch Hckpt hs (assigned devices 0 hs) hs 0 []
                (add_events empty_world (prelude env setting finetuned_task task devices))
                (inv_prelude env setting finetuned_task task models_per_gpu devices))
    as HL.
  cbn [Nat.add] in HL.
  assert (HJ0 : Jobs env setting hs (assigned devices 0 hs) 0 []
                     (add_events empty_world
                                 (prelude env setting finetuned_task task devices))).
  { split; [reflexivity|]. split.
    - unfold add_events. cbn [trace empty_world List.app].
      apply quiet_launched.
      exact (prelude_quiet env setting finetuned_task task devices).
    - intros q Hq. cbn in Hq. lia. }
  specialize (HL HJ0 eq_refl ltac:(rewrite assigned_length; lia)).
  subst hs.
  destruct (launch env _ _ _ _ _ _ _ _ _ _) as [[ps|e] w'].
  - destruct HL as [HI (_ & _ & Hdone)]. intros q Hq.
    pose proof (inv_len _ _ _ _ _ HI) as Hlen.
    pose proof (batch_start models_per_gpu devices
                  (length (heads_to_probe env setting finetuned_task task))) as Hbs.
    destruct (Hdone q ltac:(lia)) as [Hq1 Hin]. split; [exact Hq1|].
    unfold completed in Hin. rewrite job_at_assigned in Hin by lia.
    cbn [trace]. apply in_or_app. now left.
  - destruct HL as (f & Hf & Hf1 & Hbefore & He & Hl & Hlive & t & Ht).
    exists f. split; [exact Hf|]. split; [exact Hf1|].
    split.
    { intros q Hq. destruct (Hbefore q Hq) as [Hq1 Hin]. split; [exact Hq1|].
      unfold completed in Hin. rewrite job_at_assigned in Hin by lia.
      exact Hin. }
    split; [exact He|]. split; [exact Hl|]. split; [exact Hlive|].
    exists t. rewrite Ht. now rewrite job_at_assigned by lia.
Qed.
(** * Example worlds *)

Module Examples.

Definition NLI : Experiment := {| name := "NLI" |}.
Definition POS : Experiment := {| name := "POS" |}.

(** A world for probing POS on the model finetuned on NLI.  Of the 144
    heads, the heads of [pending] have no completion marker under the
    directories of [setting]; [ckpts] is what every [model_5*.pt] listing
    gives; [dirs] are the directories that exist. *)
Definition world (setting : LingualSetting) (pending : list (nat * nat))
           (ckpts : list Path) (dirs : list Path)
           (codes : nat -> Z) (errs : nat -> Bytes) : Env :=
  {| rglob := fun d pat =>
       if String.eqb pat "model_1_*.pt"
       then
         if existsb (fun h => String.eqb d (dir_for_head setting NLI POS (fst h) (snd h)))
                    pending
         then []
         else [d +++ "/model_1_1000.pt"]
       else ckpts;
     is_dir := fun p => existsb (String.eqb p) dirs;
     n_class := fun _ _ => 17%Z;
     exit_code := codes;
     stderr_bytes := errs |}.

(** Five heads of layer 0 are left to probe. *)
Definition five : list (nat * nat) := [(0, 0); (0, 1); (0, 2); (0, 3); (0, 4)].

Definition all_succeed : nat -> Z := fun _ => 0%Z.
Definition silent : nat -> Bytes := fun _ => Utf8 "".

(** The subprocess [pid] fails with exit code 1, the others succeed. *)
Definition fails (pid : nat) : nat -> Z := fun p => if p =? pid then 1%Z else 0%Z.
Definition boom : nat -> Bytes :=
  fun _ => Utf8 ("Traceback" +++ Py.nl +++ "boom").

End Examples.

(** * The claims *)

Lemma in_grid hl hi : In (hl, hi) grid <-> hl < 12 /\ hi < 12.
Proof.
  unfold grid. rewrite in_prod_iff, !in_seq. lia.
Qed.

(** C1. For every pair (layer, head) of the 12 x 12 grid, the pair is in the
    list of heads that [probe_heads] goes on to probe if and only if the
    listing of [model_1_*.pt] under its directory
    checkpoint/head_probing/<finetuned_task>/<task>/<setting>/<layer>/<head>
    is empty, and no pair outside the grid is ever in that list.  When every
    pair of the grid has a marker, [probe_heads] returns at once: the world
    is left as it was, so nothing is printed and no subprocess is started.
    When there are pending heads and devices, the run first prints the
    listing: the line "heads to probe:", one line for each pending head, in
    order, with the device [devices[j % len(devices)]] of its job [j], and a
    newline.  And from any world the subprocesses that the run starts are
    those of the pending list, in order: a prefix of the list, one subprocess
    for each head of the prefix, with consecutive handles and the command
    line built for that head and its device; a run that returns normally has
    started a subprocess for every pending head. *)
Theorem probe_heads_pending_iff_no_marker
        env setting finetuned_task task models_per_gpu devices :
  let hs := heads_to_probe env setting finetuned_task task in
  (forall hl hi,
      In (hl, hi) hs
      <-> hl < 12 /\ hi < 12
          /\ rglob env (dir_for_head setting finetuned_task task hl hi) "model_1_*.pt"
             = [])
  /\ ((forall hl hi,
         hl < 12 -> hi < 12 ->
         rglob env (dir_for_head setting finetuned_task task hl hi) "model_1_*.pt"
         <> []) ->
      forall w,
        probe_heads env setting finetuned_task task models_per_gpu devices w
        = (Ok tt, w))
  /\ (hs <> [] -> devices <> [] ->
      forall w, exists rest,
        printed (trace (snd (probe_heads env setting finetuned_task task
                                         models_per_gpu devices w)))
        = printed (trace w)
          ++ ("heads to probe:"
                :: map (fun jh : nat * (nat * nat) =>
                          Py.lower (setting_name setting) +++ " "
                            +++ Py.str_pair (snd jh) +++ " " +++ "GPU: "
                            +++ Py.str (nth (fst jh mod length devices) devices 0%Z))
                       (combine (seq 0 (length hs)) hs)
                ++ [Py.nl])
          ++ rest)
  /\ (forall w,
        let r := probe_heads env setting finetuned_task task models_per_gpu devices w in
        exists k cmds,
          k <= length hs
          /\ launched (trace (snd r)) = launched (trace w) ++ seq (length (procs w)) k
          /\ commands (trace (snd r)) = commands (trace w) ++ cmds
          /\ map Ok cmds
             = map (fun jh : nat * (nat * nat) =>
                      head_command env setting finetuned_task task
                                   (fst (snd jh)) (snd (snd jh))
                                   (nth (fst jh mod length devices) devices 0%Z))
                   (combine (seq 0 k) (firstn k hs))
          /\ (fst r = Ok tt -> k = length hs)).
Proof.
  cbv zeta.
  assert (Hiff : forall hl hi,
      In (hl, hi) (heads_to_probe env setting finetuned_task task)
      <-> hl < 12 /\ hi < 12
          /\ rglob env (dir_for_head setting finetuned_task task hl hi) "model_1_*.pt"
             = []).
  { intros hl hi. unfold heads_to_probe. rewrite filter_In, in_grid.
    unfold unprobed. cbn [fst snd]. rewrite Nat.eqb_eq, length_zero_iff_nil. tauto. }
  split; [exact Hiff|]. split; [|split].
  - intros Hall w. apply probe_heads_nothing.
    destruct (heads_to_probe env setting finetuned_task task) as [|[hl hi] rest] eqn:E;
      [reflexivity|].
    exfalso.
    destruct (proj1 (Hiff hl hi) (or_introl eq_refl)) as (Hl & Hi & Hnone).
    now apply (Hall hl hi).
  - intros Hh Hd w.
    destruct (probe_heads_listing env setting finetuned_task task models_per_gpu
                                  devices w Hh Hd) as [evs ->].
    exists (printed evs). rewrite !printed_app, printed_prelude. reflexivity.
  - intro w.
    exact (probe_heads_starts env setting finetuned_task task models_per_gpu devices w).
Qed.

(** A run in a world where every head has its marker, and a run in a world
    where five heads of layer 0 have none, with two devices. *)
Lemma probe_heads_pending_iff_no_marker_witness :
  let marked := Examples.world CROSS [] [] [] Examples.all_succeed Examples.silent in
  let env := Examples.world CROSS Examples.five ["checkpoint/NLI_cross/model_5.pt"] []
                            Examples.all_succeed Examples.silent in
  let r := probe_heads env CROSS Examples.NLI Examples.POS 2 [0; 1]%Z empty_world in
  probe_heads marked CROSS Examples.NLI Examples.POS 2 [0; 1]%Z empty_world
  = (Ok tt, empty_world)
  /\ In (0, 3) (heads_to_probe env CROSS Examples.NLI Examples.POS)
  /\ fst r = Ok tt
  /\ (exists rest,
        printed (trace (snd r))
        = ["heads to probe:"; "cross (0, 0) GPU: 0"; "cross (0, 1) GPU: 1";
           "cross (0, 2) GPU: 0"; "cross (0, 3) GPU: 1"; "cross (0, 4) GPU: 0"; Py.nl]
            ++ rest)
  /\ launched (trace (snd r)) = [0; 1; 2; 3; 4]
  /\ map Ok (commands (trace (snd r)))
     = [head_command env CROSS Examples.NLI Examples.POS 0 0 0%Z;
        head_command env CROSS Examples.NLI Examples.POS 0 1 1%Z;
        head_command env CROSS Examples.NLI Examples.POS 0 2 0%Z;
        head_command env CROSS Examples.NLI Examples.POS 0 3 1%Z;
        head_command env CROSS Examples.NLI Examples.POS 0 4 0%Z].
Proof.
  cbv zeta.
  split.
  { apply (proj1 (proj2 (probe_heads_pending_iff_no_marker
                           (Examples.world CROSS [] [] [] Examples.all_succeed
                                           Examples.silent)
                           CROSS Examples.NLI Examples.POS 2 [0; 1]%Z))).
    intros hl hi _ _. cbn. discriminate. }
  destruct (probe_heads_pending_iff_no_marker
              (Examples.world CROSS Examples.five ["checkpoint/NLI_cross/model_5.pt"] []
                              Examples.all_succeed Examples.silent)
              CROSS Examples.NLI Examples.POS 2 [0; 1]%Z)
    as (Hiff & _ & Hlist & Hstart).
  assert (Hok : fst (probe_heads
                       (Examples.world CROSS Examples.five
                                       ["checkpoint/NLI_cross/model_5.pt"] []
                                       Examples.all_succeed Examples.silent)
                       CROSS Examples.NLI Examples.POS 2 [0; 1]%Z empty_world)
                = Ok tt) by (vm_compute; reflexivity).
  assert (Hfive : heads_to_probe
                    (Examples.world CROSS Examples.five
                                    ["checkpoint/NLI_cross/model_5.pt"] []
                                    Examples.all_succeed Examples.silent)
                    CROSS Examples.NLI Examples.POS
                  = Examples.five) by (vm_compute; reflexivity).
  split.
  { apply Hiff. split; [lia|]. split; [lia|]. vm_compute. reflexivity. }
  split; [exact Hok|].
  split.
  { destruct (Hlist ltac:(rewrite Hfive; discriminate) ltac:(discriminate) empty_world)
      as [rest Hrest].
    exists rest. rewrite Hrest, Hfive. reflexivity. }
  destruct (Hstart empty_world) as (k & cmds & _ & Hl & Hc & Hm & Hall).
  rewrite (Hall Hok), Hfive in Hl, Hm.
  split; [exact Hl|]. rewrite Hc. exact Hm.
Defined.

(** C2. With a non-empty device list, lines 48-50 succeed and give the job
    at index [i] of the pending list the device [devices[i % len(devices)]];
    the list [device_ids] has one entry per pending job, and the world is
    not touched. *)
Theorem device_assignment_round_robin (devices : list Z) (hs : list (nat * nat)) w :
  devices <> [] ->
  exists device_ids,
    assign_devices devices 0 hs [] w = (Ok device_ids, w)
    /\ length device_ids = length hs
    /\ forall i, i < length hs ->
         nth_error device_ids i = nth_error devices (i mod length devices).
Proof.
  intro Hd. exists (assigned devices 0 hs).
  rewrite assign_devices_spec by assumption. cbn [app].
  split; [reflexivity|]. split; [apply assigned_length|].
  intros i Hi. unfold assigned.
  rewrite nth_error_map, nth_error_seq.
  destruct (Nat.ltb_spec i (length hs)) as [_|Hge]; [|lia].
  cbn [option_map Nat.add].
  assert (Hlt : i mod length devices < length devices).
  { apply Nat.mod_upper_bound. destruct devices; [congruence|discriminate]. }
  symmetry. apply nth_error_nth'. exact Hlt.
Qed.

(** Two devices and five pending jobs: the devices are 0, 1, 0, 1, 0. *)
Lemma device_assignment_round_robin_witness :
  exists device_ids,
    assign_devices [0; 1]%Z 0
                   (heads_to_probe
                      (Examples.world CROSS Examples.five [] []
                                      Examples.all_succeed Examples.silent)
                      CROSS Examples.NLI Examples.POS)
                   [] empty_world
    = (Ok device_ids, empty_world)
    /\ device_ids = [0; 1; 0; 1; 0]%Z.
Proof.
  destruct (device_assignment_round_robin
              [0; 1]%Z
              (heads_to_probe
                 (Examples.world CROSS Examples.five [] []
                                 Examples.all_succeed Examples.silent)
                 CROSS Examples.NLI Examples.POS)
              empty_world ltac:(discriminate)) as [ids [Hrun _]].
  exists ids. split; [exact Hrun|].
  vm_compute in Hrun. now injection Hrun as <-.
Defined.

(** C3 as the specification states it: whatever the run, the processes that
    are running never outnumber the batch size, a batch is joined before the
    next is started, and the batch joins number [ceil(n / batch size)]. *)
Definition batches_as_specified env setting finetuned_task task models_per_gpu devices
  : Prop :=
  let w' := snd (probe_heads env setting finetuned_task task models_per_gpu devices
                             empty_world) in
  bounded models_per_gpu devices (trace w')
  /\ separated models_per_gpu devices (trace w')
  /\ batch_joins (trace w')
     = ceil_div (length (heads_to_probe env setting finetuned_task task))
                (width models_per_gpu devices).

(** C3, counterexamples.  One device, one model per GPU, two pending heads,
    and the first subprocess exits with code 1: the run stops after one join,
    not two.  One device and [models_per_gpu = 0]: the batch size is 0 and one
    subprocess runs. *)
Lemma batches_as_specified_fails :
  ~ batches_as_specified
      (Examples.world BASE [(0, 0); (0, 1)] [] [] (Examples.fails 0) Examples.boom)
      BASE Examples.NLI Examples.POS 1 [0%Z]
  /\ ~ batches_as_specified
         (Examples.world BASE [(0, 0)] [] [] Examples.all_succeed Examples.silent)
         BASE Examples.NLI Examples.POS 0 [0%Z].
Proof.
  split.
  - intros (_ & _ & H). vm_compute in H. discriminate.
  - intros (H & _).
    set (w' := snd (probe_heads _ _ _ _ _ _ _)) in H.
    specialize (H (removelast (trace w')) [EvWait 0] ltac:(vm_compute; reflexivity)).
    vm_compute in H. lia.
Qed.

Lemma bounded_nil models_per_gpu devices : bounded models_per_gpu devices [].
Proof.
  intros t1 t2 E. symmetry in E. apply app_eq_nil in E as [-> _]. cbn. lia.
Qed.

Lemma separated_nil models_per_gpu devices : separated models_per_gpu devices [].
Proof.
  intros t1 pid cmd o e t2 E. destruct t1; discriminate.
Qed.

(** C3, amended.  When the batch size [len(devices) * models_per_gpu] is at
    least 1, then in every run of [probe_heads], aborted or not, the
    subprocesses started and not yet waited for never outnumber the batch
    size, and when a subprocess is started every subprocess of an earlier
    batch has been waited for; and a run that returns performs exactly
    [ceil(n / batch size)] batch joins for its [n] pending jobs. *)
Theorem probe_heads_batches env setting finetuned_task task models_per_gpu devices :
  (1 <= batch_size models_per_gpu devices)%Z ->
  let r := probe_heads env setting finetuned_task task models_per_gpu devices
                       empty_world in
  bounded models_per_gpu devices (trace (snd r))
  /\ separated models_per_gpu devices (trace (snd r))
  /\ (fst r = Ok tt ->
      batch_joins (trace (snd r))
      = ceil_div (length (heads_to_probe env setting finetuned_task task))
                 (width models_per_gpu devices)).
Proof.
  intros Hbatch. cbv zeta.
  destruct (Nat.eq_dec (length (heads_to_probe env setting finetuned_task task)) 0)
    as [E0|Hne].
  - rewrite E0. apply length_zero_iff_nil in E0.
    rewrite probe_heads_nothing by assumption. cbn [fst snd trace empty_world].
    split; [apply bounded_nil|]. split; [apply separated_nil|].
    intros _. unfold ceil_div. cbn [Nat.add]. symmetry.
    apply Nat.div_small. pose proof (width_pos _ _ Hbatch). lia.
  - assert (Hh : heads_to_probe env setting finetuned_task task <> [])
      by (intro E; rewrite E in Hne; now apply Hne).
    pose proof (probe_heads_run env setting finetuned_task task models_per_gpu devices
                                Hbatch Hh) as HR.
    destruct (probe_heads _ _ _ _ _ _ _) as [[u|e] w']; cbn [fst snd].
    + destruct HR as ((Hb & Hs) & Hj & _). auto.
    + destruct HR as ((Hb & Hs) & _). repeat split; auto. discriminate.
Qed.

(** Two devices, two models per GPU, five pending heads. *)
Lemma probe_heads_batches_witness :
  let env := Examples.world CROSS Examples.five ["checkpoint/NLI_cross/model_5.pt"] []
                            Examples.all_succeed Examples.silent in
  let r := probe_heads env CROSS Examples.NLI Examples.POS 2 [0; 1]%Z empty_world in
  (1 <= batch_size 2 [0; 1]%Z)%Z
  /\ fst r = Ok tt
  /\ bounded 2 [0; 1]%Z (trace (snd r))
  /\ separated 2 [0; 1]%Z (trace (snd r))
  /\ batch_joins (trace (snd r)) = 2.
Proof.
  cbv zeta.
  assert (Hb : (1 <= batch_size 2 [0; 1]%Z)%Z) by (vm_compute; discriminate).
  pose proof (probe_heads_batches
                (Examples.world CROSS Examples.five ["checkpoint/NLI_cross/model_5.pt"]
                                [] Examples.all_succeed Examples.silent)
                CROSS Examples.NLI Examples.POS 2 [0; 1]%Z Hb) as (H1 & H2 & H3).
  split; [exact Hb|]. split; [vm_compute; reflexivity|].
  split; [exact H1|]. split; [exact H2|].
  vm_compute. reflexivity.
Defined.

(** C4, at the failing input.  One device, one pending head, and the only
    subprocess exits with code 1 and a traceback on stderr.  With
    [models_per_gpu = 2] the batch is never full: line 97 waits for the
    process, its return code is 1, and [probe_heads] returns normally
    without printing the stderr.  With [models_per_gpu = 1] the same process
    fills a batch, and lines 86-91 print its stderr and raise. *)
Theorem final_batch_failure_unreported :
  let env := Examples.world BASE [(0, 0)] [] [] (Examples.fails 0) Examples.boom in
  let partial := probe_heads env BASE Examples.NLI Examples.POS 2 [0%Z] empty_world in
  let full := probe_heads env BASE Examples.NLI Examples.POS 1 [0%Z] empty_world in
  fst partial = Ok tt
  /\ launched (trace (snd partial)) = [0]
  /\ map returncode (procs (snd partial)) = [Some 1%Z]
  /\ printed (trace (snd partial))
     = ["heads to probe:"; "base (0, 0) GPU: 0"; Py.nl;
        "[BASE] [GPU 0] NLI->POS (0, 0)"]
  /\ fst full = Raise ValueError
  /\ printed (trace (snd full))
     = ["heads to probe:"; "base (0, 0) GPU: 0"; Py.nl;
        "[BASE] [GPU 0] NLI->POS (0, 0)";
        "[BASE] [GPU 0] (0, 0):"; Py.tab +++ "Traceback"; Py.tab +++ "boom"].
Proof.
  vm_compute. repeat split; reflexivity.
Qed.

(** C5. Let the batch size be at least 1 and the number [n] of pending jobs
    no multiple of it, so that the processes [width * (n / width) ..  n - 1]
    form a last, partial batch.  Change the exit codes and the stderr of
    these processes at will (the outcomes of the processes of the full
    batches stay as they are): the run gives the same result and the same
    trace, hence prints the same lines.  A run that returns ends with the
    waits for the processes of the partial batch.  And when the checkpoint
    to resume from is found and no process of a full batch exits with code
    1, the run returns normally whatever the processes of the partial batch
    exit with. *)
Theorem final_partial_batch_unchecked
        env codes errs setting finetuned_task task models_per_gpu devices :
  (1 <= batch_size models_per_gpu devices)%Z ->
  length (heads_to_probe env setting finetuned_task task)
    mod width models_per_gpu devices <> 0 ->
  (forall pid,
      pid < width models_per_gpu devices
            * (length (heads_to_probe env setting finetuned_task task)
               / width models_per_gpu devices) ->
      codes pid = exit_code env pid /\ errs pid = stderr_bytes env pid) ->
  let n := length (heads_to_probe env setting finetuned_task task) in
  let wd := width models_per_gpu devices in
  let r := probe_heads env setting finetuned_task task models_per_gpu devices
                       empty_world in
  let r' := probe_heads (with_outcomes env codes errs) setting finetuned_task task
                        models_per_gpu devices empty_world in
  fst r' = fst r
  /\ trace (snd r') = trace (snd r)
  /\ (fst r' = Ok tt ->
      seq (wd * (n / wd)) (n mod wd) <> []
      /\ exists t, trace (snd r') = t ++ map EvWait (seq (wd * (n / wd)) (n mod wd)))
  /\ ((is_not_BASE setting = true ->
       rglob env (finetuned_checkpoint_dir setting finetuned_task) "model_5*.pt" <> []) ->
      (forall pid, pid < wd * (n / wd) -> codes pid <> 1%Z) ->
      fst r' = Ok tt).
Proof.
  intros Hbatch Hpart Hsame. cbv zeta.
  set (n := length (heads_to_probe env setting finetuned_task task)) in *.
  set (wd := width models_per_gpu devices) in *.
  assert (Hagree : forall pid, pid < wd * (n / wd) ->
             (exit_code env pid = 1%Z <-> codes pid = 1%Z)
             /\ (exit_code env pid = 1%Z -> errs pid = stderr_bytes env pid)).
  { intros pid Hpid. destruct (Hsame pid Hpid) as [-> ->]. tauto. }
  destruct (probe_heads_agree env codes errs setting finetuned_task task
              models_per_gpu devices (wd * (n / wd)) Hbatch Hagree (Nat.le_refl _))
    as [Hf Ht].
  split; [now rewrite Hf|]. split; [now rewrite Ht|].
  assert (Hh : heads_to_probe (with_outcomes env codes errs) setting finetuned_task task
               <> []).
  { rewrite heads_to_probe_outcomes. intro E. apply Hpart. fold n.
    assert (n = 0) as -> by (unfold n; now rewrite E).
    apply Nat.Div0.mod_0_l. }
  split.
  - intro Hok.
    pose proof (probe_heads_run (with_outcomes env codes errs) setting finetuned_task
                                task models_per_gpu devices Hbatch Hh) as HR.
    rewrite heads_to_probe_outcomes in HR. fold n in HR.
    destruct (probe_heads (with_outcomes env codes errs) _ _ _ _ _ _) as [[u|e] w'];
      [|discriminate].
    destruct HR as (_ & _ & Hlast). cbn [snd]. split; [|exact Hlast].
    intro E. apply (f_equal (@length nat)) in E. rewrite length_seq in E.
    now apply Hpart.
  - intros Hckpt Hcodes.
    apply probe_heads_returns;
      [exact Hbatch|exact Hckpt|rewrite heads_to_probe_outcomes; exact Hcodes].
Qed.

(** Two devices, two models per GPU, five pending heads: the fifth
    subprocess is alone in the last batch and exits with code 1. *)
Lemma final_partial_batch_unchecked_witness :
  let env := Examples.world CROSS Examples.five ["checkpoint/NLI_cross/model_5.pt"] []
                            Examples.all_succeed Examples.boom in
  let r := probe_heads env CROSS Examples.NLI Examples.POS 2 [0; 1]%Z empty_world in
  let r' := probe_heads (with_outcomes env (Examples.fails 4) Examples.boom)
                        CROSS Examples.NLI Examples.POS 2 [0; 1]%Z empty_world in
  exit_code (with_outcomes env (Examples.fails 4) Examples.boom) 4 = 1%Z
  /\ fst r' = Ok tt
  /\ trace (snd r') = trace (snd r)
  /\ exists t, trace (snd r') = t ++ [EvWait 4].
Proof.
  cbv zeta.
  destruct (final_partial_batch_unchecked
              (Examples.world CROSS Examples.five ["checkpoint/NLI_cross/model_5.pt"]
                              [] Examples.all_succeed Examples.boom)
              (Examples.fails 4) Examples.boom
              CROSS Examples.NLI Examples.POS 2 [0; 1]%Z)
    as (Hf & Ht & Hlast & Hret).
  - vm_compute. discriminate.
  - vm_compute. discriminate.
  - intros pid Hpid. split; [|reflexivity].
    assert (Hlt : pid < 4) by exact Hpid.
    unfold Examples.fails. destruct (Nat.eqb_spec pid 4); [lia|reflexivity].
  - assert (Hok : fst (probe_heads
                         (with_outcomes
                            (Examples.world CROSS Examples.five
                                            ["checkpoint/NLI_cross/model_5.pt"] []
                                            Examples.all_succeed Examples.boom)
                            (Examples.fails 4) Examples.boom)
                         CROSS Examples.NLI Examples.POS 2 [0; 1]%Z empty_world)
                    = Ok tt).
    { apply Hret.
      - intros _. vm_compute. discriminate.
      - intros pid Hpid. assert (Hlt : pid < 4) by exact Hpid.
        unfold Examples.fails. destruct (Nat.eqb_spec pid 4); [lia|discriminate]. }
    split; [reflexivity|]. split; [exact Hok|]. split; [exact Ht|].
    exact (proj2 (Hlast Hok)).
Defined.





(** ** The checkpoint to resume from *)

Lemma append_assoc (s1 s2 s3 : string) : (s1 +++ s2) +++ s3 = s1 +++ s2 +++ s3.
Proof. induction s1 as [|c s1 IH]; cbn; [reflexivity|now rewrite IH]. Qed.

Lemma head_command_missing env setting finetuned_task task hl hi did :
  is_not_BASE setting = true ->
  rglob env (finetuned_checkpoint_dir setting finetuned_task) "model_5*.pt" = [] ->
  head_command env setting finetuned_task task hl hi did = Raise IndexError.
Proof.
  intros Hs Hnone. unfold head_command, head_template, bind, py_index.
  now rewrite Hs, Hnone.
Qed.

(** Without a checkpoint the first job stops the run after its [mkdir]. *)
Lemma probe_heads_missing_checkpoint
      env setting finetuned_task task models_per_gpu devices w :
  is_not_BASE setting = true ->
  rglob env (finetuned_checkpoint_dir setting finetuned_task) "model_5*.pt" = [] ->
  heads_to_probe env setting finetuned_task task <> [] ->
  devices <> [] ->
  exists evs,
    probe_heads env setting finetuned_task task models_per_gpu devices w
    = (Raise IndexError, add_events w evs)
    /\ popens evs = 0.
Proof.
  intros Hs Hnone Hh Hd. rewrite probe_heads_unfold by assumption.
  destruct (heads_to_probe env setting finetuned_task task) as [|[hl hi] rest] eqn:E;
    [congruence|].
  rewrite launch_cons. unfold assigned at 1. cbn [length seq map nth_error].
  rewrite head_command_missing by assumption.
  rewrite add_events_app. eexists. split; [reflexivity|].
  rewrite popens_app, (quiet_popens _ (prelude_quiet _ _ _ _ _)). reflexivity.
Qed.

(** ** [probe_model] *)

(** The command line of [probe_model], or the exception that building it
    raises. *)
Definition model_command env setting finetuned_setting finetuned_task
           downstream_setting downstream_task devices : result string :=
  fst (model_template env setting finetuned_setting finetuned_task
                      downstream_setting downstream_task devices empty_world).

Lemma model_template_pure env setting finetuned_setting finetuned_task
      downstream_setting downstream_task devices w :
  model_template env setting finetuned_setting finetuned_task
                 downstream_setting downstream_task devices w
  = (model_command env setting finetuned_setting finetuned_task
                   downstream_setting downstream_task devices, w).
Proof.
  unfold model_command, model_template, bind, py_index, ret, raise.
  destruct (is_not_BASE setting); [|reflexivity].
  destruct (rglob env _ _); reflexivity.
Qed.

Lemma model_command_outcomes env codes errs setting finetuned_setting finetuned_task
      downstream_setting downstream_task devices :
  model_command (with_outcomes env codes errs) setting finetuned_setting finetuned_task
                downstream_setting downstream_task devices
  = model_command env setting finetuned_setting finetuned_task
                  downstream_setting downstream_task devices.
Proof. reflexivity. Qed.

Lemma set_returncode_last l p rc :
  set_returncode (l ++ [p]) (length l) rc
  = l ++ [{| proc_stderr := proc_stderr p; returncode := Some rc |}].
Proof. induction l as [|x l IH]; cbn; [reflexivity|now rewrite IH]. Qed.

(** The world after the subprocess of [probe_model] has been started and
    waited for. *)
Definition model_done (env : Env) (w : World) (info cmd : string) : World :=
  {| trace := trace w ++ [EvPrint info;
                          EvPopen (length (procs w)) cmd INHERIT INHERIT;
                          EvWait (length (procs w))];
     procs := procs w
              ++ [{| proc_stderr := INHERIT;
                     returncode := Some (exit_code env (length (procs w))) |}] |}.

Lemma probe_model_unfold env setting finetuned_setting finetuned_task
      downstream_setting downstream_task devices w :
  probe_model env (Some setting) finetuned_setting finetuned_task
              downstream_setting downstream_task devices w
  = if is_dir env (model_checkpoint_dir finetuned_setting finetuned_task
                                        downstream_setting downstream_task)
    then (Ok tt,
          add_events w
            [EvPrint (model_checkpoint_dir finetuned_setting finetuned_task
                                           downstream_setting downstream_task
                      +++ " exists, skipping "
                      +++ task_info_str setting finetuned_task
                                        downstream_setting downstream_task)])
    else
      match model_command env setting finetuned_setting finetuned_task
                          downstream_setting downstream_task devices with
      | Ok cmd =>
          (Ok tt,
           model_done env w
                      (task_info_str setting finetuned_task
                                     downstream_setting downstream_task) cmd)
      | Raise e => (Raise e, w)
      end.
Proof.
  unfold probe_model, global_setting. unfold bind at 1, ret at 1.
  destruct (is_dir env _); [reflexivity|].
  unfold bind at 1. rewrite model_template_pure.
  destruct (model_command _ _ _ _ _ _ _) as [cmd|e]; [|reflexivity].
  unfold bind, print, emit, Popen, communicate, ret, model_done. cbn [trace procs].
  rewrite set_returncode_last. cbn [proc_stderr].
  now rewrite <- !app_assoc.
Qed.

Lemma resume_shape (T R c X Y Z : string) :
  (((T +++ R +++ c +++ " ") +++ X) +++ Y) +++ Z
  = T +++ R +++ c +++ " " +++ (X +++ Y +++ Z).
Proof. now rewrite !append_assoc. Qed.

(** C10.  When the setting is not BASE, the checkpoint to resume from is
    element 0 of the listing of [model_5*.pt] under
    checkpoint/<finetuned_task>_<setting>.  In [probe_heads]: if the listing
    has a first element [c], the command line of every job is built and
    holds [--resume --model_ckpt c]; if the listing is empty, then, with
    pending heads and devices, the run raises [IndexError] and has started
    no subprocess.  In [probe_model] the test reads the module-level
    [setting] and the directory is named after [finetuned_setting]: when the
    target directory does not exist, a first element [c] gives a run that
    starts the one subprocess with [--resume --model_ckpt c], and an empty
    listing gives [IndexError] with the world untouched. *)
Theorem finetuned_checkpoint_selection :
  (forall env setting finetuned_task task models_per_gpu devices,
      is_not_BASE setting = true ->
      (forall c rest hl hi did w,
          rglob env (finetuned_checkpoint_dir setting finetuned_task) "model_5*.pt"
          = c :: rest ->
          exists pre post,
            head_template env setting finetuned_task task hl hi did w
            = (Ok (pre +++ "--resume --model_ckpt " +++ c +++ " " +++ post), w))
      /\ (rglob env (finetuned_checkpoint_dir setting finetuned_task) "model_5*.pt" = [] ->
          heads_to_probe env setting finetuned_task task <> [] ->
          devices <> [] ->
          forall w, exists evs,
            probe_heads env setting finetuned_task task models_per_gpu devices w
            = (Raise IndexError, add_events w evs)
            /\ popens evs = 0))
  /\ (forall env setting finetuned_setting finetuned_task downstream_setting
             downstream_task devices,
         is_not_BASE setting = true ->
         is_dir env (model_checkpoint_dir finetuned_setting finetuned_task
                                          downstream_setting downstream_task) = false ->
         (forall c rest w,
             rglob env (model_finetuned_checkpoint_dir finetuned_setting finetuned_task)
                   "model_5*.pt" = c :: rest ->
             exists pre post,
               probe_model env (Some setting) finetuned_setting finetuned_task
                           downstream_setting downstream_task devices w
               = (Ok tt,
                  model_done env w
                    (task_info_str setting finetuned_task downstream_setting
                                   downstream_task)
                    (pre +++ "--resume --model_ckpt " +++ c +++ " " +++ post)))
         /\ (rglob env (model_finetuned_checkpoint_dir finetuned_setting finetuned_task)
                   "model_5*.pt" = [] ->
             forall w,
               probe_model env (Some setting) finetuned_setting finetuned_task
                           downstream_setting downstream_task devices w
               = (Raise IndexError, w))).
Proof.
  split.
  - intros env setting finetuned_task task models_per_gpu devices Hs. split.
    + intros c rest hl hi did w Hc.
      unfold head_template, bind, py_index, ret. rewrite Hs, Hc. cbn [nth_error].
      eexists. eexists. cbv zeta. do 2 f_equal. apply resume_shape.
    + intros Hnone Hh Hd w. now apply probe_heads_missing_checkpoint.
  - intros env setting finetuned_setting finetuned_task downstream_setting
           downstream_task devices Hs Hdir. split.
    + intros c rest w Hc. rewrite probe_model_unfold, Hdir.
      unfold model_command, model_template, bind, py_index, ret.
      rewrite Hs, Hc. cbn [nth_error fst].
      eexists. eexists. cbv zeta. do 2 f_equal. apply resume_shape.
    + intros Hnone w. rewrite probe_model_unfold, Hdir.
      unfold model_command, model_template, bind, py_index, ret, raise.
      now rewrite Hs, Hnone.
Qed.

(** Head probing and model probing of the cross-lingual NLI model, with two
    checkpoints listed and with none. *)
Lemma finetuned_checkpoint_selection_witness :
  let ckpts := ["checkpoint/NLI_cross/model_5_100.pt"; "checkpoint/NLI_cross/model_5.pt"] in
  let found := Examples.world CROSS Examples.five ckpts [] Examples.all_succeed
                              Examples.silent in
  let missing := Examples.world CROSS Examples.five [] [] Examples.all_succeed
                                Examples.silent in
  (exists pre post,
      head_template found CROSS Examples.NLI Examples.POS 0 0 0%Z empty_world
      = (Ok (pre +++ "--resume --model_ckpt checkpoint/NLI_cross/model_5_100.pt "
                 +++ post), empty_world))
  /\ fst (probe_heads missing CROSS Examples.NLI Examples.POS 2 [0; 1]%Z empty_world)
     = Raise IndexError
  /\ probe_model missing (Some CROSS) CROSS Examples.NLI MULTI Examples.POS [0; 1]%Z
                 empty_world
     = (Raise IndexError, empty_world).
Proof.
  cbv zeta.
  pose proof finetuned_checkpoint_selection as [Hheads Hmodel].
  split; [|split].
  - destruct (Hheads (Examples.world CROSS Examples.five
                        ["checkpoint/NLI_cross/model_5_100.pt";
                         "checkpoint/NLI_cross/model_5.pt"] []
                        Examples.all_succeed Examples.silent)
                     CROSS Examples.NLI Examples.POS 2%Z [0; 1]%Z eq_refl) as [Hc _].
    exact (Hc _ _ 0 0 0%Z empty_world eq_refl).
  - destruct (Hheads (Examples.world CROSS Examples.five [] []
                        Examples.all_succeed Examples.silent)
                     CROSS Examples.NLI Examples.POS 2%Z [0; 1]%Z eq_refl) as [_ Hn].
    destruct (Hn eq_refl ltac:(vm_compute; discriminate) ltac:(discriminate) empty_world)
      as [evs [-> _]].
    reflexivity.
  - destruct (Hmodel (Examples.world CROSS Examples.five [] []
                        Examples.all_succeed Examples.silent)
                     CROSS CROSS Examples.NLI MULTI Examples.POS [0; 1]%Z
                     eq_refl eq_refl) as [_ Hn].
    exact (Hn eq_refl empty_world).
Defined.

(** C6.  In [probe_model] the module-level [setting] decides, not the
    parameter [finetuned_setting].  With the target directory absent and no
    [model_5*.pt] file listed: when the global is BASE the run returns
    normally, whatever [finetuned_setting] is (no checkpoint is looked up),
    and when the global is not BASE the run raises [IndexError], whatever
    [finetuned_setting] is, BASE included.  A run that returns prints the
    info line made with the name of the global.  And there are two calls with
    the same arguments and another global that start different command
    lines. *)
Theorem probe_model_reads_global_setting :
  (forall env finetuned_setting finetuned_task downstream_setting downstream_task
          devices w,
      is_dir env (model_checkpoint_dir finetuned_setting finetuned_task
                                       downstream_setting downstream_task) = false ->
      rglob env (model_finetuned_checkpoint_dir finetuned_setting finetuned_task)
            "model_5*.pt" = [] ->
      fst (probe_model env (Some BASE) finetuned_setting finetuned_task
                       downstream_setting downstream_task devices w) = Ok tt
      /\ forall setting,
          setting <> BASE ->
          probe_model env (Some setting) finetuned_setting finetuned_task
                      downstream_setting downstream_task devices w
          = (Raise IndexError, w))
  /\ (forall env setting finetuned_setting finetuned_task downstream_setting
             downstream_task devices,
         is_dir env (model_checkpoint_dir finetuned_setting finetuned_task
                                          downstream_setting downstream_task) = false ->
         let r := probe_model env (Some setting) finetuned_setting finetuned_task
                              downstream_setting downstream_task devices empty_world in
         fst r = Ok tt ->
         printed (trace (snd r))
         = [name finetuned_task +++ "_" +++ Py.lower (setting_name setting) +++ " -> "
              +++ name downstream_task +++ ", "
              +++ Py.lower (setting_name downstream_setting)])
  /\ (exists env finetuned_setting finetuned_task downstream_setting downstream_task
             devices setting1 setting2 cmd1 cmd2,
         commands (trace (snd (probe_model env (Some setting1) finetuned_setting
                                           finetuned_task downstream_setting
                                           downstream_task devices empty_world)))
         = [cmd1]
         /\ commands (trace (snd (probe_model env (Some setting2) finetuned_setting
                                              finetuned_task downstream_setting
                                              downstream_task devices empty_world)))
            = [cmd2]
         /\ cmd1 <> cmd2).
Proof.
  split; [|split].
  - intros env finetuned_setting finetuned_task downstream_setting downstream_task
           devices w Hdir Hnone. split.
    + rewrite probe_model_unfold, Hdir. reflexivity.
    + intros setting Hs. rewrite probe_model_unfold, Hdir.
      unfold model_command, model_template, bind, py_index, ret, raise.
      rewrite Hnone. destruct setting; [reflexivity|reflexivity|congruence].
  - intros env setting finetuned_setting finetuned_task downstream_setting
           downstream_task devices Hdir. cbv zeta.
    rewrite probe_model_unfold, Hdir.
    destruct (model_command _ _ _ _ _ _ _) as [cmd|e]; [|discriminate].
    intros _. reflexivity.
  - exists (Examples.world CROSS [] ["checkpoint/NLI_cross/model_5.pt"] []
                           Examples.all_succeed Examples.silent).
    exists CROSS, Examples.NLI, MULTI, Examples.POS, [0; 1]%Z, BASE, CROSS.
    eexists. eexists.
    split; [vm_compute; reflexivity|]. split; [vm_compute; reflexivity|].
    discriminate.
Qed.

(** Model probing with the parameter [finetuned_setting = BASE] and no
    checkpoint listed: the global BASE gives a run, the global CROSS an
    [IndexError]. *)
Lemma probe_model_reads_global_setting_witness :
  let env := Examples.world CROSS [] [] [] Examples.all_succeed Examples.silent in
  fst (probe_model env (Some BASE) BASE Examples.NLI MULTI Examples.POS [0; 1]%Z
                   empty_world)
  = Ok tt
  /\ probe_model env (Some CROSS) BASE Examples.NLI MULTI Examples.POS [0; 1]%Z
                 empty_world
     = (Raise IndexError, empty_world)
  /\ printed (trace (snd (probe_model env (Some BASE) BASE Examples.NLI MULTI
                                      Examples.POS [0; 1]%Z empty_world)))
     = ["NLI_base -> POS, multi"].
Proof.
  cbv zeta.
  pose proof probe_model_reads_global_setting as (Hdecide & Hinfo & _).
  destruct (Hdecide (Examples.world CROSS [] [] [] Examples.all_succeed Examples.silent)
                    BASE Examples.NLI MULTI Examples.POS [0; 1]%Z empty_world
                    eq_refl eq_refl) as [Hbase Hother].
  split; [exact Hbase|]. split; [apply Hother; discriminate|].
  exact (Hinfo (Examples.world CROSS [] [] [] Examples.all_succeed Examples.silent)
               BASE BASE Examples.NLI MULTI Examples.POS [0; 1]%Z eq_refl Hbase).
Defined.

(** C7 as the specification states it: in every call that finds the target
    directory in place, whatever the module-level name [setting] is bound to
    and bound or not, the call returns, has printed one line and has started
    no subprocess. *)
Definition skips_as_specified env (setting : option LingualSetting) finetuned_setting
           finetuned_task downstream_setting downstream_task devices : Prop :=
  is_dir env (model_checkpoint_dir finetuned_setting finetuned_task
                                   downstream_setting downstream_task) = true ->
  let r := probe_model env setting finetuned_setting finetuned_task
                       downstream_setting downstream_task devices empty_world in
  fst r = Ok tt
  /\ length (printed (trace (snd r))) = 1
  /\ launched (trace (snd r)) = [].

(** C7, counterexample.  The target directory exists and the module-level
    name [setting] is not bound (a call from a module that imports the
    script): line 104 raises [NameError] before the directory is looked at,
    and no skip message is printed. *)
Lemma skips_as_specified_fails :
  ~ skips_as_specified
      (Examples.world CROSS []
         ["checkpoint/NLI_cross/model_5.pt"]
         ["checkpoint/full_model_probe/multi_head_training/NLI/cross/POS"]
         Examples.all_succeed Examples.silent)
      None CROSS Examples.NLI MULTI Examples.POS [0; 1]%Z.
Proof.
  intro H. destruct (H eq_refl) as [Hok _]. vm_compute in Hok. discriminate.
Qed.

(** C7, amended.  When the module-level name [setting] is bound and the
    target checkpoint directory is a directory, [probe_model] prints the line
    "<directory> exists, skipping <info>" and returns: the trace gains this
    one line, no subprocess is started and the processes are left as they
    were.  When the name is not bound the call raises [NameError] and leaves
    the world as it was, directory or not. *)
Theorem probe_model_skips_existing
        env setting finetuned_setting finetuned_task downstream_setting downstream_task
        devices w :
  is_dir env (model_checkpoint_dir finetuned_setting finetuned_task
                                   downstream_setting downstream_task) = true ->
  let r := probe_model env (Some setting) finetuned_setting finetuned_task
                       downstream_setting downstream_task devices w in
  fst r = Ok tt
  /\ trace (snd r)
     = trace w
       ++ [EvPrint (model_checkpoint_dir finetuned_setting finetuned_task
                                         downstream_setting downstream_task
                    +++ " exists, skipping "
                    +++ task_info_str setting finetuned_task downstream_setting
                                      downstream_task)]
  /\ launched (trace (snd r)) = launched (trace w)
  /\ procs (snd r) = procs w
  /\ probe_model env None finetuned_setting finetuned_task
                 downstream_setting downstream_task devices w
     = (Raise NameError, w).
Proof.
  intro Hdir. cbv zeta. rewrite probe_model_unfold, Hdir.
  unfold add_events. cbn [fst snd trace procs].
  repeat split. unfold launched. rewrite flat_map_app. cbn. now rewrite app_nil_r.
Qed.

(** The directory of the multi-lingual probe of the cross-lingual NLI model
    on POS exists. *)
Lemma probe_model_skips_existing_witness :
  let env := Examples.world CROSS []
                            ["checkpoint/NLI_cross/model_5.pt"]
                            ["checkpoint/full_model_probe/multi_head_training/NLI/cross/POS"]
                            Examples.all_succeed Examples.silent in
  probe_model env (Some CROSS) CROSS Examples.NLI MULTI Examples.POS [0; 1]%Z
              empty_world
  = (Ok tt,
     {| trace :=
          [EvPrint ("checkpoint/full_model_probe/multi_head_training/NLI/cross/POS"
                    +++ " exists, skipping NLI_cross -> POS, multi")];
        procs := [] |})
  /\ probe_model env None CROSS Examples.NLI MULTI Examples.POS [0; 1]%Z empty_world
     = (Raise NameError, empty_world).
Proof.
  cbv zeta.
  destruct (probe_model_skips_existing
              (Examples.world CROSS []
                 ["checkpoint/NLI_cross/model_5.pt"]
                 ["checkpoint/full_model_probe/multi_head_training/NLI/cross/POS"]
                 Examples.all_succeed Examples.silent)
              CROSS CROSS Examples.NLI MULTI Examples.POS [0; 1]%Z empty_world
              eq_refl) as (Hr & Ht & _ & Hp & Hnone).
  split; [|exact Hnone].
  destruct (probe_model _ (Some CROSS) _ _ _ _ _ _) as [[[]|e] [t p]];
    cbn [fst snd trace procs] in *; [|discriminate].
  now rewrite Ht, Hp.
Defined.

(** C8 as the specification states it: whenever the target directory does
    not exist the call returns normally and has started one subprocess. *)
Definition launches_one_as_specified env (setting : option LingualSetting)
           finetuned_setting finetuned_task downstream_setting downstream_task devices
  : Prop :=
  is_dir env (model_checkpoint_dir finetuned_setting finetuned_task
                                   downstream_setting downstream_task) = false ->
  let r := probe_model env setting finetuned_setting finetuned_task
                       downstream_setting downstream_task devices empty_world in
  fst r = Ok tt /\ length (launched (trace (snd r))) = 1.

(** C8, counterexample.  The target directory is absent, the setting is
    CROSS and no [model_5*.pt] file is listed: line 136 raises [IndexError]
    and no subprocess is started. *)
Lemma launches_one_as_specified_fails :
  ~ launches_one_as_specified
      (Examples.world CROSS [] [] [] Examples.all_succeed Examples.silent)
      (Some CROSS) CROSS Examples.NLI MULTI Examples.POS [0; 1]%Z.
Proof.
  intro H. destruct (H eq_refl) as [Hok _]. vm_compute in Hok. discriminate.
Qed.

(** C8, amended.  When the module-level name [setting] is bound, the target
    checkpoint directory does not exist and the checkpoint lookup of line 136
    does not fail (the module-level [setting] is BASE, or at least one
    [model_5*.pt] file is listed), then [probe_model] prints the info line,
    starts exactly one subprocess (with inherited stdout and stderr), waits
    for it and returns normally.  The command line is the same for every
    outcome of the subprocess, and the result is [Ok] whatever the exit code:
    the code is only stored in the process.  When the name is not bound the
    call raises [NameError] and starts nothing, whatever the outcomes. *)
Theorem probe_model_launches_one
        env setting finetuned_setting finetuned_task downstream_setting downstream_task
        devices :
  is_dir env (model_checkpoint_dir finetuned_setting finetuned_task
                                   downstream_setting downstream_task) = false ->
  (is_not_BASE setting = true ->
   rglob env (model_finetuned_checkpoint_dir finetuned_setting finetuned_task)
         "model_5*.pt" <> []) ->
  (exists cmd,
      forall codes errs w,
        probe_model (with_outcomes env codes errs) (Some setting) finetuned_setting
                    finetuned_task downstream_setting downstream_task devices w
        = (Ok tt,
           {| trace :=
                trace w
                ++ [EvPrint (task_info_str setting finetuned_task downstream_setting
                                           downstream_task);
                    EvPopen (length (procs w)) cmd INHERIT INHERIT;
                    EvWait (length (procs w))];
              procs :=
                procs w ++ [{| proc_stderr := INHERIT;
                               returncode := Some (codes (length (procs w))) |}] |}))
  /\ (forall codes errs w,
        probe_model (with_outcomes env codes errs) None finetuned_setting
                    finetuned_task downstream_setting downstream_task devices w
        = (Raise NameError, w)).
Proof.
  intros Hdir Hckpt. split; [|reflexivity].
  destruct (model_command env setting finetuned_setting finetuned_task
                          downstream_setting downstream_task devices) as [cmd|e] eqn:Hcmd.
  - exists cmd. intros codes errs w.
    rewrite probe_model_unfold. cbn [is_dir with_outcomes]. rewrite Hdir.
    rewrite model_command_outcomes, Hcmd. reflexivity.
  - exfalso. revert Hcmd.
    unfold model_command, model_template, bind, py_index, ret, raise.
    destruct (is_not_BASE setting); [|discriminate].
    destruct (rglob env _ _) eqn:Hr; [|discriminate].
    now specialize (Hckpt eq_refl).
Qed.

(** Model probing of the cross-lingual NLI model; the subprocess is killed
    by signal 9. *)
Lemma probe_model_launches_one_witness :
  let env := Examples.world CROSS [] ["checkpoint/NLI_cross/model_5.pt"] []
                            Examples.all_succeed Examples.silent in
  (exists cmd,
      probe_model (with_outcomes env (fun _ => (-9)%Z) Examples.boom)
                  (Some CROSS) CROSS Examples.NLI MULTI Examples.POS [0; 1]%Z
                  empty_world
      = (Ok tt,
         {| trace := [EvPrint "NLI_cross -> POS, multi";
                      EvPopen 0 cmd INHERIT INHERIT;
                      EvWait 0];
            procs := [{| proc_stderr := INHERIT; returncode := Some (-9)%Z |}] |}))
  /\ probe_model (with_outcomes env (fun _ => (-9)%Z) Examples.boom)
                 None CROSS Examples.NLI MULTI Examples.POS [0; 1]%Z empty_world
     = (Raise NameError, empty_world).
Proof.
  cbv zeta.
  destruct (probe_model_launches_one
              (Examples.world CROSS [] ["checkpoint/NLI_cross/model_5.pt"] []
                              Examples.all_succeed Examples.silent)
              CROSS CROSS Examples.NLI MULTI Examples.POS [0; 1]%Z
              eq_refl ltac:(intros _; discriminate)) as [[cmd Hcmd] Hnone].
  split.
  - exists cmd. exact (Hcmd (fun _ => (-9)%Z) Examples.boom empty_world).
  - exact (Hnone (fun _ => (-9)%Z) Examples.boom empty_world).
Defined.

(** * Further properties of the dispatcher *)

From Stdlib Require Import Sorted.

(** ** The device list and the pending list *)

(** X1.  With an empty device list [probe_heads] either has nothing to do
    and returns, or stops at line 50 with [ZeroDivisionError] (the modulus
    is [len(devices) = 0]) before it has printed or started anything. *)
Theorem probe_heads_empty_device_list env setting finetuned_task task models_per_gpu w :
  probe_heads env setting finetuned_task task models_per_gpu [] w
  = if length (heads_to_probe env setting finetuned_task task) =? 0
    then (Ok tt, w)
    else (Raise ZeroDivisionError, w).
Proof.
  destruct (Nat.eqb_spec (length (heads_to_probe env setting finetuned_task task)) 0)
    as [E0|Hne].
  - apply probe_heads_nothing. now apply length_zero_iff_nil.
  - apply probe_heads_no_devices; [|reflexivity].
    intro E. rewrite E in Hne. now apply Hne.
Qed.

(** The order of the grid: by layer, then by head. *)
Definition grid_before (a b : nat * nat) : Prop :=
  fst a < fst b \/ (fst a = fst b /\ snd a < snd b).

Definition grid_beforeb (a b : nat * nat) : bool :=
  (fst a <? fst b) || ((fst a =? fst b) && (snd a <? snd b)).

Fixpoint strongly_sortedb (l : list (nat * nat)) : bool :=
  match l with
  | [] => true
  | a :: r => forallb (grid_beforeb a) r && strongly_sortedb r
  end.

Lemma grid_beforeb_sound a b : grid_beforeb a b = true -> grid_before a b.
Proof.
  unfold grid_beforeb, grid_before.
  rewrite orb_true_iff, andb_true_iff, !Nat.ltb_lt, Nat.eqb_eq. tauto.
Qed.

Lemma strongly_sortedb_sound l :
  strongly_sortedb l = true -> StronglySorted grid_before l.
Proof.
  induction l as [|a r IH]; intro H; [constructor|].
  cbn in H. apply andb_true_iff in H as [Ha Hr]. constructor; [now apply IH|].
  rewrite Forall_forall. intros b Hb. apply grid_beforeb_sound.
  rewrite forallb_forall in Ha. now apply Ha.
Qed.

Lemma grid_sorted : StronglySorted grid_before grid.
Proof. apply strongly_sortedb_sound. vm_compute. reflexivity. Qed.

Lemma strongly_sorted_filter (f : nat * nat -> bool) l :
  StronglySorted grid_before l -> StronglySorted grid_before (filter f l).
Proof.
  induction 1 as [|a r Hr IH Ha]; [constructor|]. cbn.
  destruct (f a); [|exact IH]. constructor; [exact IH|].
  rewrite Forall_forall in *. intros b Hb. apply filter_In in Hb as [Hb _].
  now apply Ha.
Qed.

Lemma strongly_sorted_nodup l : StronglySorted grid_before l -> NoDup l.
Proof.
  induction 1 as [|a r Hr IH Ha]; constructor; [|exact IH].
  intro Hin. rewrite Forall_forall in Ha. specialize (Ha a Hin).
  unfold grid_before in Ha. lia.
Qed.

(** X2.  The pending list keeps the order of the grid (by layer, then by
    head), holds no head twice and has at most 144 entries. *)
Theorem heads_to_probe_in_grid_order env setting finetuned_task task :
  StronglySorted grid_before (heads_to_probe env setting finetuned_task task)
  /\ NoDup (heads_to_probe env setting finetuned_task task)
  /\ length (heads_to_probe env setting finetuned_task task) <= 144.
Proof.
  assert (Hs : StronglySorted grid_before
                 (heads_to_probe env setting finetuned_task task)).
  { unfold heads_to_probe. apply strongly_sorted_filter, grid_sorted. }
  split; [exact Hs|]. split; [now apply strongly_sorted_nodup|].
  unfold heads_to_probe.
  pose proof (filter_length_le (unprobed env setting finetuned_task task) grid) as Hle.
  assert (Hg : length grid = 144) by (vm_compute; reflexivity).
  lia.
Qed.

(** ** The directories of the heads *)

Lemma append_cancel_l (p x y : string) : p +++ x = p +++ y -> x = y.
Proof.
  induction p as [|c p IH]; cbn; [auto|]. intros [= H]. now apply IH.
Qed.

(** The last two segments of a head's directory. *)
Definition head_segments (h : nat * nat) : string :=
  "/" +++ Py.str_nat (fst h) +++ "/" +++ Py.str_nat (snd h).

Lemma dir_for_head_segments setting finetuned_task task hl hi :
  dir_for_head setting finetuned_task task hl hi
  = (checkpoint_dir finetuned_task task +++ "/" +++ Py.lower (setting_name setting))
      +++ head_segments (hl, hi).
Proof.
  unfold dir_for_head, joinpath, head_segments. cbn [fold_left fst snd].
  now rewrite !append_assoc.
Qed.

Definition head_eqb (a b : nat * nat) : bool :=
  (fst a =? fst b) && (snd a =? snd b).

Lemma head_segments_distinct :
  forallb (fun a =>
             forallb (fun b =>
                        implb (String.eqb (head_segments a) (head_segments b))
                              (head_eqb a b))
                     grid)
          grid = true.
Proof. vm_compute. reflexivity. Qed.

(** X3.  Two heads of the grid never share a directory: the output of a
    head, and the completion marker looked for under it, belong to that
    head alone. *)
Theorem dir_for_head_injective setting finetuned_task task hl hi hl' hi' :
  hl < 12 -> hi < 12 -> hl' < 12 -> hi' < 12 ->
  dir_for_head setting finetuned_task task hl hi
  = dir_for_head setting finetuned_task task hl' hi' ->
  hl = hl' /\ hi = hi'.
Proof.
  intros Hl Hi Hl' Hi' E. rewrite !dir_for_head_segments in E.
  apply append_cancel_l in E.
  pose proof head_segments_distinct as H. rewrite forallb_forall in H.
  specialize (H (hl, hi) (proj2 (in_grid hl hi) (conj Hl Hi))).
  rewrite forallb_forall in H.
  specialize (H (hl', hi') (proj2 (in_grid hl' hi') (conj Hl' Hi'))).
  rewrite E, String.eqb_refl in H. cbn [implb] in H.
  unfold head_eqb in H. cbn [fst snd] in H.
  apply andb_true_iff in H as [H1 H2].
  now rewrite Nat.eqb_eq in H1, H2.
Qed.

Lemma dir_for_head_injective_witness :
  dir_for_head CROSS Examples.NLI Examples.POS 1 1
  = dir_for_head CROSS Examples.NLI Examples.POS 1 1
  /\ 1 = 1 /\ 1 = 1.
Proof.
  split; [reflexivity|].
  apply (dir_for_head_injective CROSS Examples.NLI Examples.POS 1 1 1 1);
    try lia; reflexivity.
Defined.

(** ** The report of a failed process *)

Lemma append_nil_r (s : string) : s +++ "" = s.
Proof. induction s as [|c s IH]; cbn; [reflexivity|now rewrite IH]. Qed.

Lemma split_lines_from_cons cur s :
  exists x xs, Py.split_lines_from cur s = x :: xs.
Proof.
  revert cur. induction s as [|c r IH]; intro cur; cbn.
  - eauto.
  - destruct (Ascii.eqb c _); [eauto|apply IH].
Qed.

Lemma join_split_lines_from s :
  forall cur, Py.join Py.nl (Py.split_lines_from cur s) = cur +++ s.
Proof.
  induction s as [|c r IH]; intro cur.
  - cbn. now rewrite append_nil_r.
  - cbn [Py.split_lines_from].
    destruct (Ascii.eqb_spec c (ascii_of_nat 10)) as [->|Hc].
    + destruct (split_lines_from_cons "" r) as [x [xs E]].
      specialize (IH ""). unfold Py.join in *. rewrite E in IH |- *.
      change (String.concat Py.nl (cur :: x :: xs))
        with (cur +++ Py.nl +++ String.concat Py.nl (x :: xs)).
      rewrite IH. reflexivity.
    + rewrite IH, append_assoc. reflexivity.
Qed.

(** X4.  In the loop of lines 83-93, a process whose [returncode] is 1 and
    whose stderr was captured stops the run.  When the stderr decodes as
    UTF-8, the prefix line is printed, then each line of the text behind a
    tab, then [ValueError] is raised; nothing of the text is lost: its lines,
    joined by newlines, are the text.  When it does not decode, line 87
    raises [UnicodeDecodeError] before anything is printed.  In both cases
    the results that come after it in the batch are not reported. *)
Theorem failed_process_report setting pre p suf out rs w pr :
  nth_error (procs w) (job_process p) = Some pr ->
  returncode pr = Some 1%Z ->
  (forall text,
      check_results setting (pre ++ p :: suf) (length pre)
                    ((out, Some (Utf8 text)) :: rs) w
      = (Raise ValueError,
         add_events w (EvPrint (prefix_str setting p)
                         :: map (fun e => EvPrint (Py.tab +++ e)) (Py.split_lines text)))
      /\ Py.join Py.nl (Py.split_lines text) = text)
  /\ check_results setting (pre ++ p :: suf) (length pre) ((out, Some NotUtf8) :: rs) w
     = (Raise UnicodeDecodeError, w).
Proof.
  intros Hpr Hrc.
  assert (Hhead : forall err,
             check_results setting (pre ++ p :: suf) (length pre) ((out, Some err) :: rs) w
             = (text <- decode err ;;
                print (prefix_str setting p) ;;;
                print_errors (Py.split_lines text) ;;;
                raise ValueError) w).
  { intro err. cbn [check_results]. unfold bind at 1, py_index.
    rewrite nth_error_app2, Nat.sub_diag by lia. cbn [nth_error ret].
    unfold bind at 1, get_returncode. rewrite Hpr, Hrc. reflexivity. }
  split.
  - intro text. split.
    + rewrite Hhead. unfold bind, decode, ret, print, emit, raise.
      rewrite print_errors_spec.
      unfold add_events. cbn [trace procs]. now rewrite <- app_assoc.
    + unfold Py.split_lines. now rewrite join_split_lines_from.
  - rewrite Hhead. reflexivity.
Qed.

(** The second process of a batch of three failed, with a traceback of two
    lines, and with bytes that are not UTF-8. *)
Lemma failed_process_report_witness :
  let w := {| trace := [];
              procs := [{| proc_stderr := PIPE; returncode := Some 0%Z |};
                        {| proc_stderr := PIPE; returncode := Some 1%Z |};
                        {| proc_stderr := PIPE; returncode := Some 1%Z |}] |} in
  check_results CROSS ([(0, 0, 0%Z, 0)] ++ (0, 1, 1%Z, 1) :: [(0, 2, 0%Z, 2)]) 1
                [(None, Some (Utf8 ("Traceback" +++ Py.nl +++ "boom")));
                 (None, Some (Utf8 "late"))] w
  = (Raise ValueError,
     add_events w [EvPrint "[CROSS] [GPU 1] (0, 1):";
                   EvPrint (Py.tab +++ "Traceback");
                   EvPrint (Py.tab +++ "boom")])
  /\ check_results CROSS ([(0, 0, 0%Z, 0)] ++ (0, 1, 1%Z, 1) :: [(0, 2, 0%Z, 2)]) 1
                   [(None, Some NotUtf8); (None, Some (Utf8 "late"))] w
     = (Raise UnicodeDecodeError, w).
Proof.
  cbv zeta.
  destruct (failed_process_report
              CROSS [(0, 0, 0%Z, 0)] (0, 1, 1%Z, 1) [(0, 2, 0%Z, 2)]
              None [(None, Some (Utf8 "late"))]
              {| trace := [];
                 procs := [{| proc_stderr := PIPE; returncode := Some 0%Z |};
                           {| proc_stderr := PIPE; returncode := Some 1%Z |};
                           {| proc_stderr := PIPE; returncode := Some 1%Z |}] |}
              {| proc_stderr := PIPE; returncode := Some 1%Z |}
              eq_refl eq_refl) as [Htext Hnot].
  split; [|exact Hnot].
  exact (proj1 (Htext ("Traceback" +++ Py.nl +++ "boom"))).
Defined.

(** ** The subprocesses that a run starts *)

(** X5.  From any world, [probe_heads] starts its subprocesses for a prefix
    of the pending list, one subprocess for each head of the prefix and in
    the order of the list: the new process handles are consecutive, and the
    command line of the job with index [j] is the one built for the [j]-th
    pending head and the device [devices[j % len(devices)]].  A run that
    returns normally has started a subprocess for every pending head. *)
Theorem probe_heads_starts_pending_heads
        env setting finetuned_task task models_per_gpu devices w :
  let r := probe_heads env setting finetuned_task task models_per_gpu devices w in
  let hs := heads_to_probe env setting finetuned_task task in
  exists k cmds,
    k <= length hs
    /\ launched (trace (snd r)) = launched (trace w) ++ seq (length (procs w)) k
    /\ commands (trace (snd r)) = commands (trace w) ++ cmds
    /\ map Ok cmds
       = map (fun jh : nat * (nat * nat) =>
                head_command env setting finetuned_task task
                             (fst (snd jh)) (snd (snd jh))
                             (nth (fst jh mod length devices) devices 0%Z))
             (combine (seq 0 k) (firstn k hs))
    /\ (fst r = Ok tt -> k = length hs).
Proof.
  exact (probe_heads_starts env setting finetuned_task task models_per_gpu devices w).
Qed.

(** ** A failure in a full batch *)

(** X6.  Let the batch size be at least 1, the checkpoint to resume from be
    in place, and let [f] be the first subprocess that exits with code 1,
    [f] being in a full batch.  Its job is the [f]-th pending head on the
    device [devices[f % len(devices)]].  Then the run stops at the check of
    the batch of [f]: the subprocesses started are exactly those of the
    batches up to the batch of [f] (none of a later batch), every one of them
    has been waited for, and every job before [f] has its line
    "... completed".  When the stderr of [f] decodes as UTF-8 the run raises
    [ValueError] and the last lines printed are the prefix line of the job of
    [f] and the lines of its stderr, each behind a tab; when it does not
    decode the run raises [UnicodeDecodeError]. *)
Theorem full_batch_failure_aborts
        env setting finetuned_task task models_per_gpu devices f :
  (1 <= batch_size models_per_gpu devices)%Z ->
  (is_not_BASE setting = true ->
   rglob env (finetuned_checkpoint_dir setting finetuned_task) "model_5*.pt" <> []) ->
  exit_code env f = 1%Z ->
  (forall pid, pid < f -> exit_code env pid <> 1%Z) ->
  f < width models_per_gpu devices
      * (length (heads_to_probe env setting finetuned_task task)
         / width models_per_gpu devices) ->
  let r := probe_heads env setting finetuned_task task models_per_gpu devices
                       empty_world in
  let h := nth f (heads_to_probe env setting finetuned_task task) (0, 0) in
  let p : Job := (fst h, snd h, nth (f mod length devices) devices 0%Z, f) in
  launched (trace (snd r))
  = seq 0 (width models_per_gpu devices * S (f / width models_per_gpu devices))
  /\ live (trace (snd r)) = []
  /\ (forall q, q < f ->
        In (prefix_str setting (job_of env setting finetuned_task task devices q)
              +++ " completed")
           (printed (trace (snd r))))
  /\ (forall text,
        stderr_bytes env f = Utf8 text ->
        fst r = Raise ValueError
        /\ exists l,
            printed (trace (snd r))
            = l ++ prefix_str setting p
                 :: map (fun e => Py.tab +++ e) (Py.split_lines text))
  /\ (stderr_bytes env f = NotUtf8 -> fst r = Raise UnicodeDecodeError).
Proof.
  intros Hbatch Hckpt Hfails Hfirst HK. cbv zeta.
  pose proof (probe_heads_jobs env setting finetuned_task task models_per_gpu devices
                               Hbatch Hckpt) as HJ.
  cbv zeta in HJ.
  destruct (probe_heads _ _ _ _ _ _ _) as [[u|e] w']; cbn [fst snd].
  { now destruct (proj1 (HJ f HK)). }
  destruct HJ as (f' & Hf' & Hf1 & Hbefore & He & Hl & Hlive & t & Ht).
  assert (f' = f) as ->.
  { destruct (Nat.lt_trichotomy f' f) as [Hlt|[Heq|Hgt]]; [|exact Heq|].
    - now destruct (Hfirst f' Hlt).
    - now destruct (proj1 (Hbefore f Hgt)). }
  split; [exact Hl|]. split; [exact Hlive|].
  split.
  { intros q Hq. apply in_printed. now apply Hbefore. }
  split.
  - intros text Htext. rewrite Htext in He, Ht. cbn [failure report] in He, Ht.
    split; [now rewrite He|].
    exists (printed t). rewrite Ht, printed_app.
    change (printed (EvPrint ?x :: ?l)) with (x :: printed l).
    now rewrite (printed_prints _ (fun e => Py.tab +++ e)).
  - intro Hnot. rewrite Hnot in He. now rewrite He.
Qed.

(** Two devices, one model per GPU, five pending heads: the fourth
    subprocess, the last of the second batch, fails.  It probes the head
    (0, 3) on the second device. *)
Lemma full_batch_failure_aborts_witness :
  let env := Examples.world BASE Examples.five [] [] (Examples.fails 3) Examples.boom in
  let r := probe_heads env BASE Examples.NLI Examples.POS 1 [0; 1]%Z empty_world in
  fst r = Raise ValueError
  /\ launched (trace (snd r)) = [0; 1; 2; 3]
  /\ live (trace (snd r)) = []
  /\ In "[BASE] [GPU 0] (0, 2): completed" (printed (trace (snd r)))
  /\ exists l,
      printed (trace (snd r))
      = l ++ ["[BASE] [GPU 1] (0, 3):"; Py.tab +++ "Traceback"; Py.tab +++ "boom"].
Proof.
  cbv zeta.
  destruct (full_batch_failure_aborts
              (Examples.world BASE Examples.five [] [] (Examples.fails 3) Examples.boom)
              BASE Examples.NLI Examples.POS 1 [0; 1]%Z 3)
    as (Hl & Hlive & Hdone & Htext & _).
  - vm_compute. discriminate.
  - intro H. discriminate H.
  - reflexivity.
  - intros pid Hpid. unfold Examples.world, Examples.fails. cbn [exit_code].
    destruct (Nat.eqb_spec pid 3); [lia|discriminate].
  - apply Nat.ltb_lt. vm_compute. reflexivity.
  - destruct (Htext ("Traceback" +++ Py.nl +++ "boom") eq_refl) as [Hr [l Hp]].
    split; [exact Hr|]. split; [rewrite Hl; vm_compute; reflexivity|].
    split; [exact Hlive|].
    split.
    + assert (E : prefix_str BASE
                    (job_of (Examples.world BASE Examples.five [] []
                                            (Examples.fails 3) Examples.boom)
                            BASE Examples.NLI Examples.POS [0; 1]%Z 2)
                    +++ " completed"
                  = "[BASE] [GPU 0] (0, 2): completed") by (vm_compute; reflexivity).
      rewrite <- E. apply Hdone. lia.
    + exists l. rewrite Hp. reflexivity.
Defined.

(** ** A batch size below 1 *)

Lemma live_from_no_wait t :
  forallb (fun e => negb (is_wait e)) t = true ->
  forall l, live_from l t = l ++ launched t.
Proof.
  induction t as [|e t IH]; intros H l.
  - cbn. now rewrite app_nil_r.
  - cbn [forallb] in H. apply andb_true_iff in H as [He Ht].
    change (live_from l (e :: t)) with (live_from (live_step l e) t).
    rewrite IH by assumption.
    destruct e; cbn in He; try discriminate; cbn [live_step];
      unfold launched; cbn [flat_map List.app]; try reflexivity.
    now rewrite <- app_assoc.
Qed.

Lemma wait_events_handles ps : wait_events ps = map EvWait (map job_process ps).
Proof. unfold wait_events. now rewrite map_map. Qed.

Section Unbatched.

Variable env : Env.
Variable setting : LingualSetting.
Variable finetuned_task : Experiment.
Variable task : Experiment.
Variable models_per_gpu : Z.
Variable devices : list Z.

Hypothesis Hsmall : (batch_size models_per_gpu devices < 1)%Z.
Hypothesis Hckpt :
  is_not_BASE setting = true ->
  rglob env (finetuned_checkpoint_dir setting finetuned_task) "model_5*.pt" <> [].

(** With a batch size below 1 the test of line 81 never holds: the loop
    starts every job and waits for none. *)
Lemma launch_unbatched hs :
  forall ids i ps w,
    i + length hs <= length ids ->
    exists jobs evs w',
      launch env setting finetuned_task task models_per_gpu devices ids i hs ps w
      = (Ok (ps ++ jobs), w')
      /\ trace w' = trace w ++ evs
      /\ forallb (fun e => negb (is_wait e)) evs = true
      /\ launched evs = seq (length (procs w)) (length hs)
      /\ map job_process jobs = seq (length (procs w)) (length hs).
Proof.
  induction hs as [|[hl hi] rest IH]; intros ids i ps w Hids.
  - exists [], [], w. cbn. unfold ret. rewrite !app_nil_r. auto.
  - rewrite launch_cons. cbn [length] in Hids.
    destruct (nth_error ids i) as [did|] eqn:Hid.
    2:{ apply nth_error_None in Hid. lia. }
    destruct (head_command_found env setting finetuned_task task Hckpt hl hi did)
      as [cmd ->].
    cbv zeta. rewrite length_app. cbn [length].
    destruct (Z.eqb_spec (Z.of_nat (length ps + 1)) (batch_size models_per_gpu devices))
      as [E|_]; [lia|].
    destruct (IH ids (S i) (ps ++ [(hl, hi, did, length (procs w))])
                 (started setting finetuned_task task w hl hi did cmd) ltac:(lia))
      as (jobs & evs & w' & -> & Ht & Hq & Hl & Hj).
    unfold started in Ht, Hl, Hj. cbn [trace procs] in Ht, Hl, Hj.
    rewrite length_app in Hl, Hj. cbn [length] in Hl, Hj.
    replace (length (procs w) + 1) with (S (length (procs w))) in Hl, Hj by lia.
    exists ((hl, hi, did, length (procs w)) :: jobs).
    exists ([EvMkdir (dir_for_head setting finetuned_task task hl hi);
             EvPrint (start_line setting finetuned_task task hl hi did);
             EvPopen (length (procs w)) cmd DEVNULL PIPE] ++ evs).
    exists w'. rewrite <- app_assoc. cbn [List.app].
    split; [reflexivity|].
    split; [rewrite Ht, <- app_assoc; reflexivity|].
    split; [exact Hq|].
    split.
    + unfold launched in Hl |- *. cbn [flat_map List.app seq length].
      now rewrite Hl.
    + cbn [map job_process seq]. now rewrite Hj.
Qed.

End Unbatched.

(** A whole run with a batch size below 1. *)
Lemma unbatched_run env setting finetuned_task task models_per_gpu devices :
  (batch_size models_per_gpu devices < 1)%Z ->
  devices <> [] ->
  (is_not_BASE setting = true ->
   rglob env (finetuned_checkpoint_dir setting finetuned_task) "model_5*.pt" <> []) ->
  let n := length (heads_to_probe env setting finetuned_task task) in
  let r := probe_heads env setting finetuned_task task models_per_gpu devices
                       empty_world in
  fst r = Ok tt
  /\ exists t,
      trace (snd r) = t ++ map EvWait (seq 0 n)
      /\ forallb (fun e => negb (is_wait e)) t = true
      /\ launched t = seq 0 n
      /\ live t = seq 0 n.
Proof.
  intros Hsmall Hd Hckpt. cbv zeta.
  destruct (Nat.eq_dec (length (heads_to_probe env setting finetuned_task task)) 0)
    as [E0|Hne].
  { rewrite E0. apply length_zero_iff_nil in E0.
    rewrite probe_heads_nothing by assumption.
    split; [reflexivity|]. exists []. repeat split; reflexivity. }
  assert (Hh : heads_to_probe env setting finetuned_task task <> [])
    by (intro E; rewrite E in Hne; now apply Hne).
  rewrite probe_heads_unfold by assumption.
  destruct (launch_unbatched env setting finetuned_task task models_per_gpu devices
              Hsmall Hckpt
              (heads_to_probe env setting finetuned_task task)
              (assigned devices 0 (heads_to_probe env setting finetuned_task task))
              0 []
              (add_events empty_world (prelude env setting finetuned_task task devices)))
    as (jobs & evs & w' & -> & Ht & Hq & Hl & Hj).
  { rewrite assigned_length. lia. }
  unfold add_events in Ht, Hl, Hj. cbn [trace procs empty_world length List.app] in *.
  split; [reflexivity|].
  exists (prelude env setting finetuned_task task devices ++ evs).
  pose proof (prelude_quiet env setting finetuned_task task devices) as Hp.
  assert (Hnw : forallb (fun e => negb (is_wait e))
                        (prelude env setting finetuned_task task devices) = true).
  { rewrite forallb_forall in *. intros e He. specialize (Hp e He).
    apply andb_true_iff in Hp. tauto. }
  assert (Hnw' : forallb (fun e => negb (is_wait e))
                         (prelude env setting finetuned_task task devices ++ evs) = true)
    by (rewrite forallb_app, Hnw, Hq; reflexivity).
  assert (Hl' : launched (prelude env setting finetuned_task task devices ++ evs)
                = seq 0 (length (heads_to_probe env setting finetuned_task task))).
  { rewrite launched_app, Hl.
    rewrite (quiet_launched (prelude env setting finetuned_task task devices)); auto. }
  split.
  { rewrite Ht, wait_events_handles, Hj. reflexivity. }
  split; [exact Hnw'|]. split; [exact Hl'|].
  unfold live. rewrite live_from_no_wait by exact Hnw'. exact Hl'.
Qed.

(** X7.  When the batch size [len(devices) * models_per_gpu] is below 1
    (so [models_per_gpu <= 0]) and there are devices and a checkpoint to
    resume from, nothing is batched: [probe_heads] starts all [n] pending
    jobs before it waits for any of them, so all [n] subprocesses run at the
    same time; it then waits for them in order at line 97 and returns
    normally, whatever their exit codes. *)
Theorem probe_heads_unbatched env setting finetuned_task task models_per_gpu devices :
  (batch_size models_per_gpu devices < 1)%Z ->
  devices <> [] ->
  (is_not_BASE setting = true ->
   rglob env (finetuned_checkpoint_dir setting finetuned_task) "model_5*.pt" <> []) ->
  let n := length (heads_to_probe env setting finetuned_task task) in
  let r := probe_heads env setting finetuned_task task models_per_gpu devices
                       empty_world in
  fst r = Ok tt
  /\ exists t,
      trace (snd r) = t ++ map EvWait (seq 0 n)
      /\ forallb (fun e => negb (is_wait e)) t = true
      /\ launched t = seq 0 n
      /\ live t = seq 0 n.
Proof.
  exact (unbatched_run env setting finetuned_task task models_per_gpu devices).
Qed.

(** One device, [models_per_gpu = 0], three pending heads, every subprocess
    exits with code 1. *)
Lemma probe_heads_unbatched_witness :
  let env := Examples.world BASE [(0, 0); (0, 1); (0, 2)] [] []
                            (fun _ => 1%Z) Examples.boom in
  let r := probe_heads env BASE Examples.NLI Examples.POS 0 [0%Z] empty_world in
  fst r = Ok tt
  /\ exists t, trace (snd r) = t ++ [EvWait 0; EvWait 1; EvWait 2]
               /\ live t = [0; 1; 2].
Proof.
  cbv zeta.
  destruct (probe_heads_unbatched
              (Examples.world BASE [(0, 0); (0, 1); (0, 2)] [] []
                              (fun _ => 1%Z) Examples.boom)
              BASE Examples.NLI Examples.POS 0 [0%Z])
    as (Hr & t & Ht & _ & _ & Hlive).
  - vm_compute. reflexivity.
  - discriminate.
  - intro H. discriminate H.
  - split; [exact Hr|]. exists t. split; [exact Ht|exact Hlive].
Defined.

(** * The main block of the script (lines 147-191) *)

Module Script.

(** The parsed command line, as [parser.parse_args()] returns it;
    [arg_devices] is [None] when [--devices] is not given. *)
Record Args : Type := {
  arg_parse_mode : string;
  arg_downstream_task : string;
  arg_downstream_setting : string;
  arg_finetuned_task : string;
  arg_finetuned_setting : string;
  arg_devices : option (list string);
  arg_models_per_gpu : Z
}.

(** What the main block takes from outside the sources.

    Modelled from the spec: the members of the two enums of
    [experiments/exp_def.py], in the order of their declaration
    ([list(Experiment)], [list(LingualSetting)]); the sources do not hold
    the declarations, so both lists are parameters.  [cuda_device_count] is
    [torch.cuda.device_count()]; [py_int] is the builtin [int] on a string,
    [None] standing for its [ValueError]; [py_upper] is the method
    [str.upper]. *)
Record Lib : Type := {
  experiments : list Experiment;
  lingual_settings : list LingualSetting;
  cuda_device_count : nat;
  py_int : string -> option Z;
  py_upper : string -> string
}.

Inductive ScriptExn : Type :=
| KeyError (key : string)
| AttributeError (attr : string)
| IntValueError (text : string)
| Raised (e : Exn).

(** [Experiment[key]] and [LingualSetting[key]]: the member of that name. *)
Definition Experiment_item (lib : Lib) (key : string) : ScriptExn + Experiment :=
  match find (fun e => String.eqb (name e) key) (experiments lib) with
  | Some e => inr e
  | None => inl (KeyError key)
  end.

Definition LingualSetting_item (lib : Lib) (key : string)
  : ScriptExn + LingualSetting :=
  match find (fun s => String.eqb (setting_name s) key) (lingual_settings lib) with
  | Some s => inr s
  | None => inl (KeyError key)
  end.

(** [l.remove(x)]: without the first element equal to [x]; the caller has
    [x] in [l]. *)
Fixpoint remove_first (x : string) (l : list Experiment) : list Experiment :=
  match l with
  | [] => []
  | e :: r => if String.eqb (name e) x then r else e :: remove_first x r
  end.

(** Lines 158-161. *)
Fixpoint parse_devices (lib : Lib) (ds : list string) : ScriptExn + list Z :=
  match ds with
  | [] => inr []
  | d :: r =>
      match py_int lib d with
      | None => inl (IntValueError d)
      | Some z =>
          match parse_devices lib r with
          | inr zs => inr (z :: zs)
          | inl e => inl e
          end
      end
  end.

Definition devices_of (lib : Lib) (args : Args) : ScriptExn + list Z :=
  match arg_devices args with
  | Some ds => parse_devices lib ds
  | None => inr (map Z.of_nat (seq 0 (cuda_device_count lib)))
  end.

(** Lines 163-167. *)
Definition downstream_tasks_of (lib : Lib) (args : Args)
  : ScriptExn + list Experiment :=
  if String.eqb (arg_downstream_task args) ""
  then
    match find (fun e => String.eqb (name e) "NLI") (experiments lib) with
    | Some _ => inr (remove_first "NLI" (experiments lib))
    | None => inl (AttributeError "NLI")
    end
  else
    match Experiment_item lib (py_upper lib (arg_downstream_task args)) with
    | inr e => inr [e]
    | inl x => inl x
    end.

(** Lines 169-172. *)
Definition finetuned_settings_of (lib : Lib) (args : Args)
  : ScriptExn + list LingualSetting :=
  if String.eqb (arg_finetuned_setting args) ""
  then inr (lingual_settings lib)
  else
    match LingualSetting_item lib (py_upper lib (arg_finetuned_setting args)) with
    | inr s => inr [s]
    | inl x => inl x
    end.

(** A run of the script: how it ends ([None]: normally) and the world it
    leaves. *)
Definition Run : Type := World -> option ScriptExn * World.

Definition call (c : M unit) : Run :=
  fun w =>
    match c w with
    | (Ok _, w') => (None, w')
    | (Raise e, w') => (Some (Raised e), w')
    end.

(** A [for] loop whose body may raise. *)
Fixpoint for_each {A : Type} (l : list A) (body : A -> Run) : Run :=
  fun w =>
    match l with
    | [] => (None, w)
    | x :: r =>
        match body x w with
        | (None, w') => for_each r body w'
        | (Some e, w') => (Some e, w')
        end
    end.

(** Lines 176-191: the body of the two loops.  The loop variable [setting]
    is the module-level name that [probe_model] reads: it is bound when the
    call is made. *)
Definition step (lib : Lib) (env : Env) (args : Args) (devices : list Z)
           (downstream_task : Experiment) (setting : LingualSetting) : Run :=
  if String.eqb (arg_parse_mode args) "heads"
  then
    match Experiment_item lib (py_upper lib (arg_finetuned_task args)) with
    | inl x => fun w => (Some x, w)
    | inr finetuned_task =>
        call (probe_heads env setting finetuned_task downstream_task
                          (arg_models_per_gpu args) devices)
    end
  else if String.eqb (arg_parse_mode args) "model"
  then
    match Experiment_item lib (py_upper lib (arg_finetuned_task args)) with
    | inl x => fun w => (Some x, w)
    | inr finetuned_task =>
        match LingualSetting_item lib (py_upper lib (arg_downstream_setting args)) with
        | inl x => fun w => (Some x, w)
        | inr downstream_setting =>
            call (probe_model env (Some setting) setting finetuned_task
                              downstream_setting downstream_task devices)
        end
    end
  else fun w => (None, w).

(** Lines 158-191. *)
Definition main (lib : Lib) (env : Env) (args : Args) : Run :=
  fun w =>
    match devices_of lib args with
    | inl x => (Some x, w)
    | inr devices =>
        match downstream_tasks_of lib args with
        | inl x => (Some x, w)
        | inr downstream_tasks =>
            match finetuned_settings_of lib args with
            | inl x => (Some x, w)
            | inr finetuned_settings =>
                for_each downstream_tasks
                         (fun downstream_task =>
                            for_each finetuned_settings
                                     (step lib env args devices downstream_task))
                         w
            end
        end
    end.

End Script.

Import Script.

Lemma for_each_events {A : Type} (l : list A) (body : A -> Run)
      (ev : A -> list Event) :
  (forall x, In x l -> forall w, body x w = (None, add_events w (ev x))) ->
  forall w, for_each l body w = (None, add_events w (flat_map ev l)).
Proof.
  induction l as [|x r IH]; intros Hbody w.
  - cbn. now rewrite add_events_nil.
  - cbn [for_each flat_map]. rewrite (Hbody x (or_introl eq_refl)).
    rewrite IH by (intros y Hy; apply Hbody; now right).
    now rewrite add_events_app.
Qed.

Lemma for_each_nothing {A : Type} (l : list A) (body : A -> Run) :
  (forall x, In x l -> forall w, body x w = (None, w)) ->
  forall w, for_each l body w = (None, w).
Proof.
  intros Hbody w.
  rewrite (for_each_events l body (fun _ => [])).
  - replace (flat_map (fun _ : A => []) l) with (@nil Event)
      by (clear; induction l as [|x r IH]; [reflexivity|exact IH]).
    apply f_equal, add_events_nil.
  - intros x Hx w0. rewrite add_events_nil. now apply Hbody.
Qed.

(** An example installation: three experiments, the three settings, [int]
    on the texts "0" and "1", and [upper] on ASCII text. *)
Module ScriptExamples.

Definition NER : Experiment := {| name := "NER" |}.

(** [s.upper()] for a text [s] of ASCII characters. *)
Definition upper_ascii (c : ascii) : ascii :=
  let n := nat_of_ascii c in
  if (97 <=? n) && (n <=? 122) then ascii_of_nat (n - 32) else c.

Fixpoint upper (s : string) : string :=
  match s with
  | EmptyString => EmptyString
  | String c r => String (upper_ascii c) (upper r)
  end.

Definition lib (gpus : nat) : Lib :=
  {| experiments := [Examples.NLI; Examples.POS; NER];
     lingual_settings := [CROSS; MULTI; BASE];
     cuda_device_count := gpus;
     py_int := fun s => if String.eqb s "0" then Some 0%Z
                        else if String.eqb s "1" then Some 1%Z
                        else None;
     py_upper := upper |}.

Definition args (mode task ft setting : string) (devices : option (list string))
  : Args :=
  {| arg_parse_mode := mode;
     arg_downstream_task := task;
     arg_downstream_setting := "multi";
     arg_finetuned_task := ft;
     arg_finetuned_setting := setting;
     arg_devices := devices;
     arg_models_per_gpu := 1 |}.

End ScriptExamples.

(** X9.  With a [--parse_mode] other than "heads" and "model" the script
    does nothing: the world is left as it was, and how the script ends only
    depends on the parsing of [--devices], [--downstream_task] and
    [--finetuned_setting]; the name given as [--finetuned_task] is never
    looked up. *)
Theorem main_unknown_mode lib env args w :
  arg_parse_mode args <> "heads" ->
  arg_parse_mode args <> "model" ->
  main lib env args w
  = (match devices_of lib args with
     | inl x => Some x
     | inr _ =>
         match downstream_tasks_of lib args with
         | inl x => Some x
         | inr _ =>
             match finetuned_settings_of lib args with
             | inl x => Some x
             | inr _ => None
             end
         end
     end, w).
Proof.
  intros Hheads Hmodel. unfold main.
  destruct (devices_of lib args) as [x|devices]; [reflexivity|].
  destruct (downstream_tasks_of lib args) as [x|tasks]; [reflexivity|].
  destruct (finetuned_settings_of lib args) as [x|settings]; [reflexivity|].
  apply for_each_nothing. intros task _ w0.
  apply for_each_nothing. intros setting _ w1.
  unfold step.
  destruct (String.eqb_spec (arg_parse_mode args) "heads"); [contradiction|].
  destruct (String.eqb_spec (arg_parse_mode args) "model"); [contradiction|].
  reflexivity.
Qed.

(** The mode "head" (for "heads") and a finetuned task that does not
    exist. *)
Lemma main_unknown_mode_witness :
  main (ScriptExamples.lib 2)
       (Examples.world CROSS Examples.five [] [] Examples.all_succeed Examples.silent)
       (ScriptExamples.args "head" "pos" "no_such_task" "" None) empty_world
  = (None, empty_world).
Proof.
  rewrite (main_unknown_mode
             (ScriptExamples.lib 2)
             (Examples.world CROSS Examples.five [] [] Examples.all_succeed
                             Examples.silent)
             (ScriptExamples.args "head" "pos" "no_such_task" "" None) empty_world);
    [reflexivity|discriminate|discriminate].
Defined.

Lemma all_marked_nothing_pending env setting finetuned_task task :
  (forall hl hi,
      hl < 12 -> hi < 12 ->
      rglob env (dir_for_head setting finetuned_task task hl hi) "model_1_*.pt" <> []) ->
  heads_to_probe env setting finetuned_task task = [].
Proof.
  intro Hall.
  destruct (heads_to_probe env setting finetuned_task task) as [|[hl hi] rest] eqn:E;
    [reflexivity|].
  exfalso.
  assert (Hin : In (hl, hi) (heads_to_probe env setting finetuned_task task))
    by (rewrite E; now left).
  unfold heads_to_probe in Hin. apply filter_In in Hin as [Hg Hu].
  apply in_grid in Hg as [Hl Hi]. unfold unprobed in Hu. cbn [fst snd] in Hu.
  apply Nat.eqb_eq, length_zero_iff_nil in Hu. now apply (Hall hl hi).
Qed.

(** X10.  In mode "heads", when every head of the grid has its completion
    marker for every downstream task and every setting that the script
    loops over, the script ends normally and leaves the world as it was:
    nothing is printed and no subprocess is started. *)
Theorem main_heads_all_probed lib env args w devices tasks settings finetuned_task :
  arg_parse_mode args = "heads" ->
  devices_of lib args = inr devices ->
  downstream_tasks_of lib args = inr tasks ->
  finetuned_settings_of lib args = inr settings ->
  Experiment_item lib (py_upper lib (arg_finetuned_task args)) = inr finetuned_task ->
  (forall task setting hl hi,
      In task tasks -> In setting settings -> hl < 12 -> hi < 12 ->
      rglob env (dir_for_head setting finetuned_task task hl hi) "model_1_*.pt" <> []) ->
  main lib env args w = (None, w).
Proof.
  intros Hmode Hd Ht Hs Hft Hall. unfold main. rewrite Hd, Ht, Hs.
  apply for_each_nothing. intros task Htask w0.
  apply for_each_nothing. intros setting Hsetting w1.
  unfold step. rewrite Hmode, Hft, String.eqb_refl. unfold call.
  rewrite probe_heads_nothing; [reflexivity|].
  apply all_marked_nothing_pending. intros hl hi Hl Hi. now apply Hall.
Qed.

Lemma main_heads_all_probed_witness :
  main (ScriptExamples.lib 2)
       (Examples.world CROSS [] [] [] Examples.all_succeed Examples.silent)
       (ScriptExamples.args "heads" "" "nli" "" (Some ["0"; "1"])) empty_world
  = (None, empty_world).
Proof.
  apply (main_heads_all_probed
           (ScriptExamples.lib 2)
           (Examples.world CROSS [] [] [] Examples.all_succeed Examples.silent)
           (ScriptExamples.args "heads" "" "nli" "" (Some ["0"; "1"])) empty_world
           [0; 1]%Z [Examples.POS; ScriptExamples.NER] [CROSS; MULTI; BASE]
           Examples.NLI); try reflexivity.
  intros task setting hl hi _ _ _ _. cbn. discriminate.
Defined.

(** X11.  In mode "model", when the target directory of every pair of a
    downstream task and a setting exists, the script starts no subprocess
    and ends normally: it prints one "exists, skipping" line for each pair,
    task by task and, within a task, setting by setting; the info of the
    line names the setting of the pair. *)
Theorem main_model_all_done lib env args w devices tasks settings finetuned_task
        downstream_setting :
  arg_parse_mode args = "model" ->
  devices_of lib args = inr devices ->
  downstream_tasks_of lib args = inr tasks ->
  finetuned_settings_of lib args = inr settings ->
  Experiment_item lib (py_upper lib (arg_finetuned_task args)) = inr finetuned_task ->
  LingualSetting_item lib (py_upper lib (arg_downstream_setting args)) = inr downstream_setting ->
  (forall task setting,
      In task tasks -> In setting settings ->
      is_dir env (model_checkpoint_dir setting finetuned_task downstream_setting task)
      = true) ->
  main lib env args w
  = (None,
     add_events w
       (flat_map
          (fun task =>
             flat_map
               (fun setting =>
                  [EvPrint (model_checkpoint_dir setting finetuned_task
                                                 downstream_setting task
                            +++ " exists, skipping "
                            +++ name finetuned_task +++ "_"
                            +++ Py.lower (setting_name setting) +++ " -> "
                            +++ name task +++ ", "
                            +++ Py.lower (setting_name downstream_setting))])
               settings)
          tasks)).
Proof.
  intros Hmode Hd Ht Hs Hft Hds Hall. unfold main. rewrite Hd, Ht, Hs.
  apply for_each_events. intros task Htask w0.
  apply for_each_events. intros setting Hsetting w1.
  unfold step. rewrite Hmode, Hft, Hds.
  change (String.eqb "model" "heads") with false. rewrite String.eqb_refl.
  unfold call. rewrite probe_model_unfold, (Hall task setting Htask Hsetting).
  reflexivity.
Qed.

Lemma main_model_all_done_witness :
  main (ScriptExamples.lib 2)
       (Examples.world CROSS [] []
          ["checkpoint/full_model_probe/multi_head_training/NLI/cross/POS";
           "checkpoint/full_model_probe/multi_head_training/NLI/multi/POS";
           "checkpoint/full_model_probe/multi_head_training/mBERT/POS"]
          Examples.all_succeed Examples.silent)
       (ScriptExamples.args "model" "pos" "nli" "" None) empty_world
  = (None,
     {| trace :=
          [EvPrint ("checkpoint/full_model_probe/multi_head_training/NLI/cross/POS"
                    +++ " exists, skipping NLI_cross -> POS, multi");
           EvPrint ("checkpoint/full_model_probe/multi_head_training/NLI/multi/POS"
                    +++ " exists, skipping NLI_multi -> POS, multi");
           EvPrint ("checkpoint/full_model_probe/multi_head_training/mBERT/POS"
                    +++ " exists, skipping NLI_base -> POS, multi")];
        procs := [] |}).
Proof.
  rewrite (main_model_all_done
             (ScriptExamples.lib 2)
             (Examples.world CROSS [] []
                ["checkpoint/full_model_probe/multi_head_training/NLI/cross/POS";
                 "checkpoint/full_model_probe/multi_head_training/NLI/multi/POS";
                 "checkpoint/full_model_probe/multi_head_training/mBERT/POS"]
                Examples.all_succeed Examples.silent)
             (ScriptExamples.args "model" "pos" "nli" "" None) empty_world
             [0; 1]%Z [Examples.POS] [CROSS; MULTI; BASE] Examples.NLI MULTI
             eq_refl eq_refl eq_refl eq_refl eq_refl eq_refl).
  - reflexivity.
  - intros task setting [<-|[]] [<-|[<-|[<-|[]]]]; reflexivity.
Defined.

(** X12.  In the modes "heads" and "model", when what [str.upper] makes of
    the name given as [--finetuned_task] is not the name of an experiment and
    there is at least one downstream task and one setting to loop over, the
    script stops with [KeyError] at its first call: the world is left as it
    was, so no subprocess is started. *)
Theorem main_unknown_finetuned_task lib env args w devices task tasks setting settings :
  arg_parse_mode args = "heads" \/ arg_parse_mode args = "model" ->
  devices_of lib args = inr devices ->
  downstream_tasks_of lib args = inr (task :: tasks) ->
  finetuned_settings_of lib args = inr (setting :: settings) ->
  (forall e, In e (experiments lib) -> name e <> py_upper lib (arg_finetuned_task args)) ->
  main lib env args w = (Some (KeyError (py_upper lib (arg_finetuned_task args))), w).
Proof.
  intros Hmode Hd Ht Hs Hnone. unfold main. rewrite Hd, Ht, Hs.
  cbn [for_each]. unfold step, Experiment_item.
  destruct (find _ (experiments lib)) as [e|] eqn:E.
  { apply find_some in E as [Hin He]. apply String.eqb_eq in He.
    now destruct (Hnone e Hin). }
  destruct Hmode as [-> | ->].
  - rewrite String.eqb_refl. reflexivity.
  - change (String.eqb "model" "heads") with false. rewrite String.eqb_refl.
    reflexivity.
Qed.

Lemma main_unknown_finetuned_task_witness :
  main (ScriptExamples.lib 2)
       (Examples.world CROSS Examples.five [] [] Examples.all_succeed Examples.silent)
       (ScriptExamples.args "heads" "pos" "xnli" "cross" None) empty_world
  = (Some (KeyError "XNLI"), empty_world).
Proof.
  apply (main_unknown_finetuned_task
           (ScriptExamples.lib 2)
           (Examples.world CROSS Examples.five [] [] Examples.all_succeed
                           Examples.silent)
           (ScriptExamples.args "heads" "pos" "xnli" "cross" None) empty_world
           [0; 1]%Z Examples.POS [] CROSS []);
    try reflexivity.
  - now left.
  - intros e [<-|[<-|[<-|[]]]]; discriminate.
Defined.

(** X13.  On a machine where [torch.cuda.device_count()] is 0 and without
    [--devices], the device list is empty: in mode "heads" the script stops
    with [ZeroDivisionError] at the first pair of a task and a setting that
    has pending heads, when that pair is the first of the loops, before
    anything is printed or started. *)
Theorem main_heads_without_gpu lib env args w task tasks setting settings
        finetuned_task :
  arg_parse_mode args = "heads" ->
  arg_devices args = None ->
  cuda_device_count lib = 0 ->
  downstream_tasks_of lib args = inr (task :: tasks) ->
  finetuned_settings_of lib args = inr (setting :: settings) ->
  Experiment_item lib (py_upper lib (arg_finetuned_task args)) = inr finetuned_task ->
  heads_to_probe env setting finetuned_task task <> [] ->
  main lib env args w = (Some (Raised ZeroDivisionError), w).
Proof.
  intros Hmode Hnone Hgpu Ht Hs Hft Hh. unfold main, devices_of.
  rewrite Hnone, Hgpu, Ht, Hs. cbn [seq map for_each].
  unfold step. rewrite Hmode, Hft, String.eqb_refl. unfold call.
  now rewrite probe_heads_no_devices.
Qed.

Lemma main_heads_without_gpu_witness :
  main (ScriptExamples.lib 0)
       (Examples.world CROSS Examples.five [] [] Examples.all_succeed Examples.silent)
       (ScriptExamples.args "heads" "pos" "nli" "cross" None) empty_world
  = (Some (Raised ZeroDivisionError), empty_world).
Proof.
  apply (main_heads_without_gpu
           (ScriptExamples.lib 0)
           (Examples.world CROSS Examples.five [] [] Examples.all_succeed
                           Examples.silent)
           (ScriptExamples.args "heads" "pos" "nli" "cross" None) empty_world
           Examples.POS [] CROSS [] Examples.NLI);
    try reflexivity.
  vm_compute. discriminate.
Defined.

Lemma filter_other_names x l :
  ~ In x (map name l) ->
  filter (fun e => negb (String.eqb (name e) x)) l = l.
Proof.
  induction l as [|y r IH]; intro Hnot; [reflexivity|].
  cbn [filter map] in *.
  destruct (String.eqb_spec (name y) x) as [E|E]; cbn [negb].
  - exfalso. apply Hnot. now left.
  - f_equal. apply IH. intro Hin. apply Hnot. now right.
Qed.

Lemma remove_first_filter x l :
  NoDup (map name l) ->
  remove_first x l = filter (fun e => negb (String.eqb (name e) x)) l.
Proof.
  induction l as [|e r IH]; intro Hnd; [reflexivity|].
  cbn [map] in Hnd. inversion Hnd as [|a l' Hnot Hnd' [Ea El]].
  cbn [remove_first filter].
  destruct (String.eqb_spec (name e) x) as [E|E]; cbn [negb].
  - symmetry. apply filter_other_names. now rewrite <- E.
  - now rewrite IH.
Qed.

(** X14.  Without [--downstream_task], and the experiments having distinct
    names one of which is NLI, the downstream tasks that the script loops
    over are all the experiments but NLI, in the order of their declaration:
    NLI is never probed as a downstream task. *)
Theorem default_downstream_tasks lib args :
  arg_downstream_task args = "" ->
  NoDup (map name (experiments lib)) ->
  In "NLI" (map name (experiments lib)) ->
  exists tasks,
    downstream_tasks_of lib args = inr tasks
    /\ tasks = filter (fun e => negb (String.eqb (name e) "NLI")) (experiments lib)
    /\ ~ In "NLI" (map name tasks).
Proof.
  intros Hempty Hnd Hin. unfold downstream_tasks_of. rewrite Hempty.
  change (String.eqb "" "") with true. cbv iota.
  destruct (find _ (experiments lib)) as [e|] eqn:E.
  - eexists. split; [reflexivity|]. split; [now apply remove_first_filter|].
    rewrite remove_first_filter by assumption.
    intro H. apply in_map_iff in H as [y [Hy Hiny]].
    apply filter_In in Hiny as [_ Hneg]. rewrite Hy in Hneg. discriminate.
  - exfalso. apply in_map_iff in Hin as [y [Hy Hiny]].
    pose proof (find_none _ _ E y Hiny) as Hf. cbn in Hf. rewrite Hy in Hf.
    discriminate.
Qed.

Lemma default_downstream_tasks_witness :
  downstream_tasks_of (ScriptExamples.lib 2)
                      (ScriptExamples.args "model" "" "nli" "" None)
  = inr [Examples.POS; ScriptExamples.NER].
Proof.
  destruct (default_downstream_tasks
              (ScriptExamples.lib 2) (ScriptExamples.args "model" "" "nli" "" None))
    as [tasks [-> [-> _]]].
  - reflexivity.
  - repeat constructor; cbn; intuition discriminate.
  - cbn. auto.
  - reflexivity.
Defined.

(** ** The load of a device in a full batch *)

Section RoundRobin.

Variable devices : list Z.

(** The device of the job with index [k]. *)
Definition device_of (k : nat) : Z := nth (k mod length devices) devices 0%Z.

Lemma assigned_device_of i hs : assigned devices i hs = map device_of (seq i (length hs)).
Proof. reflexivity. Qed.

Lemma device_of_period k : devices <> [] -> device_of (k + length devices) = device_of k.
Proof.
  intro Hd. unfold device_of. f_equal.
  rewrite <- (Nat.Div0.mod_add k 1 (length devices)). f_equal. lia.
Qed.

Lemma device_of_first : map device_of (seq 0 (length devices)) = devices.
Proof.
  apply nth_ext with (d := 0%Z) (d' := 0%Z).
  - now rewrite length_map, length_seq.
  - intros n Hn. rewrite length_map, length_seq in Hn.
    rewrite (nth_indep _ 0%Z (device_of 0)) by (now rewrite length_map, length_seq).
    rewrite map_nth, seq_nth by exact Hn. unfold device_of. cbn [Nat.add].
    now rewrite Nat.mod_small by exact Hn.
Qed.

(** Any [len(devices)] consecutive jobs get every device as often as the
    device list holds it. *)
Lemma count_block d :
  devices <> [] ->
  forall a,
    count_occ Z.eq_dec (map device_of (seq a (length devices))) d
    = count_occ Z.eq_dec devices d.
Proof.
  intros Hd a. induction a as [|a IH].
  - now rewrite device_of_first.
  - assert (E : count_occ Z.eq_dec (map device_of (seq a (S (length devices)))) d
                = count_occ Z.eq_dec (map device_of (seq a (length devices))) d
                  + count_occ Z.eq_dec [device_of (a + length devices)] d)
      by (rewrite seq_S, map_app, count_occ_app; reflexivity).
    assert (E' : count_occ Z.eq_dec (map device_of (seq a (S (length devices)))) d
                 = count_occ Z.eq_dec [device_of a] d
                   + count_occ Z.eq_dec (map device_of (seq (S a) (length devices))) d).
    { change (seq a (S (length devices))) with ([a] ++ seq (S a) (length devices)).
      rewrite map_app, count_occ_app. reflexivity. }
    rewrite device_of_period in E by exact Hd. lia.
Qed.

Lemma count_blocks d m :
  devices <> [] ->
  forall a,
    count_occ Z.eq_dec (map device_of (seq a (length devices * m))) d
    = count_occ Z.eq_dec devices d * m.
Proof.
  intro Hd. induction m as [|m IH]; intro a.
  - rewrite !Nat.mul_0_r. reflexivity.
  - replace (length devices * S m) with (length devices + length devices * m) by lia.
    rewrite seq_app, map_app, count_occ_app, count_block, IH by exact Hd. lia.
Qed.

End RoundRobin.

Lemma firstn_seq_le n :
  forall a len, n <= len -> firstn n (seq a len) = seq a n.
Proof.
  induction n as [|n IH]; intros a len Hle; [reflexivity|].
  destruct len as [|len]; [lia|]. cbn [seq firstn]. f_equal. apply IH. lia.
Qed.

(** X15.  The jobs of a full batch load the devices alike.  With devices and
    [models_per_gpu >= 1], lines 48-50 give the list [device_ids]; the batch
    with number [k] is the slice of the jobs [k * width .. (k + 1) * width - 1]
    of it, where [width = len(devices) * models_per_gpu]; when the pending
    list holds the whole batch, a device is the device of [models_per_gpu]
    jobs of the batch for each time that the device list names it, that is,
    of exactly [models_per_gpu] jobs when the devices are distinct. *)
Theorem full_batch_load (devices : list Z) (models_per_gpu : Z)
        (hs : list (nat * nat)) (k : nat) (d : Z) w :
  (1 <= models_per_gpu)%Z ->
  devices <> [] ->
  (k + 1) * width models_per_gpu devices <= length hs ->
  exists device_ids,
    assign_devices devices 0 hs [] w = (Ok device_ids, w)
    /\ count_occ Z.eq_dec
                 (firstn (width models_per_gpu devices)
                         (skipn (k * width models_per_gpu devices) device_ids)) d
       = count_occ Z.eq_dec devices d * Z.to_nat models_per_gpu
    /\ (NoDup devices -> In d devices ->
        count_occ Z.eq_dec
                  (firstn (width models_per_gpu devices)
                          (skipn (k * width models_per_gpu devices) device_ids)) d
        = Z.to_nat models_per_gpu).
Proof.
  intros Hm Hd Hlen. exists (assigned devices 0 hs).
  rewrite assign_devices_spec by exact Hd. cbn [List.app].
  split; [reflexivity|].
  assert (Hw : width models_per_gpu devices = length devices * Z.to_nat models_per_gpu).
  { unfold width, batch_size. rewrite Z2Nat.inj_mul, Nat2Z.id by lia. reflexivity. }
  assert (Hcount :
            count_occ Z.eq_dec
                      (firstn (width models_per_gpu devices)
                              (skipn (k * width models_per_gpu devices)
                                     (assigned devices 0 hs))) d
            = count_occ Z.eq_dec devices d * Z.to_nat models_per_gpu).
  { rewrite assigned_device_of, skipn_map, firstn_map, skipn_seq.
    rewrite firstn_seq_le by lia. rewrite Hw. now apply count_blocks. }
  split; [exact Hcount|].
  intros Hnd Hin. rewrite Hcount.
  assert (Hone : count_occ Z.eq_dec devices d = 1).
  { pose proof (proj1 (NoDup_count_occ Z.eq_dec devices) Hnd d) as Hle.
    pose proof (proj1 (count_occ_In Z.eq_dec devices d) Hin) as Hpos. lia. }
  rewrite Hone. lia.
Qed.

(** Three devices, two models per GPU, twelve pending heads: the second
    batch is the jobs 6..11, of which two get the device 1. *)
Lemma full_batch_load_witness :
  exists device_ids,
    assign_devices [0; 1; 2]%Z 0 (list_prod [0] (seq 0 12)) [] empty_world
    = (Ok device_ids, empty_world)
    /\ firstn 6 (skipn 6 device_ids) = [0; 1; 2; 0; 1; 2]%Z
    /\ count_occ Z.eq_dec (firstn 6 (skipn 6 device_ids)) 1%Z = 2.
Proof.
  destruct (full_batch_load [0; 1; 2]%Z 2 (list_prod [0] (seq 0 12)) 1 1%Z empty_world)
    as (ids & Hrun & _ & Hone).
  - lia.
  - discriminate.
  - apply Nat.leb_le. vm_compute. reflexivity.
  - exists ids. split; [exact Hrun|].
    split.
    + vm_compute in Hrun. injection Hrun as <-. reflexivity.
    + apply Hone.
      * repeat constructor; cbn; intuition discriminate.
      * cbn. auto.
Defined.
